(** * pastelup: service management, working-environment setup, masternode
      parameter resolution and the cold/hot orchestrator

    A shallow embedding of the Go sources

    - [servicemanager] (the [ServiceManager] interface with its systemd and
      no-op implementations),
    - [cmd/install] ([setupBasePasteWorkingEnvironment],
      [updatePastelConfigFile]),
    - [cmd/start] ([runStartMasternode], [prepareMasterNodeParameters],
      [checkCollateral] and the other parameter checks),
    - [cmd/start_coldhot] in its two revisions ([ColdHotRunner.Run] and the
      remote polling helpers),

    followed by the properties established about them.

    Go values are modelled directly: [string] is a byte string, [int] is [Z],
    an [error] is [option string] ([None] is [nil]), a [map[string]string] is
    a [gmap string string].  Code that talks to the outside (the remote
    shell, the node's command-line client, the operator, systemd, the file
    system) runs in a state monad over an event log; the answers of the
    outside are given by a [World], which sees the log so far. *)

From Stdlib Require Import ZArith Lia String Ascii List.
From stdpp Require Import base strings list gmap pretty.

Open Scope string_scope.
Open Scope list_scope.
Open Scope Z_scope.

(** ** The Go library functions the sources rely on *)

Module Go.

(** A Go [error]: [None] is [nil]. *)
Definition error := option string.

(** [strings.Contains s substr]. *)
Fixpoint strings_Contains (s substr : string) : bool :=
  String.prefix substr s ||
  match s with
  | EmptyString => false
  | String _ s' => strings_Contains s' substr
  end.

(** [strings.Split s sep] for a separator of one byte. *)
Fixpoint strings_Split (s : string) (sep : ascii) : list string :=
  match s with
  | EmptyString => [EmptyString]
  | String c s' =>
      if Ascii.eqb c sep then EmptyString :: strings_Split s' sep
      else match strings_Split s' sep with
           | [] => [String c EmptyString]
           | x :: xs => String c x :: xs
           end
  end.

(** [strings.Join elems sep]. *)
Definition strings_Join (elems : list string) (sep : string) : string :=
  String.concat sep elems.

(** [strings.ReplaceAll s old new] for [old] and [new] of one byte. *)
Fixpoint strings_ReplaceAll (s : string) (old new : ascii) : string :=
  match s with
  | EmptyString => EmptyString
  | String c s' =>
      String (if Ascii.eqb c old then new else c) (strings_ReplaceAll s' old new)
  end.

Fixpoint trim_left (s : string) (c : ascii) : string :=
  match s with
  | String d s' => if Ascii.eqb d c then trim_left s' c else s
  | EmptyString => EmptyString
  end.

Fixpoint trim_right (s : string) (c : ascii) : string :=
  match s with
  | EmptyString => EmptyString
  | String d s' =>
      match trim_right s' c with
      | EmptyString => if Ascii.eqb d c then EmptyString else String d EmptyString
      | r => String d r
      end
  end.

(** [strings.Trim s cutset] for a cutset of one byte. *)
Definition strings_Trim (s : string) (c : ascii) : string :=
  trim_right (trim_left s c) c.

(** [strings.TrimSuffix s suffix] for a suffix of one byte. *)
Fixpoint strings_TrimSuffix (s : string) (c : ascii) : string :=
  match s with
  | EmptyString => EmptyString
  | String d EmptyString => if Ascii.eqb d c then EmptyString else s
  | String d s' => String d (strings_TrimSuffix s' c)
  end.

(** [strings.EqualFold s "n"]: the only strings that fold to ["n"]. *)
Definition strings_EqualFold_n (s : string) : bool :=
  String.eqb s "n" || String.eqb s "N".

(** [strconv.Itoa]. *)
Definition strconv_Itoa (n : Z) : string := pretty n.

Definition digit_of (c : ascii) : option Z :=
  let n := Z.of_N (N_of_ascii c) in
  if (48 <=? n) && (n <=? 57) then Some (n - 48) else None.

Fixpoint digits_value (s : string) (acc : Z) : option Z :=
  match s with
  | EmptyString => Some acc
  | String c s' =>
      match digit_of c with
      | Some d => digits_value s' (10 * acc + d)
      | None => None
      end
  end.

(** [strconv.Atoi] on a 64-bit platform; [None] is the error result. *)
Definition strconv_Atoi (s : string) : option Z :=
  let '(neg, body) :=
    match s with
    | String "-"%char r => (true, r)
    | String "+"%char r => (false, r)
    | _ => (false, s)
    end in
  match body with
  | EmptyString => None
  | _ =>
      match digits_value body 0 with
      | Some v =>
          let v := if neg then - v else v in
          if (- 2 ^ 63 <=? v) && (v <=? 2 ^ 63 - 1) then Some v else None
      | None => None
      end
  end.

(** One step of [filepath.Clean] on a slash-separated path: [stack] holds
    the components kept so far, the last one first. *)
Definition clean_step (rooted : bool) (stack : list string) (comp : string)
  : list string :=
  if String.eqb comp "" || String.eqb comp "." then stack
  else if String.eqb comp ".." then
    match stack with
    | top :: rest => if String.eqb top ".." then comp :: stack else rest
    | [] => if rooted then [] else [comp]
    end
  else comp :: stack.

(** [filepath.Clean] with [/] as the separator. *)
Definition filepath_Clean (p : string) : string :=
  let rooted := String.prefix "/" p in
  let comps := rev (fold_left (clean_step rooted) (strings_Split p "/"%char) []) in
  let body := strings_Join comps "/" in
  if rooted then "/" +:+ body
  else if String.eqb body "" then "." else body.

Fixpoint drop_empty (elems : list string) : list string :=
  match elems with
  | "" :: rest => drop_empty rest
  | _ => elems
  end.

(** [filepath.Join]: leading empty elements are skipped, the rest is
    joined with the separator and cleaned; no element at all gives [""]. *)
Definition filepath_Join (elems : list string) : string :=
  match drop_empty elems with
  | [] => ""
  | rest => filepath_Clean (strings_Join rest "/")
  end.

End Go.

Import Go.

(** Outcome of a Go function of result type [error] (or [(A, error)] whose
    value is only used when the error is [nil]): it returns normally, returns
    a non-nil error, panics, or is still running when the model's step budget
    ends. *)
Inductive outcome (A : Type) : Type :=
| Done (a : A)
| Raise (e : string)
| Panic
| Timeout.
Arguments Done {A} a.
Arguments Raise {A} e.
Arguments Panic {A}.
Arguments Timeout {A}.

(** ** Package [servicemanager] *)

Module servicemanager.

(** [constants.ToolType] and [constants.OSType] are Go string types; a
    tool is kept as its string, the operating system as the four values
    the package declares. *)
Definition ToolType := string.

Inductive OSType := Windows | Linux | Mac | Unknown.

#[global] Instance OSType_eq_dec : EqDecision OSType.
Proof. solve_decision. Defined.

Definition OSType_string (os : OSType) : string :=
  match os with
  | Windows => "Windows"
  | Linux => "Linux"
  | Mac => "MAC"
  | Unknown => "Unknown"
  end.

(** [constants.PasteldName]. *)
Definition PasteldName (os : OSType) : string :=
  match os with
  | Windows => "pasteld.exe"
  | Linux => "pasteld"
  | Mac => "pasteld"
  | Unknown => ""
  end.

(** [constants.PastelCliName]. *)
Definition PastelCliName (os : OSType) : string :=
  match os with
  | Windows => "pastel-cli.exe"
  | Linux => "pastel-cli"
  | Mac => "pastel-cli"
  | Unknown => ""
  end.

Inductive systemdCmd := start | stop | enable | disable | status.

Definition systemdCmd_string (c : systemdCmd) : string :=
  match c with
  | start => "start"
  | stop => "stop"
  | enable => "enable"
  | disable => "disable"
  | status => "status"
  end.

(** The constants of package [constants] used here whose declarations are
    not among the sources. *)
Record Constants := {
  SystemdSystemDir : string;
  SystemdUserDir : string;
  SystemdServicePrefix : string;
  DDImgService : ToolType;
  PastelD : ToolType;
  RQService : ToolType;
  DDService : ToolType;
  SuperNode : ToolType;
  WalletNode : ToolType;
  DupeDetectionServiceDir : string;
  DupeDetectionSupportFilePath : string;
  DupeDetectionConfigFilename : string;
  PastelRQServiceExecName : OSType -> string;
  SuperNodeExecName : OSType -> string;
  WalletNodeExecName : OSType -> string;
  GetDupeDetectionExecName : string;
}.

(** The methods of [configs.Configurer] and the fields of [configs.Config]
    read by [RegisterService]. *)
Record Config := {
  PastelExecDir : string;
  WorkingDir : string;
  GetRQServiceConfFile : string -> string;
  GetSuperNodeConfFile : string -> string;
  GetWalletNodeConfFile : string -> string;
}.

Record ResgistrationParams := {
  Force : bool;
  FlagDevMode : bool;
  Config_ : Config;
}.

(** [configs.SystemdServiceScript]. *)
Record SystemdServiceScript := {
  Desc : string;
  ExecCmd : string;
  WorkDir : string;
}.

(** A [systemctl] invocation. *)
Inductive Event := Systemctl (command : systemdCmd) (serviceName : string).

(** The host: regular files by path and the [systemctl] invocations made
    so far, oldest first. *)
Record State := {
  files : gmap string string;
  journal : list Event;
}.

(** What the host answers.  [stat_error] gives the paths whose [os.Stat]
    fails for a reason other than the file being absent, [write_error] the
    paths at which [ioutil.WriteFile] fails. *)
Record World := {
  GetOS : OSType;
  GetExternalIPAddress : string * error;
  GetServiceConfig : string -> SystemdServiceScript -> string * error;
  stat_error : string -> option string;
  write_error : string -> option string;
  systemctl : list Event -> systemdCmd -> string -> string * error;
}.

Inductive StatResult := StatOk | StatNotExist | StatErr (e : string).

(** [os.Stat]. *)
Definition os_Stat (W : World) (st : State) (fp : string) : StatResult :=
  match files st !! fp with
  | Some _ => StatOk
  | None =>
      match stat_error W fp with
      | Some e => StatErr e
      | None => StatNotExist
      end
  end.

(** [utils.CheckFileExist]. *)
Definition CheckFileExist (st : State) (fp : string) : bool :=
  bool_decide (is_Some (files st !! fp)).

(** [ioutil.WriteFile]. *)
Definition ioutil_WriteFile (W : World) (fp content : string) (st : State)
  : error * State :=
  match write_error W fp with
  | Some e => (Some e, st)
  | None => (None, {| files := <[fp := content]> (files st); journal := journal st |})
  end.

(** [runSystemdCmd]: runs [systemctl command serviceName] and returns its
    combined output. *)
Definition runSystemdCmd (W : World) (command : systemdCmd) (serviceName : string)
    (st : State) : (string * error) * State :=
  (systemctl W (journal st) command serviceName,
   {| files := files st; journal := journal st ++ [Systemctl command serviceName] |}).

(** What the [switch] of [RegisterService] leaves behind: the command and
    directory of the unit, or the value returned from inside a case. *)
Inductive launch :=
| Launch (execCmd workDir : string)
| Return (err : error).

Module LinuxSystemdManager.

Record t := { homeDir : string }.

Section methods.
Context (W : World) (K : Constants).

Definition ServiceName (sm : t) (app : ToolType) : string :=
  SystemdServicePrefix K +:+ app +:+ ".service".

Definition IsRegistered (sm : t) (app : ToolType) (st : State) : bool * error :=
  let fp := filepath_Join [homeDir sm; SystemdUserDir K; ServiceName sm app] in
  match os_Stat W st fp with
  | StatNotExist => (false, None)
  | StatErr e => (false, Some e)
  | StatOk => (true, None)
  end.

Definition IsRunning (sm : t) (app : ToolType) (st : State) : bool * State :=
  let '((res, _), st1) := runSystemdCmd W status (ServiceName sm app) st in
  (strings_Contains res "(running)", st1).

Definition EnableService (sm : t) (app : ToolType) (st : State) : error * State :=
  let appServiceFileName := ServiceName sm app in
  match runSystemdCmd W enable appServiceFileName st with
  | ((_, Some err), st1) =>
      (Some ("err enabling " +:+ appServiceFileName +:+ " - err: " +:+ err), st1)
  | ((_, None), st1) => (None, st1)
  end.

Definition DisableService (sm : t) (app : ToolType) (st : State) : error * State :=
  let appServiceFileName := ServiceName sm app in
  match runSystemdCmd W disable appServiceFileName st with
  | ((_, Some err), st1) =>
      (Some ("err enabling " +:+ appServiceFileName +:+ " - err: " +:+ err), st1)
  | ((_, None), st1) => (None, st1)
  end.

(** The [switch app] of [RegisterService].  In the cases that look for
    the executable, [err] is still [nil] when it is returned. *)
Definition launchSpec (sm : t) (app : ToolType) (params : ResgistrationParams)
    (st : State) : launch :=
  let cfg := Config_ params in
  if String.eqb app (DDImgService K) then
    let appBaseDir := filepath_Join [homeDir sm; DupeDetectionServiceDir K] in
    let appServiceWorkDirPath := filepath_Join [appBaseDir; "img_server"] in
    Launch "python3 -m  http.server 8000" appServiceWorkDirPath
  else if String.eqb app (PastelD K) then
    let execPath := filepath_Join [PastelExecDir cfg; PasteldName (GetOS W)] in
    if negb (CheckFileExist st execPath) then Return None
    else
      match GetExternalIPAddress W with
      | (_, Some err) => Return (Some err)
      | (extIP, None) =>
          Launch (execPath +:+ " --datadir=" +:+ WorkingDir cfg +:+ " --externalip=" +:+ extIP)
                 (PastelExecDir cfg)
      end
  else if String.eqb app (RQService K) then
    let execPath := filepath_Join [PastelExecDir cfg; PastelRQServiceExecName K (GetOS W)] in
    if negb (CheckFileExist st execPath) then Return None
    else
      let rqServiceArgs := "--config-file=" +:+ GetRQServiceConfFile cfg (WorkingDir cfg) in
      Launch (execPath +:+ " " +:+ rqServiceArgs) (PastelExecDir cfg)
  else if String.eqb app (DDService K) then
    let execPath := filepath_Join [PastelExecDir cfg; GetDupeDetectionExecName K] in
    if negb (CheckFileExist st execPath) then Return None
    else
      let ddConfigFilePath :=
        filepath_Join [homeDir sm; DupeDetectionServiceDir K;
                       DupeDetectionSupportFilePath K; DupeDetectionConfigFilename K] in
      Launch ("python3 " +:+ execPath +:+ " " +:+ ddConfigFilePath) (PastelExecDir cfg)
  else if String.eqb app (SuperNode K) then
    let execPath := filepath_Join [PastelExecDir cfg; SuperNodeExecName K (GetOS W)] in
    if negb (CheckFileExist st execPath) then Return None
    else
      let supernodeConfigPath := GetSuperNodeConfFile cfg (WorkingDir cfg) in
      Launch (execPath +:+ " --config-file=" +:+ supernodeConfigPath) (PastelExecDir cfg)
  else if String.eqb app (WalletNode K) then
    let execPath := filepath_Join [PastelExecDir cfg; WalletNodeExecName K (GetOS W)] in
    if negb (CheckFileExist st execPath) then Return None
    else
      let walletnodeConfigFile := GetWalletNodeConfFile cfg (WorkingDir cfg) in
      let execCmd := execPath +:+ " --config-file=" +:+ walletnodeConfigFile in
      Launch (if FlagDevMode params then execCmd +:+ " --swagger" else execCmd)
             (PastelExecDir cfg)
  else Return None.

(** The path at which [RegisterService] installs the unit file. *)
Definition appServiceFilePath (sm : t) (app : ToolType) : string :=
  filepath_Join [SystemdSystemDir K; ServiceName sm app].

Definition RegisterService (sm : t) (app : ToolType) (params : ResgistrationParams)
    (st : State) : error * State :=
  if (IsRegistered sm app st).1 then (None, st)
  else
    match launchSpec sm app params st with
    | Return err => (err, st)
    | Launch execCmd workDir =>
        match GetServiceConfig W app
                {| Desc := app +:+ " daemon"; ExecCmd := execCmd; WorkDir := workDir |} with
        | (_, Some err) =>
            (Some ("unable ot create service file for (" +:+ app +:+ "): " +:+ err), st)
        | (systemdFile, None) =>
            (* a failure of the write is logged and nothing more *)
            let '(_, st1) := ioutil_WriteFile W (appServiceFilePath sm app) systemdFile st in
            let '(_, st2) := EnableService sm app st1 in
            (None, st2)
        end
    end.

Definition StartService (sm : t) (app : ToolType) (st : State)
  : (bool * error) * State :=
  let '(isRegisted, _) := IsRegistered sm app st in
  if negb isRegisted then ((false, None), st)
  else
    let '(isRunning, st1) := IsRunning sm app st in
    if isRunning then ((true, None), st1)
    else
      match runSystemdCmd W start (ServiceName sm app) st1 with
      | ((_, Some err), st2) =>
          ((false, Some ("unable to start service (" +:+ app +:+ "): " +:+ err)), st2)
      | ((_, None), st2) => ((true, None), st2)
      end.

Definition StopService (sm : t) (app : ToolType) (st : State) : error * State :=
  match DisableService sm app st with
  | (Some err, st1) =>
      (Some ("unable to disable service (" +:+ app +:+ "): " +:+ err), st1)
  | (None, st1) =>
      let '(isRunning, st2) := IsRunning sm app st1 in
      if negb isRunning then (None, st2)
      else
        match runSystemdCmd W stop (ServiceName sm app) st2 with
        | ((_, Some err), st3) =>
            (Some ("unable to stop service (" +:+ app +:+ "): " +:+ err), st3)
        | ((_, None), st3) => (None, st3)
        end
  end.

End methods.
End LinuxSystemdManager.

Module NoopManager.

Record t := mk {}.

Definition RegisterService (nm : t) (app : ToolType) (params : ResgistrationParams)
    (st : State) : error * State := (None, st).

Definition StartService (nm : t) (app : ToolType) (st : State)
  : (bool * error) * State := ((false, None), st).

Definition StopService (nm : t) (app : ToolType) (st : State) : error * State :=
  (None, st).

Definition IsRunning (nm : t) (app : ToolType) (st : State) : bool * State :=
  (false, st).

Definition EnableService (nm : t) (app : ToolType) (st : State) : error * State :=
  (None, st).

Definition DisableService (nm : t) (app : ToolType) (st : State) : error * State :=
  (None, st).

Definition IsRegistered (nm : t) (app : ToolType) (st : State) : bool * error :=
  (false, None).

Definition ServiceName (nm : t) (app : ToolType) : string := "".

End NoopManager.

(** The interface [ServiceManager]: a value of it carries the methods of
    the manager it was made from. *)
Record ServiceManager := {
  RegisterService : ToolType -> ResgistrationParams -> State -> error * State;
  StartService : ToolType -> State -> (bool * error) * State;
  StopService : ToolType -> State -> error * State;
  EnableService : ToolType -> State -> error * State;
  DisableService : ToolType -> State -> error * State;
  IsRunning : ToolType -> State -> bool * State;
  IsRegistered : ToolType -> State -> bool * error;
  ServiceName : ToolType -> string;
}.

Section interface.
Context (W : World) (K : Constants).

Definition ofLinuxSystemdManager (sm : LinuxSystemdManager.t) : ServiceManager := {|
  RegisterService := LinuxSystemdManager.RegisterService W K sm;
  StartService := LinuxSystemdManager.StartService W K sm;
  StopService := LinuxSystemdManager.StopService W K sm;
  EnableService := LinuxSystemdManager.EnableService W K sm;
  DisableService := LinuxSystemdManager.DisableService W K sm;
  IsRunning := LinuxSystemdManager.IsRunning W K sm;
  IsRegistered := LinuxSystemdManager.IsRegistered W K sm;
  ServiceName := LinuxSystemdManager.ServiceName K sm;
|}.

Definition ofNoopManager (nm : NoopManager.t) : ServiceManager := {|
  RegisterService := NoopManager.RegisterService nm;
  StartService := NoopManager.StartService nm;
  StopService := NoopManager.StopService nm;
  EnableService := NoopManager.EnableService nm;
  DisableService := NoopManager.DisableService nm;
  IsRunning := NoopManager.IsRunning nm;
  IsRegistered := NoopManager.IsRegistered nm;
  ServiceName := NoopManager.ServiceName nm;
|}.

(** [RegisterService] reached the write of the unit file and the write
    succeeded. *)
Definition wroteUnitFile (sm : LinuxSystemdManager.t) (app : ToolType)
    (params : ResgistrationParams) (st : State) (systemdFile : string) : Prop :=
  (LinuxSystemdManager.IsRegistered W K sm app st).1 = false ∧
  ∃ execCmd workDir,
    LinuxSystemdManager.launchSpec W K sm app params st = Launch execCmd workDir ∧
    GetServiceConfig W app
      {| Desc := app +:+ " daemon"; ExecCmd := execCmd; WorkDir := workDir |}
    = (systemdFile, None) ∧
    write_error W (LinuxSystemdManager.appServiceFilePath K sm app) = None.

(** [New]: the systemd manager on Linux; elsewhere the no-op manager
    together with an error. *)
Definition New (os : OSType) (homeDir : string) : ServiceManager * error :=
  match os with
  | Linux => (ofLinuxSystemdManager {| LinuxSystemdManager.homeDir := homeDir |}, None)
  | _ =>
      (ofNoopManager NoopManager.mk,
       Some ("services are not comptabile with your OS (" +:+ OSType_string os +:+ ")"))
  end.

End interface.

End servicemanager.

(** ** Package [cmd] *)

Module cmd.

Import servicemanager (OSType, Windows, Linux, Mac, Unknown, ToolType,
                       PasteldName, PastelCliName).

(** The newline byte. *)
Definition nl : string := String "010"%char EmptyString.
Definition nl_c : ascii := "010"%char.

(** *** The package-level flag variables *)

Record Flags := {
  flagNodeExtIP : string;
  flagMasterNodeName : string;
  flagMasterNodeIsCreate : bool;
  flagMasterNodeIsUpdate : bool;
  flagMasterNodeConfNew : bool;
  flagMasterNodeConfAdd : bool;
  flagMasterNodeIsActivate : bool;
  flagMasterNodeTxID : string;
  flagMasterNodeInd : string;
  flagMasterNodePassPhrase : string;
  flagMasterNodePrivateKey : string;
  flagMasterNodePastelID : string;
  flagMasterNodeP2PIP : string;
}.

(** *** [configs.Config] *)

Record Config := {
  OpMode : string;
  WorkingDir : string;
  RemoteWorkingDir : string;
  PastelExecDir : string;
  RemoteHotPastelExecDir : string;
  Network : string;
  ReIndex : bool;
  Force : bool;
  RegenRPC : bool;
  RPCPort : Z;
  RPCUser : string;
  RPCPwd : string;
  Peers : string;
  Version : string;
}.

(** [structure.RPCPastelMSStatus], the fields that are read. *)
Record RPCPastelMSStatus := {
  AssetName : string;
  IsSynced : bool;
}.

(** What is fixed for one run of the tool and declared outside the
    sources: constants, the methods of [configs.Configurer], the port
    table and the JSON decoders.  A decoder answers [inr] with the error
    of [json.Unmarshal]; [unmarshal_MSStatus] is given the value the
    target variable holds, since fields absent from the text keep it. *)
Record Platform := {
  GetOS : OSType;
  PastelD : ToolType;
  RQService : ToolType;
  DDService : ToolType;
  SuperNode : ToolType;
  PastelConfName : string;
  NetworkTestnet : string;
  NetworkRegTest : string;
  NodeRPCPort : nat;
  GetSNPortList : Config -> list Z;
  GetSuperNodeConfFile : string -> string;
  DefaultZksnarkDir : string;
  unmarshal_outputs : string -> gmap string string + string;
  unmarshal_PastelID : string -> string + string;
  unmarshal_MSStatus : string -> RPCPastelMSStatus -> RPCPastelMSStatus + string;
  unmarshal_aliasResult : string -> option string + string;
}.

(** *** Events: the calls that leave the modelled code *)

Inductive Event :=
(* the operator *)
| AskUserToContinue (question : string)
(* the local node and host *)
| RunPastelCLI (args : list string)
| Sleep (seconds : Z)
| ParsePastelConf
| GetMasternodeConfData (name : string)
| GetExternalIPAddress
| StartService (tool : ToolType)
| CheckPastelFilePath (dir name : string)
| CheckZksnarkParams
| GoRunCMD (path : string) (args : list string)
| WaitingForPastelDToStart
| RunPastelNode (txIndexOne : bool) (extIP mnPrivKey : string)
| StopPastelDAndWait
| CheckMasterNodeSync
| CreateOrUpdateMasternodeConf
| CreateOrUpdateSuperNodeConfig
| BackupConfFile
(* files *)
| CreateFolder (path : string) (force : bool)
| CreateFile (path : string) (force : bool)
| WriteFile (path content : string)
| GenerateRandomString (n : Z)
| DownloadZksnarkParams (path : string) (force : bool) (version : string)
(* the remote session *)
| SshOutput (cmd : string)
| GoSshRun (cmd : string)
| SshScp (src dst : string)
| SshShellCmd (cmd : string).

#[global] Instance Event_eq_dec : EqDecision Event.
Proof. solve_decision. Defined.

(** What comes back from a call: the error, the output or value, a yes/no
    answer, and further values where a call returns several. *)
Record Reply := {
  rerr : error;
  rout : string;
  ryes : bool;
  rmore : list string;
}.

(** The outside answers a call knowing the calls made before it. *)
Definition World := list Event -> Event -> Reply.

Record State := {
  cfg : Config;
  flags : Flags;
  trace : list Event;
}.

(** *** The monad of the package's functions *)

Definition M (A : Type) : Type := State -> outcome A * State.

#[global] Instance M_ret : MRet M := fun A a st => (Done a, st).

#[global] Instance M_bind : MBind M := fun A B f m st =>
  match m st with
  | (Done a, st1) => f a st1
  | (Raise e, st1) => (Raise e, st1)
  | (Panic, st1) => (Panic, st1)
  | (Timeout, st1) => (Timeout, st1)
  end.

Definition raise {A} (e : string) : M A := fun st => (Raise e, st).
Definition panic {A} : M A := fun st => (Panic, st).
Definition timeout {A} : M A := fun st => (Timeout, st).

Definition getFlags : M Flags := fun st => (Done (flags st), st).
Definition getConfig : M Config := fun st => (Done (cfg st), st).

(** [return fmt.Errorf(prefix + "%s", err)] around a call. *)
Definition wrap {A} (prefix : string) (m : M A) : M A := fun st =>
  match m st with
  | (Raise e, st1) => (Raise (prefix +:+ e), st1)
  | r => r
  end.

(** An error that is logged and dropped. *)
Definition logged (m : M unit) : M unit := fun st =>
  match m st with
  | (Raise e, st1) => (Done tt, st1)
  | r => r
  end.

Definition isEmpty (s : string) : bool := String.eqb s "".

(** Assignments to single flags and configuration fields. *)
Definition with_NodeExtIP (v : string) (f : Flags) : Flags :=
  {| flagNodeExtIP := v; flagMasterNodeName := flagMasterNodeName f;
     flagMasterNodeIsCreate := flagMasterNodeIsCreate f;
     flagMasterNodeIsUpdate := flagMasterNodeIsUpdate f;
     flagMasterNodeConfNew := flagMasterNodeConfNew f;
     flagMasterNodeConfAdd := flagMasterNodeConfAdd f;
     flagMasterNodeIsActivate := flagMasterNodeIsActivate f;
     flagMasterNodeTxID := flagMasterNodeTxID f;
     flagMasterNodeInd := flagMasterNodeInd f;
     flagMasterNodePassPhrase := flagMasterNodePassPhrase f;
     flagMasterNodePrivateKey := flagMasterNodePrivateKey f;
     flagMasterNodePastelID := flagMasterNodePastelID f;
     flagMasterNodeP2PIP := flagMasterNodeP2PIP f |}.

Definition with_TxID (v : string) (f : Flags) : Flags :=
  {| flagNodeExtIP := flagNodeExtIP f; flagMasterNodeName := flagMasterNodeName f;
     flagMasterNodeIsCreate := flagMasterNodeIsCreate f;
     flagMasterNodeIsUpdate := flagMasterNodeIsUpdate f;
     flagMasterNodeConfNew := flagMasterNodeConfNew f;
     flagMasterNodeConfAdd := flagMasterNodeConfAdd f;
     flagMasterNodeIsActivate := flagMasterNodeIsActivate f;
     flagMasterNodeTxID := v;
     flagMasterNodeInd := flagMasterNodeInd f;
     flagMasterNodePassPhrase := flagMasterNodePassPhrase f;
     flagMasterNodePrivateKey := flagMasterNodePrivateKey f;
     flagMasterNodePastelID := flagMasterNodePastelID f;
     flagMasterNodeP2PIP := flagMasterNodeP2PIP f |}.

Definition with_Ind (v : string) (f : Flags) : Flags :=
  {| flagNodeExtIP := flagNodeExtIP f; flagMasterNodeName := flagMasterNodeName f;
     flagMasterNodeIsCreate := flagMasterNodeIsCreate f;
     flagMasterNodeIsUpdate := flagMasterNodeIsUpdate f;
     flagMasterNodeConfNew := flagMasterNodeConfNew f;
     flagMasterNodeConfAdd := flagMasterNodeConfAdd f;
     flagMasterNodeIsActivate := flagMasterNodeIsActivate f;
     flagMasterNodeTxID := flagMasterNodeTxID f;
     flagMasterNodeInd := v;
     flagMasterNodePassPhrase := flagMasterNodePassPhrase f;
     flagMasterNodePrivateKey := flagMasterNodePrivateKey f;
     flagMasterNodePastelID := flagMasterNodePastelID f;
     flagMasterNodeP2PIP := flagMasterNodeP2PIP f |}.

Definition with_PassPhrase (v : string) (f : Flags) : Flags :=
  {| flagNodeExtIP := flagNodeExtIP f; flagMasterNodeName := flagMasterNodeName f;
     flagMasterNodeIsCreate := flagMasterNodeIsCreate f;
     flagMasterNodeIsUpdate := flagMasterNodeIsUpdate f;
     flagMasterNodeConfNew := flagMasterNodeConfNew f;
     flagMasterNodeConfAdd := flagMasterNodeConfAdd f;
     flagMasterNodeIsActivate := flagMasterNodeIsActivate f;
     flagMasterNodeTxID := flagMasterNodeTxID f;
     flagMasterNodeInd := flagMasterNodeInd f;
     flagMasterNodePassPhrase := v;
     flagMasterNodePrivateKey := flagMasterNodePrivateKey f;
     flagMasterNodePastelID := flagMasterNodePastelID f;
     flagMasterNodeP2PIP := flagMasterNodeP2PIP f |}.

Definition with_PrivateKey (v : string) (f : Flags) : Flags :=
  {| flagNodeExtIP := flagNodeExtIP f; flagMasterNodeName := flagMasterNodeName f;
     flagMasterNodeIsCreate := flagMasterNodeIsCreate f;
     flagMasterNodeIsUpdate := flagMasterNodeIsUpdate f;
     flagMasterNodeConfNew := flagMasterNodeConfNew f;
     flagMasterNodeConfAdd := flagMasterNodeConfAdd f;
     flagMasterNodeIsActivate := flagMasterNodeIsActivate f;
     flagMasterNodeTxID := flagMasterNodeTxID f;
     flagMasterNodeInd := flagMasterNodeInd f;
     flagMasterNodePassPhrase := flagMasterNodePassPhrase f;
     flagMasterNodePrivateKey := v;
     flagMasterNodePastelID := flagMasterNodePastelID f;
     flagMasterNodeP2PIP := flagMasterNodeP2PIP f |}.

Definition with_PastelID (v : string) (f : Flags) : Flags :=
  {| flagNodeExtIP := flagNodeExtIP f; flagMasterNodeName := flagMasterNodeName f;
     flagMasterNodeIsCreate := flagMasterNodeIsCreate f;
     flagMasterNodeIsUpdate := flagMasterNodeIsUpdate f;
     flagMasterNodeConfNew := flagMasterNodeConfNew f;
     flagMasterNodeConfAdd := flagMasterNodeConfAdd f;
     flagMasterNodeIsActivate := flagMasterNodeIsActivate f;
     flagMasterNodeTxID := flagMasterNodeTxID f;
     flagMasterNodeInd := flagMasterNodeInd f;
     flagMasterNodePassPhrase := flagMasterNodePassPhrase f;
     flagMasterNodePrivateKey := flagMasterNodePrivateKey f;
     flagMasterNodePastelID := v;
     flagMasterNodeP2PIP := flagMasterNodeP2PIP f |}.

Definition with_P2PIP (v : string) (f : Flags) : Flags :=
  {| flagNodeExtIP := flagNodeExtIP f; flagMasterNodeName := flagMasterNodeName f;
     flagMasterNodeIsCreate := flagMasterNodeIsCreate f;
     flagMasterNodeIsUpdate := flagMasterNodeIsUpdate f;
     flagMasterNodeConfNew := flagMasterNodeConfNew f;
     flagMasterNodeConfAdd := flagMasterNodeConfAdd f;
     flagMasterNodeIsActivate := flagMasterNodeIsActivate f;
     flagMasterNodeTxID := flagMasterNodeTxID f;
     flagMasterNodeInd := flagMasterNodeInd f;
     flagMasterNodePassPhrase := flagMasterNodePassPhrase f;
     flagMasterNodePrivateKey := flagMasterNodePrivateKey f;
     flagMasterNodePastelID := flagMasterNodePastelID f;
     flagMasterNodeP2PIP := v |}.

Definition with_Network (v : string) (c : Config) : Config :=
  {| OpMode := OpMode c; WorkingDir := WorkingDir c;
     RemoteWorkingDir := RemoteWorkingDir c; PastelExecDir := PastelExecDir c;
     RemoteHotPastelExecDir := RemoteHotPastelExecDir c; Network := v;
     ReIndex := ReIndex c; Force := Force c; RegenRPC := RegenRPC c;
     RPCPort := RPCPort c; RPCUser := RPCUser c; RPCPwd := RPCPwd c;
     Peers := Peers c; Version := Version c |}.

Definition with_RPCPort (v : Z) (c : Config) : Config :=
  {| OpMode := OpMode c; WorkingDir := WorkingDir c;
     RemoteWorkingDir := RemoteWorkingDir c; PastelExecDir := PastelExecDir c;
     RemoteHotPastelExecDir := RemoteHotPastelExecDir c; Network := Network c;
     ReIndex := ReIndex c; Force := Force c; RegenRPC := RegenRPC c;
     RPCPort := v; RPCUser := RPCUser c; RPCPwd := RPCPwd c;
     Peers := Peers c; Version := Version c |}.

Definition with_RPCUser (v : string) (c : Config) : Config :=
  {| OpMode := OpMode c; WorkingDir := WorkingDir c;
     RemoteWorkingDir := RemoteWorkingDir c; PastelExecDir := PastelExecDir c;
     RemoteHotPastelExecDir := RemoteHotPastelExecDir c; Network := Network c;
     ReIndex := ReIndex c; Force := Force c; RegenRPC := RegenRPC c;
     RPCPort := RPCPort c; RPCUser := v; RPCPwd := RPCPwd c;
     Peers := Peers c; Version := Version c |}.

Definition with_RPCPwd (v : string) (c : Config) : Config :=
  {| OpMode := OpMode c; WorkingDir := WorkingDir c;
     RemoteWorkingDir := RemoteWorkingDir c; PastelExecDir := PastelExecDir c;
     RemoteHotPastelExecDir := RemoteHotPastelExecDir c; Network := Network c;
     ReIndex := ReIndex c; Force := Force c; RegenRPC := RegenRPC c;
     RPCPort := RPCPort c; RPCUser := RPCUser c; RPCPwd := v;
     Peers := Peers c; Version := Version c |}.

Definition modifyFlags (g : Flags -> Flags) : M unit := fun st =>
  (Done tt, {| cfg := cfg st; flags := g (flags st); trace := trace st |}).
Definition modifyConfig (g : Config -> Config) : M unit := fun st =>
  (Done tt, {| cfg := g (cfg st); flags := flags st; trace := trace st |}).

Section functions.
Context (W : World) (P : Platform).

(** A call: it is appended to the trace and answered by the world. *)
Definition call (e : Event) : M Reply := fun st =>
  (Done (W (trace st) e),
   {| cfg := cfg st; flags := flags st; trace := (trace st ++ [e])%list |}).

(** A call whose error is returned unchanged by the caller. *)
Definition callE (e : Event) : M Reply :=
  r ← call e;
  match rerr r with
  | Some err => raise err
  | None => mret r
  end.

(** *** [cmd/install]: the working environment *)

(** The text [updatePastelConfigFile] assembles. *)
Definition pastelConfText (c : Config) : string :=
  "server=1" +:+ nl +:+
  "listen=1" +:+ nl +:+ nl +:+
  "rpcuser=" +:+ RPCUser c +:+ nl +:+
  "rpcpassword=" +:+ RPCPwd c +:+ nl +:+
  "rpcport=" +:+ strconv_Itoa (RPCPort c) +:+ nl +:+
  (if String.eqb (Network c) (NetworkTestnet P) then "testnet=1" +:+ nl else "") +:+
  (if String.eqb (Network c) (NetworkRegTest P) then "regtest=1" +:+ nl else "") +:+
  (if negb (isEmpty (Peers c)) then
     String.concat "" (map (fun node => "addnode=" +:+ node +:+ nl)
                           (strings_Split (Peers c) ","%char))
   else "").

Definition updatePastelConfigFile (filePath : string) : M unit :=
  config ← getConfig;
  r ← call (WriteFile filePath (pastelConfText config));
  match rerr r with
  | Some err => raise ("failed to save file changes: " +:+ err)
  | None => mret tt
  end.

(** [downloadZksnarkParams] is kept as a call; a reply with [ryes] set
    is an error for which [os.IsExist] holds. *)
Definition setupBasePasteWorkingEnvironment : M unit :=
  config ← getConfig;
  if negb (String.eqb (OpMode config) "install") then mret tt
  else
    _ ← callE (CreateFolder (WorkingDir config) (Force config));
    _ ← (if (RPCPort config =? 0) || RegenRPC config then
           match GetSNPortList P config !! NodeRPCPort P with
           | Some port => modifyConfig (with_RPCPort port)
           | None => panic
           end
         else mret tt);
    _ ← (if isEmpty (RPCUser config) || RegenRPC config then
           r ← call (GenerateRandomString 8);
           modifyConfig (with_RPCUser (rout r))
         else mret tt);
    _ ← (if isEmpty (RPCPwd config) || RegenRPC config then
           r ← call (GenerateRandomString 15);
           modifyConfig (with_RPCPwd (rout r))
         else mret tt);
    let pastelConfigPath := filepath_Join [WorkingDir config; PastelConfName P] in
    _ ← wrap ("failed to create " +:+ pastelConfigPath +:+ " - ")
          (callE (CreateFile pastelConfigPath (Force config)));
    _ ← wrap ("failed to update " +:+ pastelConfigPath +:+ " - ")
          (updatePastelConfigFile pastelConfigPath);
    _ ← wrap ("failed to update folder " +:+ DefaultZksnarkDir P +:+ " - ")
          (callE (CreateFolder (DefaultZksnarkDir P) (Force config)));
    r ← call (DownloadZksnarkParams (DefaultZksnarkDir P) (Force config) (Version config));
    match rerr r with
    | Some err =>
        if negb (ryes r && negb (Force config)) then
          raise ("failed to download Zksnark parameters into folder "
                 +:+ DefaultZksnarkDir P +:+ " - " +:+ err)
        else mret tt
    | None => mret tt
    end.

(** *** [cmd/start]: starting the node *)

(** [runPastelNode].  [servicemanager.New] fails exactly off Linux; the
    reply to [StartService] carries [srvStarted] in [ryes]. *)
Definition runPastelNode (txIndexOne reindex : bool) (extIP mnPrivKey : string)
  : M unit :=
  config ← getConfig;
  let serviceEnabled := bool_decide (GetOS P = Linux) in
  srvStarted ← (if serviceEnabled then
                  r ← callE (StartService (PastelD P)); mret (ryes r)
                else mret false) : M bool;
  if (srvStarted : bool) then mret tt
  else
    r ← callE (CheckPastelFilePath (PastelExecDir config) (PasteldName (GetOS P)));
    let pastelDPath := rout r in
    _ ← callE (CheckPastelFilePath (WorkingDir config) (PastelConfName P));
    _ ← callE CheckZksnarkParams;
    extIP ← (if isEmpty extIP then r ← callE GetExternalIPAddress; mret (rout r)
             else mret extIP) : M string;
    let pasteldArgs :=
      (["--datadir=" +:+ WorkingDir config; "--externalip=" +:+ extIP]
       ++ (if txIndexOne then ["--txindex=1"] else [])
       ++ (if reindex then ["--reindex"] else [])
       ++ (if negb (isEmpty mnPrivKey)
           then ["--masternode"; "--masternodeprivkey=" +:+ mnPrivKey] else [])
       ++ ["--daemon"])%list in
    _ ← call (GoRunCMD pastelDPath pasteldArgs);
    r ← call WaitingForPastelDToStart;
    if ryes r then mret tt else raise "pasteld was not started".

(** The message of the mismatch error of [runStartMasternode]. *)
Definition mismatchError (extIP nodeExtIP : string) : string :=
  "External IP address in masternode.conf MUST match WAN address of the node! IP in masternode.conf - "
  +:+ extIP +:+ ", WAN IP passed or identified - " +:+ nodeExtIP.

(** [runStartMasternode].  [ParsePastelConf] sets [config.Network], which
    its reply carries in [rout]; [getMasternodeConfData] returns the
    private key in [rout] and the external address first in [rmore]. *)
Definition runStartMasternode : M unit :=
  r ← callE ParsePastelConf;
  _ ← modifyConfig (with_Network (rout r));
  f ← getFlags;
  r ← callE (GetMasternodeConfData (flagMasterNodeName f));
  let privKey := rout r in
  let extIP := nth 0 (rmore r) "" in
  _ ← (if isEmpty (flagNodeExtIP f) then
         r ← call GetExternalIPAddress;
         match rerr r with
         | Some _ => raise "cannot get external ip address"
         | None => modifyFlags (with_NodeExtIP (rout r))
         end
       else mret tt);
  f ← getFlags;
  if negb (String.eqb extIP (flagNodeExtIP f)) then
    raise (mismatchError extIP (flagNodeExtIP f))
  else
    config ← getConfig;
    runPastelNode true (ReIndex config) (flagNodeExtIP f) privKey.

(** *** [cmd/start]: the masternode parameters *)

(** [getMasternodeOutputs]: an empty output leaves the map nil. *)
Definition getMasternodeOutputs : M (gmap string string) :=
  r ← callE (RunPastelCLI ["masternode"; "outputs"]);
  if negb (isEmpty (rout r)) then
    match unmarshal_outputs P (rout r) with
    | inl mnOutputs => mret mnOutputs
    | inr err => raise err
    end
  else mret ∅.

Definition collateralMissing (f : Flags) : bool :=
  isEmpty (flagMasterNodeTxID f) || isEmpty (flagMasterNodeInd f).

(** The first block of [checkCollateral]: the operator may pick one of
    the outputs the wallet already holds.  The outputs are listed in the
    order of [map_to_list]; Go leaves the order of a map open. *)
Definition collateralSearch : M unit :=
  r ← call (AskUserToContinue
              "Search existing masternode collateral ready transaction in the wallet? Y/N");
  if ryes r then
    mnOutputs ← getMasternodeOutputs;
    if bool_decide (0 < size mnOutputs)%nat then
      let arr := (map_to_list mnOutputs).*1 in
      let n := Z.of_nat (length arr) in
      r ← call (AskUserToContinue "Enter number to use, or N to exit");
      match strconv_Atoi (rout r) with
      | Some dNum =>
          if (dNum <? 0) || (n <=? dNum) then raise "user terminated - no collateral funds"
          else
            let txid := nth (Z.to_nat dNum) arr "" in
            _ ← modifyFlags (with_TxID txid);
            modifyFlags (with_Ind (default "" (mnOutputs !! txid)))
      | None => raise "user terminated - no collateral funds"
      end
    else mret tt
  else mret tt.

(** The second block: a new address is made and the operator enters the
    id of the payment. *)
Definition collateralFund : M unit :=
  config ← getConfig;
  let '(collateralAmount, collateralCoins) :=
    if String.eqb (Network config) (NetworkTestnet P) then ("1", "LSP")
    else if String.eqb (Network config) (NetworkRegTest P) then ("0.1", "REG")
    else ("5", "PSL") in
  r ← call (AskUserToContinue
              ("Do you want to generate new local address and send " +:+ collateralAmount
               +:+ "M " +:+ collateralCoins +:+ " to it from another wallet? Y/N"));
  if negb (ryes r) then raise "no collateral funds"
  else
    _ ← callE (RunPastelCLI ["getnewaddress"]);
    r ← call (AskUserToContinue
                "Enter txid of the send and press Enter to continue when ready");
    modifyFlags (with_TxID (strings_Trim (rout r) nl_c)).

(** The loop [for i := 1; i <= 10; i++] of [checkCollateral].  Each turn
    of the loop takes one unit of [fuel].  When [i] is 10 and the
    operator goes on, the body sets [i = 1] and the loop's [i++] follows. *)
Fixpoint collateralLoop (fuel : nat) (i : Z) : M unit :=
  match fuel with
  | O => timeout
  | S fuel' =>
      if i <=? 10 then
        mnOutputs ← getMasternodeOutputs;
        f ← getFlags;
        match mnOutputs !! flagMasterNodeTxID f with
        | Some txind => modifyFlags (with_Ind txind)
        | None =>
            _ ← call (Sleep 10);
            if i =? 10 then
              r ← call (AskUserToContinue "Still no collateral transaction. Continue? - Y/N");
              if negb (ryes r) then raise "user terminated"
              else collateralLoop fuel' (1 + 1)
            else collateralLoop fuel' (i + 1)
        end
      else mret tt
  end.

Definition checkCollateral (fuel : nat) : M unit :=
  f ← getFlags;
  _ ← (if collateralMissing f then collateralSearch else mret tt);
  f ← getFlags;
  _ ← (if collateralMissing f then collateralFund else mret tt);
  _ ← collateralLoop fuel 1;
  f ← getFlags;
  if collateralMissing f then
    raise ("Cannot find masternode outputs = " +:+ flagMasterNodeTxID f +:+ ":"
           +:+ flagMasterNodeInd f)
  else mret tt.

Definition passphraseError : string :=
  "required parameter if --create or --update specified: --passphrase <passphrase to pastelid private key>".

Definition checkPassphrase : M unit :=
  f ← getFlags;
  if isEmpty (flagMasterNodePassPhrase f) then
    r ← call (AskUserToContinue
                "No --passphrase provided. Please type new passphrase and press Enter. Or N to exit");
    _ ← modifyFlags (with_PassPhrase (rout r));
    if strings_EqualFold_n (rout r) || isEmpty (rout r) then
      _ ← modifyFlags (with_PassPhrase "");
      raise passphraseError
    else mret tt
  else mret tt.

(** The [*utils.Client] argument: [nil] or the open session. *)
Inductive Client := sshClient.

Definition checkMasternodePrivKey (client : option Client) : M unit :=
  f ← getFlags;
  if isEmpty (flagMasterNodePrivateKey f) then
    mnPrivKey ←
      match client with
      | None => r ← callE (RunPastelCLI ["masternode"; "genkey"]); mret (rout r)
      | Some _ =>
          config ← getConfig;
          let pastelcliPath :=
            filepath_Join [RemoteHotPastelExecDir config; PastelCliName (GetOS P)] in
          r ← callE (SshOutput (pastelcliPath +:+ " " +:+ "masternode genkey"));
          mret (rout r)
      end;
    modifyFlags (with_PrivateKey (strings_TrimSuffix mnPrivKey nl_c))
  else mret tt.

Definition checkPastelID (client : option Client) : M unit :=
  f ← getFlags;
  if isEmpty (flagMasterNodePastelID f) then
    if isEmpty (flagMasterNodePassPhrase f) then raise passphraseError
    else
      pastelid ←
        match client with
        | None =>
            r ← callE (RunPastelCLI ["pastelid"; "newkey"; flagMasterNodePassPhrase f]);
            mret (rout r)
        | Some _ =>
            config ← getConfig;
            let pastelcliPath :=
              filepath_Join [RemoteHotPastelExecDir config; PastelCliName (GetOS P)] in
            r ← callE (SshOutput (pastelcliPath +:+ " " +:+ "pastelid newkey" +:+ " "
                                  +:+ flagMasterNodePassPhrase f));
            mret (rout r)
        end;
      match unmarshal_PastelID P pastelid with
      | inl id => modifyFlags (with_PastelID id)
      | inr err => raise err
      end
  else mret tt.

Definition prepareMasterNodeParameters (fuel : nat) (startPasteld : bool) : M unit :=
  f ← getFlags;
  if negb (flagMasterNodeConfNew f) && negb (flagMasterNodeConfAdd f) then mret tt
  else
    config ← getConfig;
    _ ← (if startPasteld then runPastelNode true (ReIndex config) (flagNodeExtIP f) ""
         else mret tt);
    _ ← callE CheckMasterNodeSync;
    _ ← checkCollateral fuel;
    _ ← checkPassphrase;
    _ ← checkMasternodePrivKey None;
    _ ← checkPastelID None;
    if startPasteld then _ ← callE StopPastelDAndWait; mret tt else mret tt.

(** [runStartAliasMasternode]: the decoder gives the ["result"] entry
    when it is a string. *)
Definition runStartAliasMasternode (masternodeName : string) : M unit :=
  r ← callE (RunPastelCLI ["masternode"; "start-alias"; masternodeName]);
  match unmarshal_aliasResult P (rout r) with
  | inr err => raise err
  | inl result =>
      if bool_decide (result = Some "failed") then raise "masternode start alias failed"
      else mret tt
  end.

End functions.

(** *** [cmd/start_coldhot] *)

(** [ColdHotRunnerOpts]. *)
Record ColdHotRunnerOpts := {
  sshUser : string;
  sshIP : string;
  sshPort : Z;
  sshKey : string;
  testnetOption : string;
  remotePastelUtility : string;
  remotePasteld : string;
  remotePastelCli : string;
}.

(** The zero value of [structure.RPCPastelMSStatus]. *)
Definition zeroMSStatus : RPCPastelMSStatus := {| AssetName := ""; IsSynced := false |}.

(** The status the node reports before its synchronisation has begun. *)
Definition initialMSStatus : RPCPastelMSStatus :=
  {| AssetName := "Initial"; IsSynced := false |}.

(** The two [mnsync] commands as they are sent over the session. *)
Definition mnsyncStatus (r : ColdHotRunnerOpts) : Event :=
  SshOutput (remotePastelCli r +:+ " mnsync status").
Definition mnsyncReset (r : ColdHotRunnerOpts) : Event :=
  SshOutput (remotePastelCli r +:+ " mnsync reset").

(** How often a call occurs in a trace. *)
Definition occurrences (e : Event) (h : list Event) : nat :=
  length (filter (λ x, x = e) h).

(** The calls that go over the remote session. *)
Definition isRemote (e : Event) : bool :=
  match e with
  | SshOutput _ | GoSshRun _ | SshScp _ _ | SshShellCmd _ => true
  | _ => false
  end.

Section coldhot.
Context (W : World) (P : Platform).

(** The loop of [CheckPastelDRunningRemote]: one [getinfo] over the
    session per turn, five seconds apart, given up at the twelfth
    failure. *)
Fixpoint checkRunningLoop (fuel : nat) (cliPath : string) (want : bool) (failCnt : Z)
  : M bool :=
  match fuel with
  | O => timeout
  | S fuel' =>
      r ← call W (SshOutput (cliPath +:+ " " +:+ "getinfo"));
      match rerr r with
      | Some _ =>
          if negb want then mret false
          else
            _ ← call W (Sleep 5);
            let failCnt := failCnt + 1 in
            if failCnt =? 12 then mret false
            else checkRunningLoop fuel' cliPath want failCnt
      | None => mret true
      end
  end.

Definition CheckPastelDRunningRemote (cliPath : string) (want : bool) : M bool :=
  checkRunningLoop 12 cliPath want 0.

(** [checkMasterNodeSyncRemote]: [mnstatus] is declared once and decoded
    into on every turn; the retry after a failed query is a fresh call
    of the function.  Each turn and each retry takes one unit of fuel. *)
Fixpoint syncLoop (fuel : nat) (r : ColdHotRunnerOpts) (retryCount : Z)
    (mnstatus : RPCPastelMSStatus) : M unit :=
  match fuel with
  | O => timeout
  | S fuel' =>
      out ← call W (SshOutput (remotePastelCli r +:+ " mnsync status"));
      match rerr out with
      | Some err =>
          if retryCount =? 0 then
            _ ← call W (Sleep 5);
            syncLoop fuel' r 1 zeroMSStatus
          else raise err
      | None =>
          match unmarshal_MSStatus P (rout out) mnstatus with
          | inr err => raise err
          | inl mnstatus =>
              _ ← (if String.eqb (AssetName mnstatus) "Initial" then
                     _ ← callE W (SshOutput (remotePastelCli r +:+ " mnsync reset"));
                     _ ← call W (Sleep 10);
                     mret tt
                   else mret tt) : M unit;
              if IsSynced mnstatus then mret tt
              else
                _ ← call W (Sleep 10);
                syncLoop fuel' r retryCount mnstatus
          end
      end
  end.

Definition checkMasterNodeSyncRemote (fuel : nat) (r : ColdHotRunnerOpts)
    (retryCount : Z) : M unit :=
  syncLoop fuel r retryCount zeroMSStatus.

(** The command that launches the daemon on the remote host in plain
    mode. *)
Definition remotePasteldCmd (r : ColdHotRunnerOpts) (f : Flags) (config : Config)
  : string :=
  remotePasteld r +:+ " --reindex --externalip=" +:+ flagNodeExtIP f
  +:+ " --data-dir=" +:+ RemoteWorkingDir config +:+ " --daemon " +:+ testnetOption r.

Definition remoteHotNodeCtrl (fuel : nat) (r : ColdHotRunnerOpts) : M unit :=
  f ← getFlags;
  config ← getConfig;
  _ ← call W (GoSshRun (remotePasteldCmd r f config));
  running ← CheckPastelDRunningRemote (remotePastelCli r) true;
  if negb running then raise "unable to start pasteld on remote"
  else
    _ ← checkMasterNodeSyncRemote fuel r 0;
    _ ← callE W (SshOutput (remotePastelCli r +:+ " stop"));
    _ ← call W (Sleep 5);
    mret tt.

Definition runRemoteNodeAsMasterNode (fuel : nat) (r : ColdHotRunnerOpts) : M unit :=
  f ← getFlags;
  config ← getConfig;
  let cmdLine :=
    remotePasteld r +:+ " --masternode --txindex=1 --reindex --masternodeprivkey="
    +:+ flagMasterNodePrivateKey f +:+ " --externalip=" +:+ flagNodeExtIP f
    +:+ "  --data-dir=" +:+ RemoteWorkingDir config +:+ " " +:+ testnetOption r
    +:+ " --daemon " in
  _ ← call W (GoSshRun cmdLine);
  running ← CheckPastelDRunningRemote (remotePastelCli r) true;
  if negb running then raise "unable to start pasteld on remote"
  else checkMasterNodeSyncRemote fuel r 0.

Definition handleCreateUpdateStartColdHot (fuel : nat) (r : ColdHotRunnerOpts) : M unit :=
  _ ← checkCollateral W P fuel;
  _ ← checkPassphrase W;
  f ← getFlags;
  config ← getConfig;
  _ ← call W (GoSshRun (remotePasteldCmd r f config));
  running ← CheckPastelDRunningRemote (remotePastelCli r) true;
  if negb running then raise "unable to start pasteld on remote"
  else
    _ ← checkMasternodePrivKey W P (Some sshClient);
    _ ← checkPastelID W P (Some sshClient);
    _ ← callE W (SshOutput (remotePastelCli r +:+ " stop"));
    _ ← call W (Sleep 5);
    f ← getFlags;
    if flagMasterNodeIsCreate f then _ ← callE W BackupConfFile; mret tt
    else mret tt.

Definition runServiceRemote (r : ColdHotRunnerOpts) (service : string) : M unit :=
  config ← getConfig;
  let cmd := remotePastelUtility r +:+ " " +:+ "start" +:+ " " +:+ service in
  let cmd := if negb (isEmpty (RemoteWorkingDir config))
             then cmd +:+ " --work-dir=" +:+ RemoteWorkingDir config else cmd in
  _ ← wrap "failed to start service on remote: " (callE W (SshOutput cmd));
  mret tt.

(** [registerTicketPastelID] is declared in the other revision of the
    file and called from this one. *)
Definition registerTicketPastelID (r : ColdHotRunnerOpts) : M unit :=
  f ← getFlags;
  let cmd := remotePastelCli r +:+ " " +:+ "tickets register mnid" +:+ " "
             +:+ flagMasterNodePastelID f +:+ " " +:+ flagMasterNodePassPhrase f in
  _ ← callE W (SshOutput cmd);
  mret tt.

(** The last phase of [Run]: the services of the hot node. *)
Definition startRemoteServices (r : ColdHotRunnerOpts) : M unit :=
  _ ← wrap "failed to start rq-service on hot node: " (runServiceRemote r (RQService P));
  _ ← wrap "failed to start dd-service on hot node: " (runServiceRemote r (DDService P));
  config ← getConfig;
  let snConfigPath := GetSuperNodeConfFile P (WorkingDir config) in
  let remoteSnConfigPath := GetSuperNodeConfFile P (RemoteWorkingDir config) in
  let remoteSnConfigPath := strings_ReplaceAll remoteSnConfigPath "\"%char "/"%char in
  _ ← callE W (SshScp snConfigPath remoteSnConfigPath);
  _ ← callE W (SshShellCmd ("chmod 755 " +:+ snConfigPath));
  let snService := SuperNode P +:+ "-" +:+ "service" in
  wrap "failed to start supernode-service on hot node: " (runServiceRemote r snService).

(** [ColdHotRunner.Run].  [runPastelNode] has here the signature of the
    revision this file belongs to and is kept as a call. *)
Definition Run (fuel : nat) (r : ColdHotRunnerOpts) : M unit :=
  _ ← callE W (RunPastelNode true "" "");
  f ← getFlags;
  _ ← (if flagMasterNodeIsCreate f || flagMasterNodeIsUpdate f then
         _ ← handleCreateUpdateStartColdHot fuel r;
         f ← getFlags;
         _ ← (if isEmpty (flagMasterNodeP2PIP f)
              then modifyFlags (with_P2PIP (flagNodeExtIP f)) else mret tt) : M unit;
         _ ← callE W CreateOrUpdateMasternodeConf;
         _ ← callE W CreateOrUpdateSuperNodeConfig;
         mret tt
       else mret tt) : M unit;
  _ ← callE W StopPastelDAndWait;
  _ ← remoteHotNodeCtrl fuel r;
  f ← getFlags;
  c ← callE W (GetMasternodeConfData (flagMasterNodeName f));
  _ ← modifyFlags (with_PrivateKey (rout c));
  _ ← wrap "run remote as masternode: " (runRemoteNodeAsMasterNode fuel r);
  _ ← callE W (RunPastelNode true "" "");
  f ← getFlags;
  _ ← (if flagMasterNodeIsActivate f then
         _ ← callE W CheckMasterNodeSync;
         _ ← wrap "masternode activation failed: "
               (runStartAliasMasternode W P (flagMasterNodeName f));
         if flagMasterNodeIsCreate f then logged (registerTicketPastelID r)
         else mret tt
       else mret tt) : M unit;
  _ ← callE W StopPastelDAndWait;
  startRemoteServices r.

End coldhot.

(** The calls that stop the local daemon. *)
Definition stopsLocalDaemon (e : Event) : bool :=
  match e with
  | StopPastelDAndWait => true
  | RunPastelCLI ("stop" :: _) => true
  | _ => false
  end.

(** [emits Q m]: whatever its outcome, [m] only adds calls to the trace,
    and every call it adds satisfies [Q]. *)
Definition emits {A} (Q : Event → Prop) (m : M A) : Prop :=
  ∀ st res st', m st = (res, st') →
    ∃ new, trace st' = trace st ++ new ∧ Forall Q new.

(** The calls that stay on the local host, and the calls that leave the
    local daemon running. *)
Definition local (e : Event) : Prop := isRemote e = false.
Definition keepsDaemon (e : Event) : Prop := stopsLocalDaemon e = false.
Definition quiet (e : Event) : Prop := local e ∧ keepsDaemon e.

(** The calls of the last phase of [Run] in the order of the source:
    [rq-service], [dd-service], the copy of the supernode configuration,
    the [chmod], [supernode-service]. *)
Definition serviceCmd (r : ColdHotRunnerOpts) (config : Config) (service : string)
  : Event :=
  let cmd := remotePastelUtility r +:+ " " +:+ "start" +:+ " " +:+ service in
  SshOutput (if negb (isEmpty (RemoteWorkingDir config))
             then cmd +:+ " --work-dir=" +:+ RemoteWorkingDir config else cmd).

Definition remoteServiceCalls (P : Platform) (r : ColdHotRunnerOpts) (config : Config)
  : list Event :=
  [ serviceCmd r config (RQService P);
    serviceCmd r config (DDService P);
    SshScp (GetSuperNodeConfFile P (WorkingDir config))
           (strings_ReplaceAll (GetSuperNodeConfFile P (RemoteWorkingDir config))
                               "\"%char "/"%char);
    SshShellCmd ("chmod 755 " +:+ GetSuperNodeConfFile P (WorkingDir config));
    serviceCmd r config (SuperNode P +:+ "-" +:+ "service") ].

(** *** The masternode parameters on re-entry *)

(** The query for the collateral outputs and the prompt after a round of
    queries without the transaction. *)
Definition outputsQuery : Event := RunPastelCLI ["masternode"; "outputs"].

Definition stillNoCollateral : Event :=
  AskUserToContinue "Still no collateral transaction. Continue? - Y/N".

(** The wallet does not show the transaction [txid], whenever it is
    asked. *)
Definition neverListed (W : World) (P : Platform) (txid : string) : Prop :=
  ∀ h, rerr (W h outputsQuery) = None
       ∧ (rout (W h outputsQuery) = ""
          ∨ ∃ m, unmarshal_outputs P (rout (W h outputsQuery)) = inl m
                 ∧ m !! txid = None).


(** The flags agree on everything but the output index. *)
Definition sameParameters (f f' : Flags) : Prop :=
  with_Ind "" f = with_Ind "" f'.





(** [preserves I m]: whatever its outcome, [m] takes the flags to flags
    related by [I]. *)
Definition preserves {A} (I : Flags → Flags → Prop) (m : M A) : Prop :=
  ∀ st res st', m st = (res, st') → I (flags st) (flags st').

(** The other revision of [start_coldhot.go]. *)
Module part_002.
Section coldhot.
Context (W : World) (P : Platform).

(** As above, except for what a failed query returns when [want] is
    false. *)
Fixpoint checkRunningLoop (fuel : nat) (cliPath : string) (want : bool) (failCnt : Z)
  : M bool :=
  match fuel with
  | O => timeout
  | S fuel' =>
      r ← call W (SshOutput (cliPath +:+ " " +:+ "getinfo"));
      match rerr r with
      | Some _ =>
          if negb want then mret true
          else
            _ ← call W (Sleep 5);
            let failCnt := failCnt + 1 in
            if failCnt =? 12 then mret false
            else checkRunningLoop fuel' cliPath want failCnt
      | None => mret true
      end
  end.

Definition CheckPastelDRunningRemote (cliPath : string) (want : bool) : M bool :=
  checkRunningLoop 12 cliPath want 0.

Fixpoint syncLoop (fuel : nat) (r : ColdHotRunnerOpts) (retryCount : Z)
    (mnstatus : RPCPastelMSStatus) : M unit :=
  match fuel with
  | O => timeout
  | S fuel' =>
      out ← call W (SshOutput (remotePastelCli r +:+ " mnsync status"));
      match rerr out with
      | Some err =>
          if retryCount =? 0 then
            _ ← call W (Sleep 5);
            syncLoop fuel' r 1 zeroMSStatus
          else raise err
      | None =>
          match unmarshal_MSStatus P (rout out) mnstatus with
          | inr err => raise err
          | inl mnstatus =>
              _ ← (if String.eqb (AssetName mnstatus) "Initial" then
                     _ ← callE W (SshOutput (remotePastelCli r +:+ " mnsync reset"));
                     _ ← call W (Sleep 10);
                     mret tt
                   else mret tt) : M unit;
              if IsSynced mnstatus then mret tt
              else
                _ ← call W (Sleep 10);
                syncLoop fuel' r retryCount mnstatus
          end
      end
  end.

Definition checkMasterNodeSyncRemote (fuel : nat) (r : ColdHotRunnerOpts)
    (retryCount : Z) : M unit :=
  syncLoop fuel r retryCount zeroMSStatus.


(** [remoteHotNodeCtrl] of this revision asks [CheckPastelDRunningRemote]
    whether the daemon has stopped. *)
Definition remoteHotNodeCtrl (fuel : nat) (r : ColdHotRunnerOpts) : M unit :=
  f ← getFlags;
  config ← getConfig;
  _ ← call W (GoSshRun (remotePasteld r +:+ " --reindex --externalip=" +:+ flagNodeExtIP f
                        +:+ " --data-dir=" +:+ RemoteWorkingDir config +:+ " --daemon "
                        +:+ testnetOption r));
  running ← CheckPastelDRunningRemote (remotePastelCli r) true;
  if negb running then raise "unable to start pasteld on remote"
  else
    _ ← checkMasterNodeSyncRemote fuel r 0;
    _ ← callE W (SshOutput (remotePastelCli r +:+ " stop"));
    stopped ← CheckPastelDRunningRemote (remotePastelCli r) false;
    if negb stopped then raise "unable to stop pasteld on remote"
    else mret tt.

End coldhot.
End part_002.

(** *** [ColdHotRunner.handleArgs] *)

(** The two fields of [configs.Config] that [handleArgs] reads. *)
Record RemoteDirs := {
  RemotePastelUtilityDir : string;
  RemotePastelExecDir : string;
}.

(** [handleArgs]: [DefaultPastelExecutableDir] stands for the method of
    [config.Configurer]; the result is the configuration and the options
    as the method leaves them. *)
Definition handleArgs (P : Platform) (DefaultPastelExecutableDir : string)
    (config : RemoteDirs) (opts : ColdHotRunnerOpts)
  : outcome (RemoteDirs * ColdHotRunnerOpts) :=
  if isEmpty (RemotePastelUtilityDir config) then
    Raise "cannot find remote pastel-utility dir"
  else
    let config :=
      if isEmpty (RemotePastelExecDir config) then
        {| RemotePastelUtilityDir := RemotePastelUtilityDir config;
           RemotePastelExecDir := DefaultPastelExecutableDir |}
      else config in
    let slashes (p : string) := strings_ReplaceAll p "\"%char "/"%char in
    Done (config,
          {| sshUser := sshUser opts; sshIP := sshIP opts; sshPort := sshPort opts;
             sshKey := sshKey opts; testnetOption := testnetOption opts;
             remotePastelUtility :=
               slashes (filepath_Join [RemotePastelUtilityDir config; "pastel-utility"]);
             remotePasteld :=
               slashes (filepath_Join [RemotePastelExecDir config; PasteldName (GetOS P)]);
             remotePastelCli :=
               slashes (filepath_Join [RemotePastelExecDir config; PastelCliName (GetOS P)])
          |}).

(** The bytes of a string. *)
Definition bytes (s : string) : list ascii := list_ascii_of_string s.

(** *** [cmd/start] and [cmd/install]: what runs on the local host

    The service starters of [start.go] ask the service manager of package
    [servicemanager] first; what they and the firewall and parameter steps
    of [install.go] do besides is a call answered by the outside. *)
Module services.

Inductive Call :=
| CheckPastelFilePath (dir name : string)
| GoRunCMD (command : string) (args : list string)
| RunCMD (command : string) (args : list string)
| RunSudoCMD (args : list string)
| Sleep (seconds : Z)
| CheckProcessRunning (tool : ToolType)
| FindRunningProcess (name : string)
| Stat (path : string)
| GetChecksum (path : string)
| DownloadFile (path url : string).

#[global] Instance Call_eq_dec : EqDecision Call.
Proof. solve_decision. Defined.

(** The host as the service manager sees it, and the calls made so
    far, oldest first. *)
Record State := {
  host : servicemanager.State;
  calls : list Call;
}.

Record World := {
  sys : servicemanager.World;
  answers : list Call -> Call -> Reply;
}.

(** The methods of [config.Configurer] used here. *)
Record Configurer := {
  DefaultHomeDir : string;
  GetRQServiceConfFile : string -> string;
  GetSuperNodeConfFile : string -> string;
  GetWalletNodeConfFile : string -> string;
}.

(** The constants of packages [constants] and [configs] used here, in
    addition to those of the service manager. *)
Record Constants := {
  base : servicemanager.Constants;
  DupeDetectionSubFolder : string;
  DupeDetectionExecFileName : string;
  ZksnarkParamsNamesV1 : list string;
  ZksnarkParamsNamesV2 : list string;
  ZksnarkParamsURL : string;
  PastelParamsCheckSums : gmap string string;
}.

Definition T (A : Type) : Type := State -> outcome A * State.

#[global] Instance T_ret : MRet T := fun A a st => (Done a, st).

#[global] Instance T_bind : MBind T := fun A B f m st =>
  match m st with
  | (Done a, st1) => f a st1
  | (Raise e, st1) => (Raise e, st1)
  | (Panic, st1) => (Panic, st1)
  | (Timeout, st1) => (Timeout, st1)
  end.

Definition fail {A} (e : string) : T A := fun st => (Raise e, st).

Section starters.
Context (W : World) (K : Constants) (configurer : Configurer) (flagDevMode : bool).

Definition call (c : Call) : T Reply := fun st =>
  (Done (answers W (calls st) c),
   {| host := host st; calls := (calls st ++ [c])%list |}).

(** A call whose error is returned unchanged by the caller. *)
Definition callE (c : Call) : T Reply :=
  r ← call c;
  match rerr r with
  | Some err => fail err
  | None => mret r
  end.

Definition GetOS : OSType := servicemanager.GetOS (sys W).

(** [servicemanager.New(utils.GetOS(), config.Configurer.DefaultHomeDir())]. *)
Definition newManager : servicemanager.ServiceManager * error :=
  servicemanager.New (sys W) (base K) GetOS (DefaultHomeDir configurer).

(** [sm.StartService(ctx, app)] on the host. *)
Definition StartService (sm : servicemanager.ServiceManager) (app : ToolType)
  : T (bool * error) := fun st =>
  let '(res, h) := servicemanager.StartService sm app (host st) in
  (Done res, {| host := h; calls := calls st |}).

Definition runPastelService (config : Config) (toolType : ToolType)
    (toolFileName : string) (args : list string) : T unit :=
  r ← callE (CheckPastelFilePath (PastelExecDir config) toolFileName);
  let execPath := rout r in
  _ ← call (GoRunCMD execPath args);
  _ ← call (Sleep 10);
  r ← call (CheckProcessRunning toolType);
  let isServiceRunning := ryes r in
  if isServiceRunning then mret tt
  else
    _ ← callE (RunCMD execPath args);
    mret tt.

Definition runRQService (config : Config) : T unit :=
  let '(sm, err) := newManager in
  let serviceEnabled := bool_decide (err = None) in
  srvStarted ← (if serviceEnabled then
                  '(srvStarted, err) ← StartService sm (servicemanager.RQService (base K));
                  match err with
                  | Some e => fail e
                  | None => mret srvStarted
                  end
                else mret false) : T bool;
  if (srvStarted : bool) then mret tt
  else
    let rqExecName := servicemanager.PastelRQServiceExecName (base K) GetOS in
    let configFile := GetRQServiceConfFile configurer (WorkingDir config) in
    runPastelService config (servicemanager.RQService (base K)) rqExecName
      ["--config-file=" +:+ configFile].

Definition runDDService (config : Config) : T unit :=
  let '(sm, err) := newManager in
  let serviceEnabled := bool_decide (err = None) in
  srvStarted ← (if serviceEnabled then
                  '(srvStarted, err) ← StartService sm (servicemanager.DDService (base K));
                  match err with
                  | Some e => fail e
                  | None => mret srvStarted
                  end
                else mret false) : T bool;
  if (srvStarted : bool) then mret tt
  else
    r ← callE (CheckPastelFilePath (PastelExecDir config)
                 (servicemanager.GetDupeDetectionExecName (base K)));
    let execPath := rout r in
    let ddConfigFilePath :=
      filepath_Join [DefaultHomeDir configurer;
                     servicemanager.DupeDetectionServiceDir (base K);
                     servicemanager.DupeDetectionSupportFilePath (base K);
                     servicemanager.DupeDetectionConfigFilename (base K)] in
    let python := if bool_decide (GetOS = Windows) then "python" else "python3" in
    let venv := filepath_Join [PastelExecDir config; DupeDetectionSubFolder K; "venv"] in
    let cmd := "source " +:+ venv +:+ "/bin/activate && " +:+ python +:+ " "
               +:+ execPath +:+ " " +:+ ddConfigFilePath in
    _ ← call (GoRunCMD "bash" ["-c"; cmd]);
    _ ← call (Sleep 10);
    r ← call (FindRunningProcess (DupeDetectionExecFileName K));
    if isEmpty (rout r) then fail "dd-service failed to start"
    else mret tt.

Definition runWalletNodeService (config : Config) : T unit :=
  let '(sm, err) := newManager in
  let serviceEnabled := bool_decide (err = None) in
  srvStarted ← (if serviceEnabled then
                  '(srvStarted, err) ← StartService sm (servicemanager.WalletNode (base K));
                  match err with
                  | Some e => fail e
                  | None => mret srvStarted
                  end
                else mret false) : T bool;
  if (srvStarted : bool) then mret tt
  else
    let walletnodeExecName := servicemanager.WalletNodeExecName (base K) GetOS in
    let wnServiceArgs :=
      (["--config-file=" +:+ GetWalletNodeConfFile configurer (WorkingDir config)
        +:+ " --pastel-config-file=" +:+ WorkingDir config +:+ "/pastel.conf"]
       ++ (if flagDevMode then ["--swagger"] else []))%list in
    runPastelService config (servicemanager.WalletNode (base K)) walletnodeExecName
      wnServiceArgs.

Definition runSuperNodeService (config : Config) : T unit :=
  let '(sm, err) := newManager in
  let serviceEnabled := bool_decide (err = None) in
  srvStarted ← (if serviceEnabled then
                  (* an error of [StartService] is logged and nothing more *)
                  '(srvStarted, _) ← StartService sm (servicemanager.SuperNode (base K));
                  mret srvStarted
                else mret false) : T bool;
  if (srvStarted : bool) then mret tt
  else
    let supernodeConfigPath := GetSuperNodeConfFile configurer (WorkingDir config) in
    let supernodeExecName := servicemanager.SuperNodeExecName (base K) GetOS in
    runPastelService config (servicemanager.SuperNode (base K)) supernodeExecName
      ["--config-file=" +:+ supernodeConfigPath].

(** *** [cmd/install]: the firewall and the parameter files *)

(** The loop of [openPorts]; [err] is [nil] whenever a turn begins. *)
Fixpoint openPortsLoop (portList : list Z) : T unit :=
  match portList with
  | [] => mret tt
  | port :: rest =>
      let portStr := strconv_Itoa port in
      err ← (match GetOS with
             | Linux => r ← call (RunSudoCMD ["ufw"; "allow"; portStr]); mret (rerr r)
             | _ => mret None
             end) : T error;
      match err with
      | Some e => fail e
      | None => openPortsLoop rest
      end
  end.

Definition openPorts (config : Config) (portList : list Z) : T unit :=
  if negb (String.eqb (OpMode config) "install") then mret tt
  else openPortsLoop portList.

(** The loop of [downloadZksnarkParams] over the names. *)
Fixpoint downloadLoop (path : string) (force : bool) (names : list string) : T unit :=
  match names with
  | [] => mret tt
  | zksnarkParamsName :: rest =>
      let zksnarkParamsPath := filepath_Join [path; zksnarkParamsName] in
      s ← call (Stat zksnarkParamsPath);
      checkSum ← (match rerr s with
                  | None =>
                      if negb force then
                        fail ("pastel-param exists:  " +:+ zksnarkParamsPath)
                      else r ← callE (GetChecksum zksnarkParamsPath); mret (rout r)
                  | Some _ => mret ""
                  end) : T string;
      _ ← (if negb (String.eqb checkSum
                      (default "" (PastelParamsCheckSums K !! zksnarkParamsName))) then
             _ ← callE (DownloadFile zksnarkParamsPath
                          (ZksnarkParamsURL K +:+ zksnarkParamsName));
             mret tt
           else mret tt) : T unit;
      downloadLoop path force rest
  end.

Definition downloadZksnarkParams (path : string) (force : bool) (version : string)
  : T unit :=
  let zkParams :=
    (ZksnarkParamsNamesV2 K
     ++ (if negb (String.eqb version "beta") then ZksnarkParamsNamesV1 K else []))%list in
  downloadLoop path force zkParams.

End starters.

(** The opening the four starters share: the service manager is asked
    when there is one; [keepGoing] is set for the starter that only logs
    an error of [StartService]. *)
Definition startByManager (W : World) (K : Constants) (configurer : Configurer)
    (app : ToolType) (keepGoing : bool) : T bool :=
  let '(sm, err) := newManager W K configurer in
  let serviceEnabled := bool_decide (err = None) in
  if serviceEnabled then
    '(srvStarted, err) ← StartService sm app;
    match err with
    | Some e => if keepGoing then mret srvStarted else fail e
    | None => mret srvStarted
    end
  else mret false.

(** The names [downloadZksnarkParams] goes through. *)
Definition zkParams (K : Constants) (version : string) : list string :=
  (ZksnarkParamsNamesV2 K
   ++ (if negb (String.eqb version "beta") then ZksnarkParamsNamesV1 K else []))%list.

Definition isGetChecksum (c : Call) : bool :=
  match c with GetChecksum _ => true | _ => false end.

(** What [downloadZksnarkParams] does for one file that is absent: the
    file is looked for, and fetched when a checksum other than the empty
    one is recorded for its name. *)
Definition fetchAbsent (K : Constants) (path name : string) : list Call :=
  let p := filepath_Join [path; name] in
  Stat p ::
  (if negb (String.eqb "" (default "" (PastelParamsCheckSums K !! name)))
   then [DownloadFile p (ZksnarkParamsURL K +:+ name)] else []).

(** The command that opens a port. *)
Definition ufwAllow (port : Z) : Call := RunSudoCMD ["ufw"; "allow"; strconv_Itoa port].

End services.

(** *** Traces of the polling loops, launches and frames *)

(** The query of [CheckPastelDRunningRemote], and [n] turns of its loop
    whose query failed. *)
Definition getinfo (cliPath : string) : Event :=
  SshOutput (cliPath +:+ " " +:+ "getinfo").

Definition failedPolls (cliPath : string) (n : nat) : list Event :=
  concat (replicate n [getinfo cliPath; Sleep 5]).
Arguments failedPolls : simpl never.

(** What [runPastelNode] hands to the daemon it launches: the arguments
    end in [--daemon], carry the external address that was passed, and
    carry each of the optional arguments exactly when it was asked for. *)
Definition launchArgs (txIndexOne reindex : bool) (extIP mnPrivKey : string) (e : Event)
  : Prop :=
  match e with
  | GoRunCMD _ args =>
      last args = Some "--daemon"
      ∧ (extIP ≠ "" → "--externalip=" +:+ extIP ∈ args)
      ∧ ("--txindex=1" ∈ args ↔ txIndexOne = true)
      ∧ ("--reindex" ∈ args ↔ reindex = true)
      ∧ ("--masternode" ∈ args ↔ mnPrivKey ≠ "")
      ∧ ("--masternodeprivkey=" +:+ mnPrivKey ∈ args ↔ mnPrivKey ≠ "")
  | _ => True
  end.

(** The flags agree on the collateral and the passphrase. *)
Definition sameCollateral (f f' : Flags) : Prop :=
  flagMasterNodeTxID f' = flagMasterNodeTxID f
  ∧ flagMasterNodeInd f' = flagMasterNodeInd f
  ∧ flagMasterNodePassPhrase f' = flagMasterNodePassPhrase f.

(** The calls that make the local node generate a key or an identity. *)
Definition generatesLocally (e : Event) : bool :=
  match e with
  | RunPastelCLI ("masternode" :: "genkey" :: _) => true
  | RunPastelCLI ("pastelid" :: "newkey" :: _) => true
  | _ => false
  end.

(** The first prompt of [checkCollateral]. *)
Definition searchCollateral : Event :=
  AskUserToContinue
    "Search existing masternode collateral ready transaction in the wallet? Y/N".

(** [steady R m]: whatever its outcome, [m] takes a state to a state
    related to it by [R]. *)
Definition steady {A} (R : State → State → Prop) (m : M A) : Prop :=
  ∀ st res st', m st = (res, st') → R st st'.

(** The configuration is as it was and the trace has grown. *)
Definition extends (st st' : State) : Prop :=
  cfg st' = cfg st ∧ ∃ new, trace st' = trace st ++ new.

(** The command that launches the daemon on the remote host as a
    masternode. *)
Definition remoteMasternodeCmd (r : ColdHotRunnerOpts) (f : Flags) (config : Config)
  : string :=
  remotePasteld r +:+ " --masternode --txindex=1 --reindex --masternodeprivkey="
  +:+ flagMasterNodePrivateKey f +:+ " --externalip=" +:+ flagNodeExtIP f
  +:+ "  --data-dir=" +:+ RemoteWorkingDir config +:+ " " +:+ testnetOption r
  +:+ " --daemon ".

(** The calls that start the local daemon. *)
Definition startsLocalDaemon (e : Event) : bool :=
  match e with
  | RunPastelNode _ _ _ | StartService _ | GoRunCMD _ _ => true
  | _ => false
  end.

End cmd.

(** ** Concrete hosts, worlds and configurations

    The scenarios on which the properties below are exercised. *)

Module Scenarios.

Import servicemanager.

(** Values for the constants: [SystemdSystemDir] is the directory named
    in the comment of [RegisterService], [SystemdUserDir] the directory
    of systemd's user units below a home directory. *)
Definition K0 : Constants := {|
  SystemdSystemDir := "/etc/systemd/system";
  SystemdUserDir := ".config/systemd/user";
  SystemdServicePrefix := "pastel-";
  DDImgService := "dd-img-server";
  PastelD := "pasteld";
  RQService := "rq-service";
  DDService := "dd-service";
  SuperNode := "supernode";
  WalletNode := "walletnode";
  DupeDetectionServiceDir := "pastel_dupe_detection_service";
  DupeDetectionSupportFilePath := "dupe_detection_support_files";
  DupeDetectionConfigFilename := "config.ini";
  PastelRQServiceExecName := fun _ => "rq-service-linux-amd64";
  SuperNodeExecName := fun _ => "supernode-linux-amd64";
  WalletNodeExecName := fun _ => "walletnode-linux-amd64";
  GetDupeDetectionExecName := "dupe_detection_server.py";
|}.

(** A Linux host on which every file operation and every [systemctl]
    invocation succeeds. *)
Definition W0 : World := {|
  GetOS := Linux;
  GetExternalIPAddress := ("10.0.0.5", None);
  GetServiceConfig := fun app script =>
    ("[Service] ExecStart=" +:+ ExecCmd script, None);
  stat_error := fun _ => None;
  write_error := fun _ => None;
  systemctl := fun _ _ _ => ("", None);
|}.

Definition cfg0 : Config := {|
  PastelExecDir := "/root/pastel";
  WorkingDir := "/root/.pastel";
  GetRQServiceConfFile := fun d => filepath_Join [d; "rqservice.toml"];
  GetSuperNodeConfFile := fun d => filepath_Join [d; "supernode.yml"];
  GetWalletNodeConfFile := fun d => filepath_Join [d; "walletnode.yml"];
|}.

Definition params0 : ResgistrationParams :=
  {| Force := false; FlagDevMode := false; Config_ := cfg0 |}.

(** The executable of the daemon is installed, no unit file is. *)
Definition host0 : State :=
  {| files := {[ "/root/pastel/pasteld" := "ELF" ]}; journal := [] |}.

Definition sm0 : LinuxSystemdManager.t := {| LinuxSystemdManager.homeDir := "/root" |}.

(** *** Package [cmd] *)

Import cmd.

(** The double quote, and JSON texts as the node prints them. *)
Definition dq : string := String "034"%char EmptyString.

Definition jsonString (s : string) : string := dq +:+ s +:+ dq.

Definition jsonMSStatus (assetName isSynced : string) : string :=
  "{" +:+ jsonString "AssetName" +:+ ":" +:+ jsonString assetName +:+ ","
  +:+ jsonString "IsSynced" +:+ ":" +:+ isSynced +:+ "}".

Definition initialJson : string := jsonMSStatus "Initial" "false".
Definition syncingJson : string := jsonMSStatus "List" "false".
Definition syncedJson : string := jsonMSStatus "Finished" "true".

Definition syncing0 : RPCPastelMSStatus := {| AssetName := "List"; IsSynced := false |}.
Definition synced0 : RPCPastelMSStatus := {| AssetName := "Finished"; IsSynced := true |}.

(** One collateral output, [abcd1234] with index [0]. *)
Definition outputsJson : string :=
  "{" +:+ jsonString "abcd1234" +:+ ":" +:+ jsonString "0" +:+ "}".

(** A testnet platform whose decoders know the texts above. *)
Definition P0 : Platform := {|
  GetOS := servicemanager.Linux;
  PastelD := "pasteld";
  RQService := "rq-service";
  DDService := "dd-service";
  SuperNode := "supernode";
  PastelConfName := "pastel.conf";
  NetworkTestnet := "testnet";
  NetworkRegTest := "regtest";
  NodeRPCPort := 1%nat;
  GetSNPortList := fun c =>
    if String.eqb (Network c) "testnet" then [19933; 19932; 14444; 14445]
    else [9933; 9932; 4444; 4445];
  GetSuperNodeConfFile := fun d => filepath_Join [d; "supernode.yml"];
  DefaultZksnarkDir := "/home/cold/.pastel-params";
  unmarshal_outputs := fun s =>
    if String.eqb s outputsJson then inl {[ "abcd1234" := "0" ]}
    else inr "invalid character";
  unmarshal_PastelID := fun s => inr "unexpected end of JSON input";
  unmarshal_MSStatus := fun s prev =>
    if String.eqb s initialJson then inl initialMSStatus
    else if String.eqb s syncingJson then inl syncing0
    else if String.eqb s syncedJson then inl synced0
    else inr "invalid character";
  unmarshal_aliasResult := fun s => inl None;
|}.

Definition ok (out : string) : Reply :=
  {| rerr := None; rout := out; ryes := true; rmore := [] |}.
Definition failed (err : string) : Reply :=
  {| rerr := Some err; rout := ""; ryes := false; rmore := [] |}.
Definition answer (yes : bool) (text : string) : Reply :=
  {| rerr := None; rout := text; ryes := yes; rmore := [] |}.

Definition config0 : Config := {|
  OpMode := "start";
  WorkingDir := "/home/cold/.pastel";
  RemoteWorkingDir := "/root/.pastel";
  PastelExecDir := "/home/cold/pastel";
  RemoteHotPastelExecDir := "/root/pastel";
  Network := "testnet";
  ReIndex := false;
  Force := false;
  RegenRPC := false;
  RPCPort := 19932;
  RPCUser := "alice";
  RPCPwd := "secret";
  Peers := "";
  Version := "beta";
|}.

(** Creation of a masternode whose collateral, passphrase, key and
    identity are all given. *)
Definition flags0 : Flags := {|
  flagNodeExtIP := "10.0.0.6";
  flagMasterNodeName := "mn01";
  flagMasterNodeIsCreate := true;
  flagMasterNodeIsUpdate := false;
  flagMasterNodeConfNew := true;
  flagMasterNodeConfAdd := false;
  flagMasterNodeIsActivate := false;
  flagMasterNodeTxID := "abcd1234";
  flagMasterNodeInd := "0";
  flagMasterNodePassPhrase := "hunter2";
  flagMasterNodePrivateKey := "91sY9h4AQ62bAhNk1aJ7uJeSnQzSFtz7QmW5imrKmiACm7QJLXe";
  flagMasterNodePastelID := "jXYqZNPj21RVnwxnEJ654wEdzi7GZTZ5LAdiotBmPrF7pDMkpX1JegDMQZX55WZLkvy9fxNpZcbBJuE8QYUqBF";
  flagMasterNodeP2PIP := "";
|}.

Definition st0 : State := {| cfg := config0; flags := flags0; trace := [] |}.

(** The same configuration in the course of an installation: the
    credentials are present and are not to be regenerated. *)
Definition config_install : Config := {|
  OpMode := "install";
  WorkingDir := "/home/cold/.pastel";
  RemoteWorkingDir := "/root/.pastel";
  PastelExecDir := "/home/cold/pastel";
  RemoteHotPastelExecDir := "/root/pastel";
  Network := "testnet";
  ReIndex := false;
  Force := false;
  RegenRPC := false;
  RPCPort := 19932;
  RPCUser := "alice";
  RPCPwd := "secret";
  Peers := "192.168.114.2,192.168.114.4";
  Version := "beta";
|}.


Definition r0 : ColdHotRunnerOpts := {|
  sshUser := "root";
  sshIP := "192.168.114.4";
  sshPort := 22;
  sshKey := "";
  testnetOption := " --testnet";
  remotePastelUtility := "/root/pastel-utility";
  remotePasteld := "/root/pastel/pasteld";
  remotePastelCli := "/root/pastel/pastel-cli";
|}.

(** Every call succeeds; the wallet holds the collateral output. *)
Definition W_ready : World := fun h e =>
  if decide (e = RunPastelCLI ["masternode"; "outputs"]) then ok outputsJson
  else ok "".

(** As [W_ready], but nothing answers on the remote host. *)
Definition W_unreachable : World := fun h e =>
  if decide (e = RunPastelCLI ["masternode"; "outputs"]) then ok outputsJson
  else if isRemote e then failed "Process exited with status 1"
  else ok "".

(** The remote node reports Initial, Initial, Syncing, Synced. *)
Definition W_sync : World := fun h e =>
  if decide (e = mnsyncStatus r0) then
    ok (nth (occurrences (mnsyncStatus r0) h)
            [initialJson; initialJson; syncingJson; syncedJson] syncedJson)
  else ok "".

(** The wallet never shows the collateral; the operator goes on once and
    gives up at the second prompt. *)
Definition W_no_collateral : World := fun h e =>
  if decide (e = stillNoCollateral) then
    answer (bool_decide (occurrences stillNoCollateral h = 0%nat)) ""
  else ok "".

(** The registry records 10.0.0.5; the address found at run time is
    10.0.0.6. *)
Definition W_mismatch : World := fun h e =>
  match e with
  | GetMasternodeConfData _ =>
      {| rerr := None; rout := flagMasterNodePrivateKey flags0; ryes := true;
         rmore := ["10.0.0.5"; "19933"] |}
  | GetExternalIPAddress => ok "10.0.0.6"
  | _ => ok ""
  end.

(** *** Further hosts and worlds *)

(** The unit file of the daemon is where [IsRegistered] looks for it. *)
Definition host_registered : servicemanager.State :=
  {| servicemanager.files :=
       {[ "/root/pastel/pasteld" := "ELF";
          "/root/.config/systemd/user/pastel-pasteld.service" := "[Service]" ]};
     servicemanager.journal := [] |}.

(** As [W0], but the external address cannot be found. *)
Definition W_noip : servicemanager.World := {|
  servicemanager.GetOS := servicemanager.Linux;
  servicemanager.GetExternalIPAddress := ("", Some "no route to host");
  servicemanager.GetServiceConfig := fun app script =>
    ("[Service] ExecStart=" +:+ servicemanager.ExecCmd script, None);
  servicemanager.stat_error := fun _ => None;
  servicemanager.write_error := fun _ => None;
  servicemanager.systemctl := fun _ _ _ => ("", None);
|}.

(** As [W0], but [systemctl start] fails. *)
Definition W_nostart : servicemanager.World := {|
  servicemanager.GetOS := servicemanager.Linux;
  servicemanager.GetExternalIPAddress := ("10.0.0.5", None);
  servicemanager.GetServiceConfig := fun app script =>
    ("[Service] ExecStart=" +:+ servicemanager.ExecCmd script, None);
  servicemanager.stat_error := fun _ => None;
  servicemanager.write_error := fun _ => None;
  servicemanager.systemctl := fun _ c _ =>
    match c with
    | servicemanager.start => ("Job failed", Some "exit status 1")
    | _ => ("", None)
    end;
|}.

(** The command-line client on the remote host. *)
Definition cli0 : string := remotePastelCli r0.

(** The remote daemon answers from the third query on. *)
Definition W_slow : World := fun h e =>
  if decide (e = getinfo cli0) then
    if bool_decide (occurrences (getinfo cli0) h < 2)%nat
    then failed "Process exited with status 1" else ok "{}"
  else ok "".

(** The status of the synchronisation cannot be had. *)
Definition W_flaky : World := fun h e =>
  if decide (e = mnsyncStatus r0) then failed "connection lost" else ok "".

(** The registry records the address that was passed; no service manager
    starts the daemon, and the daemon comes up. *)
Definition W_match : World := fun h e =>
  match e with
  | GetMasternodeConfData _ =>
      {| rerr := None; rout := flagMasterNodePrivateKey flags0; ryes := true;
         rmore := ["10.0.0.6"; "19933"] |}
  | StartService _ => answer false ""
  | CheckPastelFilePath dir name => ok (filepath_Join [dir; name])
  | _ => ok ""
  end.

(** The operator answers every prompt with N. *)
Definition W_decline : World := fun h e =>
  match e with
  | AskUserToContinue _ => answer false "N"
  | _ => ok ""
  end.

(** The operator searches the wallet and picks the first output. *)
Definition W_pick : World := fun h e =>
  if decide (e = outputsQuery) then ok outputsJson
  else if decide (e = searchCollateral) then answer true ""
  else ok "0".

(** The flags of a creation for which nothing is given yet. *)
Definition flags_new : Flags :=
  with_TxID "" (with_Ind "" (with_PassPhrase "" flags0)).

Definition st_new : State := {| cfg := config0; flags := flags_new; trace := [] |}.

(** Every call succeeds, the wallet holds the collateral, the registry
    holds the key, and the remote node reports that it is synchronised. *)
Definition W_hot : World := fun h e =>
  if decide (e = outputsQuery) then ok outputsJson
  else if decide (e = mnsyncStatus r0) then ok syncedJson
  else match e with
       | GetMasternodeConfData _ =>
           {| rerr := None; rout := flagMasterNodePrivateKey flags0; ryes := true;
              rmore := ["10.0.0.6"; "19933"] |}
       | _ => ok ""
       end.

(** The credentials are to be drawn anew. *)
Definition config_regen : Config := {|
  OpMode := "install";
  WorkingDir := "/home/cold/.pastel";
  RemoteWorkingDir := "/root/.pastel";
  PastelExecDir := "/home/cold/pastel";
  RemoteHotPastelExecDir := "/root/pastel";
  Network := "testnet";
  ReIndex := false;
  Force := false;
  RegenRPC := true;
  RPCPort := 9932;
  RPCUser := "alice";
  RPCPwd := "secret";
  Peers := "";
  Version := "beta";
|}.

Definition st_regen : State := {| cfg := config_regen; flags := flags0; trace := [] |}.

(** The random strings that are drawn. *)
Definition W_random : World := fun h e =>
  match e with
  | GenerateRandomString 8 => ok "kD3xQ9pL"
  | GenerateRandomString 15 => ok "Zr8mN2vB7cX4wQ1"
  | _ => ok ""
  end.

(** The directories of the hot node as they come from a Windows shell. *)
Definition dirs0 : RemoteDirs := {|
  RemotePastelUtilityDir := "C:\pastel";
  RemotePastelExecDir := "";
|}.

(** *** The local host of the service starters *)

Definition Ks : services.Constants := {|
  services.base := K0;
  services.DupeDetectionSubFolder := "dd-service";
  services.DupeDetectionExecFileName := "dupe_detection_server";
  services.ZksnarkParamsNamesV1 := ["sapling-spend.params"; "sapling-output.params"];
  services.ZksnarkParamsNamesV2 := ["sprout-groth16.params"];
  services.ZksnarkParamsURL := "https://download.pastel.network/pastel-params/";
  services.PastelParamsCheckSums :=
    {[ "sprout-groth16.params" := "b685d700c60328498fbde589c8c7c484" ]};
|}.

Definition configurer0 : services.Configurer := {|
  services.DefaultHomeDir := "/root";
  services.GetRQServiceConfFile := fun d => filepath_Join [d; "rqservice.toml"];
  services.GetSuperNodeConfFile := fun d => filepath_Join [d; "supernode.yml"];
  services.GetWalletNodeConfFile := fun d => filepath_Join [d; "walletnode.yml"];
|}.

(** The executables are found, no process is seen running after a
    launch, no parameter file is present, and the firewall refuses the
    port 4445. *)
Definition answers0 (h : list services.Call) (c : services.Call) : Reply :=
  match c with
  | services.CheckPastelFilePath dir name => ok (filepath_Join [dir; name])
  | services.CheckProcessRunning _ => answer false ""
  | services.FindRunningProcess _ => ok ""
  | services.Stat _ => failed "no such file or directory"
  | services.RunSudoCMD ["ufw"; "allow"; "4445"] => failed "exit status 1"
  | _ => ok ""
  end.

Definition Ws : services.World := {| services.sys := W0; services.answers := answers0 |}.

Definition Ws_nostart : services.World :=
  {| services.sys := W_nostart; services.answers := answers0 |}.

(** A host without unit files, and one with the units of [rq-service]
    and of the supernode where [IsRegistered] looks for them. *)
Definition sst0 : services.State := {| services.host := host0; services.calls := [] |}.

Definition host_units : servicemanager.State :=
  {| servicemanager.files :=
       {[ "/root/.config/systemd/user/pastel-rq-service.service" := "[Service]";
          "/root/.config/systemd/user/pastel-supernode.service" := "[Service]" ]};
     servicemanager.journal := [] |}.

Definition sst_units : services.State :=
  {| services.host := host_units; services.calls := [] |}.


End Scenarios.

(** * Properties *)

(** Symbolic execution of the monadic code: the combinators are unfolded
    and the state is pushed through. *)
Ltac run :=
  repeat (progress (unfold mbind, cmd.M_bind, mret, cmd.M_ret, cmd.call, cmd.callE,
                    cmd.raise, cmd.panic, cmd.timeout, cmd.getFlags, cmd.getConfig,
                    cmd.modifyFlags, cmd.modifyConfig, cmd.wrap, cmd.logged; cbn)).


(** ** Service manager *)

Section ServiceManagerFacts.
Import servicemanager.
Context (W : World) (K : Constants).

Lemma LinuxSystemdManager_StartService_unregistered (sm : LinuxSystemdManager.t)
    (app : ToolType) (st : State) :
  (LinuxSystemdManager.IsRegistered W K sm app st).1 = false →
  LinuxSystemdManager.StartService W K sm app st = ((false, None), st).
Proof.
  intros Hreg. unfold LinuxSystemdManager.StartService.
  destruct (LinuxSystemdManager.IsRegistered W K sm app st) as [r e].
  simpl in Hreg. subst r. reflexivity.
Qed.

Lemma NoopManager_StartService_not_started (nm : NoopManager.t)
    (app : ToolType) (st : State) :
  NoopManager.StartService nm app st = ((false, None), st).
Proof. reflexivity. Qed.

(** Every value of the interface is one of the two managers. *)
Lemma New_cases (os : OSType) (homeDir : string) :
  (os = Linux ∧
   (New W K os homeDir).1 = ofLinuxSystemdManager W K {| LinuxSystemdManager.homeDir := homeDir |})
  ∨ (os ≠ Linux ∧ (New W K os homeDir).1 = ofNoopManager NoopManager.mk).
Proof. destruct os; simpl; auto. Qed.

(** After a registration that wrote the unit file, the file is at the
    path under [SystemdSystemDir]. *)
Lemma RegisterService_writes (sm : LinuxSystemdManager.t) (app : ToolType)
    (params : ResgistrationParams) (st : State) (systemdFile : string) :
  wroteUnitFile W K sm app params st systemdFile →
  ∃ st',
    LinuxSystemdManager.RegisterService W K sm app params st = (None, st') ∧
    files st' = <[LinuxSystemdManager.appServiceFilePath K sm app := systemdFile]> (files st).
Proof.
  intros (Hreg & execCmd & workDir & Hl & Hc & Hw).
  unfold LinuxSystemdManager.RegisterService.
  rewrite Hreg, Hl, Hc. unfold ioutil_WriteFile. rewrite Hw.
  unfold LinuxSystemdManager.EnableService, runSystemdCmd. simpl.
  destruct (systemctl W _ _ _) as [out [err|]]; eexists; split; reflexivity.
Qed.

(** The registration is seen by [IsRegistered] exactly when the path it
    stats is the path that was written. *)
Lemma IsRegistered_after_RegisterService (sm : LinuxSystemdManager.t) (app : ToolType)
    (params : ResgistrationParams) (st : State) (systemdFile : string) :
  wroteUnitFile W K sm app params st systemdFile →
  (LinuxSystemdManager.IsRegistered W K sm app
     (LinuxSystemdManager.RegisterService W K sm app params st).2).1 = true
  ↔ filepath_Join [LinuxSystemdManager.homeDir sm; SystemdUserDir K;
                   LinuxSystemdManager.ServiceName K sm app]
    = LinuxSystemdManager.appServiceFilePath K sm app.
Proof.
  intros Hw. destruct (RegisterService_writes _ _ _ _ _ Hw) as (st' & -> & Hf).
  destruct Hw as (Hreg & _). simpl.
  unfold LinuxSystemdManager.IsRegistered, os_Stat in *. rewrite Hf.
  set (fp := filepath_Join _) in *.
  destruct (decide (LinuxSystemdManager.appServiceFilePath K sm app = fp)) as [->|Hne].
  - rewrite lookup_insert_eq. simpl. tauto.
  - rewrite lookup_insert_ne by done.
    destruct (files st !! fp); [discriminate|].
    destruct (stat_error W fp); simpl; (split; [discriminate | intros E; destruct Hne; by rewrite E]).
Qed.

End ServiceManagerFacts.

(** C8. Starting a tool that is not registered gives "not started" with a
    nil error and leaves the host as it was, so that no [systemctl start]
    (nor any other [systemctl] command) is run; this holds for whichever
    manager [New] returns, the systemd manager on Linux and the no-op
    manager elsewhere. *)
Theorem StartService_unregistered_not_started
    (W : servicemanager.World) (K : servicemanager.Constants)
    (os : servicemanager.OSType) (homeDir : string)
    (app : servicemanager.ToolType) (st : servicemanager.State) :
  (servicemanager.IsRegistered (servicemanager.New W K os homeDir).1 app st).1 = false →
  servicemanager.StartService (servicemanager.New W K os homeDir).1 app st
  = ((false, None), st).
Proof.
  intros Hreg.
  destruct (New_cases W K os homeDir) as [[_ E]|[_ E]]; rewrite E in *; simpl in *.
  - by apply LinuxSystemdManager_StartService_unregistered.
  - reflexivity.
Qed.

Lemma StartService_unregistered_not_started_witness :
  (servicemanager.IsRegistered
     (servicemanager.New Scenarios.W0 Scenarios.K0 servicemanager.Linux "/root").1
     "pasteld" Scenarios.host0).1 = false
  ∧ servicemanager.StartService
      (servicemanager.New Scenarios.W0 Scenarios.K0 servicemanager.Linux "/root").1
      "pasteld" Scenarios.host0
    = ((false, None), Scenarios.host0).
Proof.
  split.
  - vm_compute. reflexivity.
  - apply (StartService_unregistered_not_started Scenarios.W0 Scenarios.K0
             servicemanager.Linux "/root" "pasteld" Scenarios.host0).
    vm_compute. reflexivity.
Defined.

(** C10. On a Linux host where every operation succeeds, registering the
    daemon writes its unit file under [/etc/systemd/system], and
    [IsRegistered], which looks under the home directory, still answers
    false; a following [StartService] therefore reports "not started". *)
Theorem RegisterService_then_IsRegistered_false :
  let st' := (servicemanager.LinuxSystemdManager.RegisterService
                Scenarios.W0 Scenarios.K0 Scenarios.sm0 "pasteld"
                Scenarios.params0 Scenarios.host0).2 in
  servicemanager.wroteUnitFile Scenarios.W0 Scenarios.K0 Scenarios.sm0 "pasteld" Scenarios.params0
    Scenarios.host0
    "[Service] ExecStart=/root/pastel/pasteld --datadir=/root/.pastel --externalip=10.0.0.5"
  ∧ servicemanager.files st' !! "/etc/systemd/system/pastel-pasteld.service"
    = Some "[Service] ExecStart=/root/pastel/pasteld --datadir=/root/.pastel --externalip=10.0.0.5"
  ∧ servicemanager.LinuxSystemdManager.IsRegistered
      Scenarios.W0 Scenarios.K0 Scenarios.sm0 "pasteld" st' = (false, None)
  ∧ servicemanager.LinuxSystemdManager.StartService
      Scenarios.W0 Scenarios.K0 Scenarios.sm0 "pasteld" st' = ((false, None), st').
Proof.
  cbv zeta. split; [|split; [|split]].
  - split; [vm_compute; reflexivity|].
    do 2 eexists. split; [|split]; vm_compute; reflexivity.
  - vm_compute. reflexivity.
  - vm_compute. reflexivity.
  - vm_compute. reflexivity.
Qed.


(** ** Which calls a function can make *)

Section Emits.
Import cmd.
Context (W : World) (Q : Event → Prop).

Lemma emits_nothing {A} (m : M A) :
  (∀ st, ∃ res, m st = (res, st)) → emits Q m.
Proof.
  intros H st res st' E. destruct (H st) as [res' E']. rewrite E' in E.
  injection E as _ <-. exists []. by rewrite app_nil_r.
Qed.

Lemma emits_ret {A} (a : A) : emits Q (mret a).
Proof. apply emits_nothing. intros st. by eexists. Qed.

Lemma emits_raise {A} (e : string) : emits Q (raise e : M A).
Proof. apply emits_nothing. intros st. by eexists. Qed.

Lemma emits_panic {A} : emits Q (panic : M A).
Proof. apply emits_nothing. intros st. by eexists. Qed.

Lemma emits_timeout {A} : emits Q (timeout : M A).
Proof. apply emits_nothing. intros st. by eexists. Qed.

Lemma emits_getFlags : emits Q getFlags.
Proof. apply emits_nothing. intros st. by eexists. Qed.

Lemma emits_getConfig : emits Q getConfig.
Proof. apply emits_nothing. intros st. by eexists. Qed.

Lemma emits_modifyFlags (g : Flags → Flags) : emits Q (modifyFlags g).
Proof. intros st res st' [= <- <-]. exists []. by rewrite app_nil_r. Qed.

Lemma emits_modifyConfig (g : Config → Config) : emits Q (modifyConfig g).
Proof. intros st res st' [= <- <-]. exists []. by rewrite app_nil_r. Qed.

Lemma emits_call (e : Event) : Q e → emits Q (call W e).
Proof. intros HQ st res st' [= <- <-]. exists [e]. split; [done|]. by constructor. Qed.

Lemma emits_bind {A B} (m : M A) (k : A → M B) :
  emits Q m → (∀ a, emits Q (k a)) → emits Q (m ≫= k).
Proof.
  intros Hm Hk st res st' E. unfold mbind, M_bind in E.
  destruct (m st) as [[a|e| |] st1] eqn:Em;
    destruct (Hm _ _ _ Em) as (new1 & T1 & F1).
  - destruct (Hk a _ _ _ E) as (new2 & T2 & F2).
    exists (new1 ++ new2). rewrite T2, T1, app_assoc. split; [done|].
    by apply Forall_app.
  - injection E as _ <-. eauto.
  - injection E as _ <-. eauto.
  - injection E as _ <-. eauto.
Qed.

Lemma emits_callE (e : Event) : Q e → emits Q (callE W e).
Proof.
  intros HQ. unfold callE. apply emits_bind; [by apply emits_call|].
  intros r. destruct (rerr r); [apply emits_raise | apply emits_ret].
Qed.

Lemma emits_wrap {A} (prefix : string) (m : M A) : emits Q m → emits Q (wrap prefix m).
Proof.
  intros Hm st res st' E. unfold wrap in E.
  destruct (m st) as [[a|e| |] st1] eqn:Em; injection E as _ <-; eauto.
Qed.

Lemma emits_logged (m : M unit) : emits Q m → emits Q (logged m).
Proof.
  intros Hm st res st' E. unfold logged in E.
  destruct (m st) as [[a|e| |] st1] eqn:Em; injection E as _ <-; eauto.
Qed.

End Emits.

(** Decomposes a goal [emits Q m] along the structure of [m]; what is left
    are the conditions [Q e] on the calls, which [tac] is to solve. *)
Ltac emits_with tac :=
  repeat lazymatch goal with
    | |- cmd.emits _ (mbind _ _) => apply emits_bind; [|intros ?]
    | |- cmd.emits _ (mret _) => apply emits_ret
    | |- cmd.emits _ (cmd.raise _) => apply emits_raise
    | |- cmd.emits _ cmd.panic => apply emits_panic
    | |- cmd.emits _ cmd.timeout => apply emits_timeout
    | |- cmd.emits _ cmd.getFlags => apply emits_getFlags
    | |- cmd.emits _ cmd.getConfig => apply emits_getConfig
    | |- cmd.emits _ (cmd.modifyFlags _) => apply emits_modifyFlags
    | |- cmd.emits _ (cmd.modifyConfig _) => apply emits_modifyConfig
    | |- cmd.emits _ (cmd.call _ _) => apply emits_call; tac
    | |- cmd.emits _ (cmd.callE _ _) => apply emits_callE; tac
    | |- cmd.emits _ (cmd.wrap _ _) => apply emits_wrap
    | |- cmd.emits _ (cmd.logged _) => apply emits_logged
    | |- cmd.emits _ (let _ := _ in _) => cbv zeta
    | |- cmd.emits _ (if ?b then _ else _) => destruct b
    | |- cmd.emits _ (match ?x with _ => _ end) => destruct x
    end.

(** ** Remote polling *)

Section RemotePolling.
Import cmd.
Context (W : World) (P : Platform).

(** The budget of twelve turns is never exhausted: the loop answers. *)
Lemma checkRunningLoop_total (fuel : nat) (cliPath : string) (want : bool)
    (failCnt : Z) (st : State) :
  (1 <= fuel)%nat → failCnt + Z.of_nat fuel = 12 →
  ∃ b st', checkRunningLoop W fuel cliPath want failCnt st = (Done b, st').
Proof.
  revert failCnt st. induction fuel as [|fuel IH]; intros failCnt st Hf Hsum; [lia|].
  destruct st as [c f tr]. run.
  destruct (rerr (W tr _)); run; [|eauto].
  destruct want; run; [|eauto].
  destruct (Z.eqb_spec (failCnt + 1) 12) as [E|E]; run; [eauto|].
  apply IH; lia.
Qed.

Lemma part_002_checkRunningLoop_total (fuel : nat) (cliPath : string) (want : bool)
    (failCnt : Z) (st : State) :
  (1 <= fuel)%nat → failCnt + Z.of_nat fuel = 12 →
  ∃ b st', part_002.checkRunningLoop W fuel cliPath want failCnt st = (Done b, st').
Proof.
  revert failCnt st. induction fuel as [|fuel IH]; intros failCnt st Hf Hsum; [lia|].
  destruct st as [c f tr]. run.
  destruct (rerr (W tr _)); run; [|eauto].
  destruct want; run; [|eauto].
  destruct (Z.eqb_spec (failCnt + 1) 12) as [E|E]; run; [eauto|].
  apply IH; lia.
Qed.

(** When the daemon is waited for ([want] is true) the two revisions run
    the same loop. *)
Lemma checkRunningLoop_want_agree (fuel : nat) (cliPath : string) (failCnt : Z)
    (st : State) :
  checkRunningLoop W fuel cliPath true failCnt st
  = part_002.checkRunningLoop W fuel cliPath true failCnt st.
Proof.
  revert failCnt st. induction fuel as [|fuel IH]; intros failCnt st; [reflexivity|].
  destruct st as [c f tr]. run.
  destruct (rerr (W tr _)); run; [|reflexivity].
  destruct (failCnt + 1 =? 12); run; [reflexivity|]. apply IH.
Qed.

End RemotePolling.

(** C2. The two revisions of [CheckPastelDRunningRemote] differ in the
    stop-wait: when the [getinfo] query fails and [want] is false, the
    revision of [start_coldhot.go] answers false (still running) and the
    other revision answers true (stopped), each after that one query; with
    [want] true the two give the same result and leave the same state,
    whatever the remote host answers. *)
Theorem CheckPastelDRunningRemote_revisions_differ :
  (∀ (W : cmd.World) (cliPath : string) (st : cmd.State),
      cmd.CheckPastelDRunningRemote W cliPath true st
      = cmd.part_002.CheckPastelDRunningRemote W cliPath true st)
  ∧
  (∀ (W : cmd.World) (cliPath : string) (st : cmd.State),
      (∀ h, is_Some (cmd.rerr (W h (cmd.SshOutput (cliPath +:+ " " +:+ "getinfo"))))) →
      (cmd.CheckPastelDRunningRemote W cliPath false st).1 = Done false
      ∧ (cmd.part_002.CheckPastelDRunningRemote W cliPath false st).1 = Done true).
Proof.
  split.
  - intros. apply checkRunningLoop_want_agree.
  - intros W cliPath [c f tr] Hfail.
    unfold cmd.CheckPastelDRunningRemote, cmd.part_002.CheckPastelDRunningRemote. run.
    destruct (Hfail tr) as [e ->]. run. split; reflexivity.
Qed.


(** ** Sync-status polling *)

Lemma append_inj_l (s a b : string) : s +:+ a = s +:+ b → a = b.
Proof. induction s as [|c s IH]; cbn; [done|]. intros [= E]. auto. Qed.

Section SyncPolling.
Import cmd.
Context (W : World) (P : Platform) (r : ColdHotRunnerOpts).

Lemma mnsyncReset_ne_Status : mnsyncReset r ≠ mnsyncStatus r.
Proof. intros [= E]. apply append_inj_l in E. discriminate. Qed.

Lemma occurrences_cons (e x : Event) (h : list Event) :
  occurrences e (x :: h)
  = if decide (x = e) then S (occurrences e h) else occurrences e h.
Proof. unfold occurrences. rewrite filter_cons. by destruct (decide (x = e)). Qed.

(** One turn of the loop on a status "Initial" that is not synced: the
    reset is sent and the loop waits twice ten seconds. *)
Lemma syncLoop_initial (fuel : nat) (retryCount : Z) (prev ms : RPCPastelMSStatus)
    (c : Config) (f : Flags) (tr : list Event) :
  rerr (W tr (mnsyncStatus r)) = None →
  unmarshal_MSStatus P (rout (W tr (mnsyncStatus r))) prev = inl ms →
  AssetName ms = "Initial" → IsSynced ms = false →
  rerr (W (tr ++ [mnsyncStatus r]) (mnsyncReset r)) = None →
  syncLoop W P (S fuel) r retryCount prev {| cfg := c; flags := f; trace := tr |}
  = syncLoop W P fuel r retryCount ms
      {| cfg := c; flags := f;
         trace := tr ++ [mnsyncStatus r; mnsyncReset r; Sleep 10; Sleep 10] |}.
Proof.
  unfold mnsyncStatus, mnsyncReset. intros He Hu Hn Hs Hr. run.
  rewrite He, Hu. run. rewrite Hn. run. rewrite Hr. run. rewrite Hs. run.
  rewrite <- !app_assoc. reflexivity.
Qed.

(** One turn on a status that is neither "Initial" nor synced: no reset,
    one wait. *)
Lemma syncLoop_waiting (fuel : nat) (retryCount : Z) (prev ms : RPCPastelMSStatus)
    (c : Config) (f : Flags) (tr : list Event) :
  rerr (W tr (mnsyncStatus r)) = None →
  unmarshal_MSStatus P (rout (W tr (mnsyncStatus r))) prev = inl ms →
  AssetName ms ≠ "Initial" → IsSynced ms = false →
  syncLoop W P (S fuel) r retryCount prev {| cfg := c; flags := f; trace := tr |}
  = syncLoop W P fuel r retryCount ms
      {| cfg := c; flags := f; trace := tr ++ [mnsyncStatus r; Sleep 10] |}.
Proof.
  unfold mnsyncStatus. intros He Hu Hn Hs. run.
  rewrite He, Hu. run. apply String.eqb_neq in Hn. rewrite Hn. run. rewrite Hs. run.
  rewrite <- !app_assoc. reflexivity.
Qed.

(** The turn on a synced status other than "Initial" ends the loop. *)
Lemma syncLoop_synced (fuel : nat) (retryCount : Z) (prev ms : RPCPastelMSStatus)
    (c : Config) (f : Flags) (tr : list Event) :
  rerr (W tr (mnsyncStatus r)) = None →
  unmarshal_MSStatus P (rout (W tr (mnsyncStatus r))) prev = inl ms →
  AssetName ms ≠ "Initial" → IsSynced ms = true →
  syncLoop W P (S fuel) r retryCount prev {| cfg := c; flags := f; trace := tr |}
  = (Done tt, {| cfg := c; flags := f; trace := tr ++ [mnsyncStatus r] |}).
Proof.
  unfold mnsyncStatus. intros He Hu Hn Hs. run.
  rewrite He, Hu. run. apply String.eqb_neq in Hn. rewrite Hn. run. rewrite Hs.
  reflexivity.
Qed.

(** The two revisions of the poller are the same function. *)
Lemma part_002_checkMasterNodeSyncRemote_eq (fuel : nat) (retryCount : Z) (st : State) :
  part_002.checkMasterNodeSyncRemote W P fuel r retryCount st
  = checkMasterNodeSyncRemote W P fuel r retryCount st.
Proof. reflexivity. Qed.

Context (tr0 : list Event) (syncing synced : RPCPastelMSStatus).

(** The responses of the remote node: the n-th status query is answered
    without error by a text that decodes to the n-th of Initial, Initial,
    Syncing, Synced; resets succeed. *)
Hypothesis Hsyncing : AssetName syncing ≠ "Initial" ∧ IsSynced syncing = false.
Hypothesis Hsynced : AssetName synced ≠ "Initial" ∧ IsSynced synced = true.
Hypothesis Hstatus : ∀ h n s prev,
  occurrences (mnsyncStatus r) h = n →
  [initialMSStatus; initialMSStatus; syncing; synced] !! n = Some s →
  rerr (W (tr0 ++ h) (mnsyncStatus r)) = None
  ∧ unmarshal_MSStatus P (rout (W (tr0 ++ h) (mnsyncStatus r))) prev = inl s.
Hypothesis Hreset : ∀ h, rerr (W (tr0 ++ h) (mnsyncReset r)) = None.

Ltac count_status :=
  repeat (rewrite occurrences_cons;
          first [ rewrite decide_True by reflexivity
                | rewrite decide_False
                    by (first [discriminate | apply mnsyncReset_ne_Status]) ]);
  reflexivity.

(** C3. When the status queries are answered Initial, Initial, Syncing,
    Synced (only the last one synced) and the resets succeed, the poller
    sends exactly two [mnsync reset] commands, one after each Initial
    answer and none after the Syncing or the Synced answer, and returns
    success on the Synced answer; four turns of the loop suffice.  This
    holds for the poller of either revision of the file. *)
Theorem checkMasterNodeSyncRemote_two_resets (fuel : nat) (c : Config) (f : Flags) :
  (4 <= fuel)%nat →
  let new := [mnsyncStatus r; mnsyncReset r; Sleep 10; Sleep 10;
              mnsyncStatus r; mnsyncReset r; Sleep 10; Sleep 10;
              mnsyncStatus r; Sleep 10;
              mnsyncStatus r] in
  checkMasterNodeSyncRemote W P fuel r 0 {| cfg := c; flags := f; trace := tr0 |}
  = (Done tt, {| cfg := c; flags := f; trace := tr0 ++ new |})
  ∧ part_002.checkMasterNodeSyncRemote W P fuel r 0
      {| cfg := c; flags := f; trace := tr0 |}
    = (Done tt, {| cfg := c; flags := f; trace := tr0 ++ new |})
  ∧ occurrences (mnsyncReset r) new = 2%nat.
Proof.
  intros Hfuel new.
  assert (checkMasterNodeSyncRemote W P fuel r 0 {| cfg := c; flags := f; trace := tr0 |}
          = (Done tt, {| cfg := c; flags := f; trace := tr0 ++ new |})) as Hrun;
    [|split; [exact Hrun|split; [rewrite <- Hrun; apply part_002_checkMasterNodeSyncRemote_eq|]]].
  - do 4 (destruct fuel as [|fuel]; [lia|]). clear Hfuel.
    unfold checkMasterNodeSyncRemote.
    destruct (Hstatus [] 0%nat initialMSStatus zeroMSStatus) as [He1 Hu1];
      [count_status | reflexivity |]. rewrite app_nil_r in He1, Hu1.
    rewrite (syncLoop_initial _ _ _ _ _ _ _ He1 Hu1 eq_refl eq_refl (Hreset _)).
    destruct (Hstatus [mnsyncStatus r; mnsyncReset r; Sleep 10; Sleep 10]
                1%nat initialMSStatus initialMSStatus) as [He2 Hu2];
      [count_status | reflexivity |].
    rewrite (syncLoop_initial _ _ _ _ _ _ _ He2 Hu2 eq_refl eq_refl).
    2:{ rewrite <- app_assoc. apply Hreset. }
    rewrite <- app_assoc. simpl app at 2.
    destruct (Hstatus [mnsyncStatus r; mnsyncReset r; Sleep 10; Sleep 10;
                       mnsyncStatus r; mnsyncReset r; Sleep 10; Sleep 10]
                2%nat syncing initialMSStatus) as [He3 Hu3];
      [count_status | reflexivity |].
    rewrite (syncLoop_waiting _ _ _ _ _ _ _ He3 Hu3 (proj1 Hsyncing) (proj2 Hsyncing)).
    rewrite <- app_assoc. simpl app at 2.
    destruct (Hstatus [mnsyncStatus r; mnsyncReset r; Sleep 10; Sleep 10;
                       mnsyncStatus r; mnsyncReset r; Sleep 10; Sleep 10;
                       mnsyncStatus r; Sleep 10]
                3%nat synced syncing) as [He4 Hu4];
      [count_status | reflexivity |].
    rewrite (syncLoop_synced _ _ _ _ _ _ _ He4 Hu4 (proj1 Hsynced) (proj2 Hsynced)).
    rewrite <- app_assoc. reflexivity.
  - subst new. 
    repeat (rewrite occurrences_cons;
            first [ rewrite decide_True by reflexivity
                  | rewrite decide_False
                      by (first [discriminate
                                | intros E; symmetry in E; revert E; apply mnsyncReset_ne_Status]) ]).
    reflexivity.
Qed.

End SyncPolling.

Lemma checkMasterNodeSyncRemote_two_resets_witness :
  let status := cmd.mnsyncStatus Scenarios.r0 in
  let reset := cmd.mnsyncReset Scenarios.r0 in
  let new := [status; reset; cmd.Sleep 10; cmd.Sleep 10;
              status; reset; cmd.Sleep 10; cmd.Sleep 10;
              status; cmd.Sleep 10;
              status] in
  cmd.checkMasterNodeSyncRemote Scenarios.W_sync Scenarios.P0 4 Scenarios.r0 0 Scenarios.st0
  = (Done tt, {| cmd.cfg := Scenarios.config0; cmd.flags := Scenarios.flags0;
                 cmd.trace := new |})
  ∧ cmd.part_002.checkMasterNodeSyncRemote Scenarios.W_sync Scenarios.P0 4 Scenarios.r0 0
      Scenarios.st0
    = (Done tt, {| cmd.cfg := Scenarios.config0; cmd.flags := Scenarios.flags0;
                   cmd.trace := new |})
  ∧ cmd.occurrences reset new = 2%nat.
Proof.
  apply (checkMasterNodeSyncRemote_two_resets Scenarios.W_sync Scenarios.P0 Scenarios.r0
           [] Scenarios.syncing0 Scenarios.synced0).
  - split; [discriminate | reflexivity].
  - split; [discriminate | reflexivity].
  - intros h n s prev <- Hs. cbn [app]. unfold Scenarios.W_sync.
    rewrite decide_True by reflexivity.
    destruct (cmd.occurrences (cmd.mnsyncStatus Scenarios.r0) h) as [|[|[|[|k]]]];
      cbn in Hs; try discriminate Hs; injection Hs as <-; split; reflexivity.
  - intros h. reflexivity.
  - lia.
Defined.

Lemma CheckPastelDRunningRemote_revisions_differ_witness :
  (cmd.CheckPastelDRunningRemote Scenarios.W_unreachable "/root/pastel/pastel-cli" false
     Scenarios.st0).1 = Done false
  ∧ (cmd.part_002.CheckPastelDRunningRemote Scenarios.W_unreachable "/root/pastel/pastel-cli"
       false Scenarios.st0).1 = Done true.
Proof.
  apply (proj2 CheckPastelDRunningRemote_revisions_differ Scenarios.W_unreachable
           "/root/pastel/pastel-cli" Scenarios.st0).
  intros h. by eexists.
Defined.

(** ** The cold/hot orchestrator *)

Section ColdHotEmits.
Import cmd.
Context (W : World) (P : Platform).

Lemma emits_weaken {A} (Q Q' : Event → Prop) (m : M A) :
  (∀ e, Q e → Q' e) → emits Q m → emits Q' m.
Proof.
  intros HQ Hm st res st' E. destruct (Hm _ _ _ E) as (new & T & F).
  exists new. split; [done|]. eapply Forall_impl; eauto.
Qed.

Lemma getMasternodeOutputs_quiet : emits quiet (getMasternodeOutputs W P).
Proof. unfold getMasternodeOutputs. emits_with ltac:(by split). Qed.

Lemma collateralLoop_quiet (fuel : nat) (i : Z) : emits quiet (collateralLoop W P fuel i).
Proof.
  revert i. induction fuel as [|fuel IH]; intros i; cbn [collateralLoop].
  - apply emits_timeout.
  - emits_with ltac:(by split); [apply getMasternodeOutputs_quiet|apply IH..].
Qed.

Lemma checkCollateral_quiet (fuel : nat) : emits quiet (checkCollateral W P fuel).
Proof.
  unfold checkCollateral, collateralSearch, collateralFund.
  emits_with ltac:(by split);
    first [apply getMasternodeOutputs_quiet | apply collateralLoop_quiet].
Qed.

Lemma checkPassphrase_quiet : emits quiet (checkPassphrase W).
Proof. unfold checkPassphrase. emits_with ltac:(by split). Qed.

Lemma checkRunningLoop_keepsDaemon (fuel : nat) (cliPath : string) (want : bool)
    (failCnt : Z) :
  emits keepsDaemon (checkRunningLoop W fuel cliPath want failCnt).
Proof.
  revert failCnt. induction fuel as [|fuel IH]; intros failCnt; cbn [checkRunningLoop].
  - apply emits_timeout.
  - emits_with ltac:(exact eq_refl). apply IH.
Qed.

Lemma checkMasternodePrivKey_keepsDaemon (client : option Client) :
  emits keepsDaemon (checkMasternodePrivKey W P client).
Proof. unfold checkMasternodePrivKey. emits_with ltac:(exact eq_refl). Qed.

Lemma checkPastelID_keepsDaemon (client : option Client) :
  emits keepsDaemon (checkPastelID W P client).
Proof. unfold checkPastelID. emits_with ltac:(exact eq_refl). Qed.

(** Resolving the parameters in cold/hot mode never stops the local
    daemon. *)
Lemma handleCreateUpdateStartColdHot_keepsDaemon (fuel : nat) (r : ColdHotRunnerOpts) :
  emits keepsDaemon (handleCreateUpdateStartColdHot W P fuel r).
Proof.
  unfold handleCreateUpdateStartColdHot, CheckPastelDRunningRemote.
  emits_with ltac:(exact eq_refl);
    first [ apply (emits_weaken quiet); [by intros ? []|];
            first [apply checkCollateral_quiet | apply checkPassphrase_quiet]
          | apply checkRunningLoop_keepsDaemon
          | apply checkMasternodePrivKey_keepsDaemon
          | apply checkPastelID_keepsDaemon ].
Qed.

(** The collateral and passphrase checks stay on the local host. *)
Lemma localChecks_local (fuel : nat) :
  emits local (_ ← checkCollateral W P fuel; checkPassphrase W).
Proof.
  apply (emits_weaken quiet); [by intros ? []|].
  apply emits_bind; [apply checkCollateral_quiet|intros _; apply checkPassphrase_quiet].
Qed.

End ColdHotEmits.

(** C1 (as amended). When the masternode-parameter step fails after the
    local daemon has been started, [Run] returns that error at once and
    nothing issued up to then stops the local daemon; and when the failure
    lies in the collateral or the passphrase check, nothing has gone over
    the remote session. *)
Theorem Run_params_failure_keeps_local_daemon
    (W : cmd.World) (P : cmd.Platform) (fuel : nat) (r : cmd.ColdHotRunnerOpts)
    (st st2 : cmd.State) (e : string) :
  let st1 := {| cmd.cfg := cmd.cfg st; cmd.flags := cmd.flags st;
                cmd.trace := cmd.trace st ++ [cmd.RunPastelNode true "" ""] |} in
  cmd.rerr (W (cmd.trace st) (cmd.RunPastelNode true "" "")) = None →
  cmd.flagMasterNodeIsCreate (cmd.flags st) || cmd.flagMasterNodeIsUpdate (cmd.flags st) = true →
  cmd.handleCreateUpdateStartColdHot W P fuel r st1 = (Raise e, st2) →
  cmd.Run W P fuel r st = (Raise e, st2)
  ∧ ∃ new,
      cmd.trace st2 = cmd.trace st ++ cmd.RunPastelNode true "" "" :: new
      ∧ Forall cmd.keepsDaemon new
      ∧ ((_ ← cmd.checkCollateral W P fuel; cmd.checkPassphrase W) st1 = (Raise e, st2) →
         Forall cmd.local new).
Proof.
  intros st1 Hstart Hcreate Hfail. split.
  - destruct st as [c f tr]. unfold cmd.Run. run. cbn in Hstart, Hcreate. rewrite Hstart.
    run. rewrite Hcreate. run. unfold st1 in Hfail. cbn in Hfail. rewrite Hfail. reflexivity.
  - destruct (handleCreateUpdateStartColdHot_keepsDaemon W P fuel r _ _ _ Hfail)
      as (new & T & F).
    exists new. cbn in T. rewrite <- app_assoc in T. split; [exact T|]. split; [exact F|].
    intros Hlocal. destruct (localChecks_local W P fuel _ _ _ Hlocal) as (new' & T' & F').
    cbn in T'. rewrite <- app_assoc in T'. rewrite T in T'.
    apply app_inv_head in T'. injection T' as ->. exact F'.
Qed.

Lemma Run_params_failure_keeps_local_daemon_witness :
  let st1 := {| cmd.cfg := Scenarios.config0; cmd.flags := Scenarios.flags0;
                cmd.trace := [cmd.RunPastelNode true "" ""] |} in
  let st2 := (cmd.handleCreateUpdateStartColdHot
                Scenarios.W_unreachable Scenarios.P0 1 Scenarios.r0 st1).2 in
  cmd.Run Scenarios.W_unreachable Scenarios.P0 1 Scenarios.r0 Scenarios.st0
  = (Raise "unable to start pasteld on remote", st2)
  ∧ ∃ new,
      cmd.trace st2 = cmd.trace Scenarios.st0 ++ cmd.RunPastelNode true "" "" :: new
      ∧ Forall cmd.keepsDaemon new
      ∧ ((_ ← cmd.checkCollateral Scenarios.W_unreachable Scenarios.P0 1;
          cmd.checkPassphrase Scenarios.W_unreachable) st1
         = (Raise "unable to start pasteld on remote", st2) →
         Forall cmd.local new).
Proof.
  intros st1 st2.
  apply (Run_params_failure_keeps_local_daemon
           Scenarios.W_unreachable Scenarios.P0 1 Scenarios.r0 Scenarios.st0 st2
           "unable to start pasteld on remote").
  - vm_compute. reflexivity.
  - vm_compute. reflexivity.
  - vm_compute. reflexivity.
Defined.

(** C1 (as stated) fails: with the collateral in the wallet and the
    passphrase given, the step goes on to launch the daemon on the remote
    host and to poll it; when that host does not answer, the step fails
    after thirteen commands over the remote session. *)
Lemma Run_params_failure_after_remote_commands :
  let start := cmd.RunPastelNode true "" "" in
  let st1 := {| cmd.cfg := Scenarios.config0; cmd.flags := Scenarios.flags0;
                cmd.trace := [start] |} in
  let st2 := (cmd.handleCreateUpdateStartColdHot
                Scenarios.W_unreachable Scenarios.P0 1 Scenarios.r0 st1).2 in
  cmd.rerr (Scenarios.W_unreachable (cmd.trace Scenarios.st0) start) = None
  ∧ cmd.flagMasterNodeIsCreate (cmd.flags Scenarios.st0) = true
  ∧ cmd.handleCreateUpdateStartColdHot Scenarios.W_unreachable Scenarios.P0 1 Scenarios.r0 st1
    = (Raise "unable to start pasteld on remote", st2)
  ∧ cmd.Run Scenarios.W_unreachable Scenarios.P0 1 Scenarios.r0 Scenarios.st0
    = (Raise "unable to start pasteld on remote", st2)
  ∧ length (filter (λ e, cmd.isRemote e = true) (cmd.trace st2)) = 13%nat
  ∧ ¬ ∃ new, cmd.trace st2 = cmd.trace Scenarios.st0 ++ start :: new
             ∧ Forall cmd.local new.
Proof.
  cbv zeta. repeat (split; [vm_compute; reflexivity|]).
  intros (new & T & F). vm_compute in T. injection T as <-.
  inversion F as [|? ? _ F1]. inversion F1 as [|? ? Hbad _]. discriminate Hbad.
Qed.

Section RemoteServices.
Import cmd.
Context (W : World) (P : Platform) (r : ColdHotRunnerOpts).

(** The last phase issues the five calls of [remoteServiceCalls] in their
    order and stops at the first that fails; it succeeds only after all
    five. *)
Lemma startRemoteServices_order (st st' : State) (res : outcome unit) :
  startRemoteServices W P r st = (res, st') →
  ∃ k : nat,
    trace st' = trace st ++ take k (remoteServiceCalls P r (cfg st))
    ∧ (1 <= k <= 5)%nat
    ∧ (res = Done tt → k = 5%nat)
    ∧ (∀ x, res ≠ Done x → ∃ e, res = Raise e).
Proof.
  destruct st as [c f tr]. unfold startRemoteServices, runServiceRemote, remoteServiceCalls,
    serviceCmd. run.
  repeat match goal with
    | |- context [rerr (W ?h ?e)] => destruct (rerr (W h e)); run
    end;
    intros [= <- <-]; cbn [trace cfg];
    [ exists 1%nat | exists 2%nat | exists 3%nat | exists 4%nat | exists 5%nat | exists 5%nat ];
    (split; [rewrite <- ?app_assoc; reflexivity|]);
    (split; [lia|]); (split; [try discriminate; reflexivity|]);
    intros x Hx; try (by eexists); by destruct x.
Qed.

End RemoteServices.

(** C6. With every remote command succeeding, the last phase of [Run]
    starts [rq-service], [dd-service] and [supernode-service] in this
    order and copies the supernode configuration to the remote working
    directory before the last of them; the [chmod] it then sends over the
    session names the path of the local file, [/home/cold/.pastel], and not
    the file that was copied to [/root/.pastel]. *)
Theorem startRemoteServices_chmod_names_local_path :
  cmd.startRemoteServices Scenarios.W_ready Scenarios.P0 Scenarios.r0 Scenarios.st0
  = (Done tt,
     {| cmd.cfg := Scenarios.config0; cmd.flags := Scenarios.flags0;
        cmd.trace :=
          [ cmd.SshOutput "/root/pastel-utility start rq-service --work-dir=/root/.pastel";
            cmd.SshOutput "/root/pastel-utility start dd-service --work-dir=/root/.pastel";
            cmd.SshScp "/home/cold/.pastel/supernode.yml" "/root/.pastel/supernode.yml";
            cmd.SshShellCmd "chmod 755 /home/cold/.pastel/supernode.yml";
            cmd.SshOutput
              "/root/pastel-utility start supernode-service --work-dir=/root/.pastel" ] |}).
Proof. vm_compute. reflexivity. Qed.

(** ** Starting the node as masternode *)

(** C5. When the registry entry of the masternode is read with an external
    address that differs from the address of this start -- the one passed
    in [flagNodeExtIP] or, when none is passed, the one discovered --
    [runStartMasternode] returns the mismatch error, and the only calls it
    has made are the reading of [pastel.conf], the reading of the registry
    entry and, when no address was passed, the discovery: [runPastelNode]
    is not entered and no daemon is launched. *)
Theorem runStartMasternode_ip_mismatch
    (W : cmd.World) (P : cmd.Platform) (st : cmd.State) (regIP ip : string) :
  let name := cmd.flagMasterNodeName (cmd.flags st) in
  let passed := cmd.flagNodeExtIP (cmd.flags st) in
  let tr1 := cmd.trace st ++ [cmd.ParsePastelConf] in
  let tr2 := tr1 ++ [cmd.GetMasternodeConfData name] in
  cmd.rerr (W (cmd.trace st) cmd.ParsePastelConf) = None →
  cmd.rerr (W tr1 (cmd.GetMasternodeConfData name)) = None →
  nth 0 (cmd.rmore (W tr1 (cmd.GetMasternodeConfData name))) "" = regIP →
  (if cmd.isEmpty passed
   then cmd.rerr (W tr2 cmd.GetExternalIPAddress) = None
        ∧ cmd.rout (W tr2 cmd.GetExternalIPAddress) = ip
   else passed = ip) →
  regIP ≠ ip →
  ∃ st',
    cmd.runStartMasternode W P st = (Raise (cmd.mismatchError regIP ip), st')
    ∧ cmd.trace st'
      = tr2 ++ (if cmd.isEmpty passed then [cmd.GetExternalIPAddress] else []).
Proof.
  destruct st as [c f tr]. cbn. intros Hparse Hconf Hreg Hip Hne.
  unfold cmd.runStartMasternode. run. rewrite Hparse. run. rewrite Hconf. run.
  rewrite Hreg. apply String.eqb_neq in Hne.
  destruct (cmd.isEmpty (cmd.flagNodeExtIP f)); run.
  - destruct Hip as [-> ->]. run. rewrite Hne. run. eexists. split; reflexivity.
  - subst ip. rewrite Hne. run. eexists. split; [reflexivity|]. by rewrite app_nil_r.
Qed.

Lemma runStartMasternode_ip_mismatch_witness :
  ∃ st',
    cmd.runStartMasternode Scenarios.W_mismatch Scenarios.P0
      {| cmd.cfg := Scenarios.config0;
         cmd.flags := cmd.with_NodeExtIP "" Scenarios.flags0;
         cmd.trace := [] |}
    = (Raise (cmd.mismatchError "10.0.0.5" "10.0.0.6"), st')
    ∧ cmd.trace st'
      = [cmd.ParsePastelConf; cmd.GetMasternodeConfData "mn01"; cmd.GetExternalIPAddress].
Proof.
  apply (runStartMasternode_ip_mismatch Scenarios.W_mismatch Scenarios.P0
           {| cmd.cfg := Scenarios.config0;
              cmd.flags := cmd.with_NodeExtIP "" Scenarios.flags0;
              cmd.trace := [] |} "10.0.0.5" "10.0.0.6").
  - reflexivity.
  - reflexivity.
  - reflexivity.
  - split; reflexivity.
  - discriminate.
Defined.

(** ** The working environment *)

Section WorkingEnvironment.
Import cmd.
Context (W : World) (P : Platform).

(** The file written by [updatePastelConfigFile] carries the three
    credentials of the configuration it is given. *)
Lemma pastelConfText_credentials (c : Config) :
  ∃ rest,
    pastelConfText P c
    = "server=1" +:+ nl +:+ "listen=1" +:+ nl +:+ nl +:+
      "rpcuser=" +:+ RPCUser c +:+ nl +:+
      "rpcpassword=" +:+ RPCPwd c +:+ nl +:+
      "rpcport=" +:+ strconv_Itoa (RPCPort c) +:+ nl +:+ rest.
Proof. eexists. reflexivity. Qed.




End WorkingEnvironment.



(** ** Waiting for the collateral *)

Section CollateralPolling.
Import cmd.
Context (W : World) (P : Platform) (txid : string).

Lemma getMasternodeOutputs_neverListed (c : Config) (f : Flags) (tr : list Event) :
  neverListed W P txid →
  ∃ m, getMasternodeOutputs W P {| cfg := c; flags := f; trace := tr |}
       = (Done m, {| cfg := c; flags := f; trace := tr ++ [outputsQuery] |})
       ∧ m !! txid = None.
Proof.
  intros H. destruct (H tr) as [He Ho]. unfold getMasternodeOutputs, outputsQuery in *.
  run. rewrite He. run. destruct Ho as [->|(m & -> & Hm)].
  - run. by eexists.
  - destruct (isEmpty _); run; eexists; split; try reflexivity; done.
Qed.

(** A round of the loop that starts at [i]: as long as the wallet does
    not show the transaction, the operator is asked after [11 - i]
    queries, each followed by a wait of ten seconds; when the operator
    goes on, the next round starts at [i = 2]. *)
Lemma collateralLoop_round (n : nat) :
  neverListed W P txid →
  ∀ (fuel : nat) (i : Z) (c : Config) (f : Flags) (tr : list Event),
    flagMasterNodeTxID f = txid → i + Z.of_nat n = 10 →
    collateralLoop W P (S n + fuel) i {| cfg := c; flags := f; trace := tr |}
    = (r ← call W stillNoCollateral;
       if negb (ryes r) then raise "user terminated"
       else collateralLoop W P fuel (1 + 1))
        {| cfg := c; flags := f;
           trace := tr ++ concat (replicate (S n) [outputsQuery; Sleep 10]) |}.
Proof.
  intros H. induction n as [|n IH]; intros fuel i c f tr Hf Hi.
  - assert (i = 10) as -> by lia.
    destruct (getMasternodeOutputs_neverListed c f tr H) as (m & E & Hm).
    cbn [plus collateralLoop]. change (10 <=? 10) with true. cbv iota.
    unfold mbind at 1, M_bind at 1. rewrite E. run. rewrite Hf, Hm. run.
    rewrite <- !app_assoc. reflexivity.
  - destruct (getMasternodeOutputs_neverListed c f tr H) as (m & E & Hm).
    cbn [plus collateralLoop].
    destruct (Z.leb_spec i 10) as [_|?]; [|lia].
    unfold mbind at 1, M_bind at 1. rewrite E.
    unfold mbind at 1, M_bind at 1, getFlags at 1. cbn [flags].
    rewrite Hf, Hm.
    unfold mbind at 1, M_bind at 1, call at 1. cbn [cfg flags trace].
    destruct (Z.eqb_spec i 10) as [?|_]; [lia|].
    rewrite (IH fuel (i + 1) c f _ Hf) by lia.
    rewrite <- !app_assoc. reflexivity.
Qed.

(** The first round makes ten queries. *)
Lemma collateralLoop_first_round (fuel : nat) (c : Config) (f : Flags) (tr : list Event) :
  neverListed W P txid → flagMasterNodeTxID f = txid →
  collateralLoop W P (10 + fuel) 1 {| cfg := c; flags := f; trace := tr |}
  = (r ← call W stillNoCollateral;
     if negb (ryes r) then raise "user terminated"
     else collateralLoop W P fuel (1 + 1))
      {| cfg := c; flags := f;
         trace := tr ++ concat (replicate 10 [outputsQuery; Sleep 10]) |}.
Proof. intros H Hf. by apply (collateralLoop_round 9 H fuel 1). Qed.

(** Every round after the operator has gone on makes nine. *)
Lemma collateralLoop_later_round (fuel : nat) (c : Config) (f : Flags) (tr : list Event) :
  neverListed W P txid → flagMasterNodeTxID f = txid →
  collateralLoop W P (9 + fuel) (1 + 1) {| cfg := c; flags := f; trace := tr |}
  = (r ← call W stillNoCollateral;
     if negb (ryes r) then raise "user terminated"
     else collateralLoop W P fuel (1 + 1))
      {| cfg := c; flags := f;
         trace := tr ++ concat (replicate 9 [outputsQuery; Sleep 10]) |}.
Proof. intros H Hf. by apply (collateralLoop_round 8 H fuel (1 + 1)). Qed.

End CollateralPolling.

(** C7. With the transaction id given, a wallet that never shows it and an
    operator who goes on at the first prompt and gives up at the second,
    [checkCollateral] queries the outputs ten times before the first prompt
    and nine times, not ten, between the first prompt and the second; each
    query is followed by a wait of ten seconds. *)
Theorem checkCollateral_second_round_nine_queries :
  let r := cmd.checkCollateral Scenarios.W_no_collateral Scenarios.P0 19 Scenarios.st0 in
  r.1 = Raise "user terminated"
  ∧ cmd.trace r.2
    = concat (replicate 10 [cmd.outputsQuery; cmd.Sleep 10]) ++ [cmd.stillNoCollateral]
      ++ concat (replicate 9 [cmd.outputsQuery; cmd.Sleep 10]) ++ [cmd.stillNoCollateral].
Proof. split; vm_compute; reflexivity. Qed.

(** ** The masternode parameters on re-entry *)

Section Preserves.
Import cmd.
Context (W : World) (I : Flags → Flags → Prop) `{!PreOrder I}.

Lemma preserves_nothing {A} (m : M A) :
  (∀ st, ∃ res, m st = (res, st)) → preserves I m.
Proof.
  intros H st res st' E. destruct (H st) as [res' E']. rewrite E' in E.
  by injection E as _ <-.
Qed.

Lemma preserves_ret {A} (a : A) : preserves I (mret a).
Proof. apply preserves_nothing. intros st. by eexists. Qed.

Lemma preserves_raise {A} (e : string) : preserves I (raise e : M A).
Proof. apply preserves_nothing. intros st. by eexists. Qed.

Lemma preserves_panic {A} : preserves I (panic : M A).
Proof. apply preserves_nothing. intros st. by eexists. Qed.

Lemma preserves_timeout {A} : preserves I (timeout : M A).
Proof. apply preserves_nothing. intros st. by eexists. Qed.

Lemma preserves_getFlags : preserves I getFlags.
Proof. apply preserves_nothing. intros st. by eexists. Qed.

Lemma preserves_getConfig : preserves I getConfig.
Proof. apply preserves_nothing. intros st. by eexists. Qed.

Lemma preserves_modifyConfig (g : Config → Config) : preserves I (modifyConfig g).
Proof. by intros st res st' [= <- <-]. Qed.

Lemma preserves_modifyFlags (g : Flags → Flags) :
  (∀ f, I f (g f)) → preserves I (modifyFlags g).
Proof. intros Hg st res st' [= <- <-]. apply Hg. Qed.

Lemma preserves_call (e : Event) : preserves I (call W e).
Proof. by intros st res st' [= <- <-]. Qed.

Lemma preserves_bind {A B} (m : M A) (k : A → M B) :
  preserves I m → (∀ a, preserves I (k a)) → preserves I (m ≫= k).
Proof.
  intros Hm Hk st res st' E. unfold mbind, M_bind in E.
  destruct (m st) as [[a|e| |] st1] eqn:Em; pose proof (Hm _ _ _ Em) as H1.
  - etrans; [exact H1|]. by eapply Hk.
  - by injection E as _ <-.
  - by injection E as _ <-.
  - by injection E as _ <-.
Qed.

Lemma preserves_callE (e : Event) : preserves I (callE W e).
Proof.
  unfold callE. apply preserves_bind; [apply preserves_call|].
  intros r. destruct (rerr r); [apply preserves_raise | apply preserves_ret].
Qed.

End Preserves.

Ltac preserves_with tac :=
  repeat lazymatch goal with
    | |- cmd.preserves _ (mbind _ _) => apply preserves_bind; [apply _ .. | | intros ?]
    | |- cmd.preserves _ (mret _) => apply preserves_ret; apply _
    | |- cmd.preserves _ (cmd.raise _) => apply preserves_raise; apply _
    | |- cmd.preserves _ cmd.panic => apply preserves_panic; apply _
    | |- cmd.preserves _ cmd.timeout => apply preserves_timeout; apply _
    | |- cmd.preserves _ cmd.getFlags => apply preserves_getFlags; apply _
    | |- cmd.preserves _ cmd.getConfig => apply preserves_getConfig; apply _
    | |- cmd.preserves _ (cmd.modifyFlags _) => apply preserves_modifyFlags; tac
    | |- cmd.preserves _ (cmd.modifyConfig _) => apply preserves_modifyConfig; apply _
    | |- cmd.preserves _ (cmd.call _ _) => apply preserves_call; apply _
    | |- cmd.preserves _ (cmd.callE _ _) => apply preserves_callE; apply _
    | |- cmd.preserves _ (let _ := _ in _) => cbv zeta
    | |- cmd.preserves _ (if ?b then _ else _) => destruct b
    | |- cmd.preserves _ (match ?x with _ => _ end) => destruct x
    end.

Section Reentry.
Import cmd.
Context (W : World) (P : Platform).

#[local] Instance sameParameters_preorder : PreOrder sameParameters.
Proof.
  split; [by intros f|]. intros f1 f2 f3. unfold sameParameters. congruence.
Qed.














End Reentry.

Section ReentryTheorem.
Import cmd.
Context (W : World) (P : Platform).




End ReentryTheorem.

Section ReentryMain.
Import cmd.
Context (W : World) (P : Platform).

(** A sequence ends where its first part ends, or goes on from the value
    and state the first part returns. *)
Lemma bind_inv {A B} (m : M A) (k : A → M B) (st st' : State) (res : outcome B) :
  (m ≫= k) st = (res, st') →
  (∃ a st1, m st = (Done a, st1) ∧ k a st1 = (res, st'))
  ∨ (∃ r1, m st = (r1, st') ∧ ∀ b, res ≠ Done b).
Proof.
  unfold mbind, M_bind. destruct (m st) as [[a|e| |] st1]; intros E.
  - left. eauto.
  - right. injection E as <- <-. eauto.
  - right. injection E as <- <-. eauto.
  - right. injection E as <- <-. eauto.
Qed.








End ReentryMain.





(** ** Further properties of the modelled code *)

(** *** Sequences that return, and what a single call leaves behind *)

Section DoneInversion.
Import cmd.
Context (W : World).

(** A sequence that returns normally: so did its first part. *)
Lemma bind_done {A B} (m : M A) (k : A → M B) (st st' : State) (b : B) :
  (m ≫= k) st = (Done b, st') →
  ∃ a st1, m st = (Done a, st1) ∧ k a st1 = (Done b, st').
Proof.
  unfold mbind, M_bind. destruct (m st) as [[a|e| |] st1]; intros E; try discriminate.
  eauto.
Qed.

Lemma wrap_done {A} (prefix : string) (m : M A) (st st' : State) (a : A) :
  wrap prefix m st = (Done a, st') → m st = (Done a, st').
Proof. unfold wrap. by destruct (m st) as [[?|?| |] ?]. Qed.

Lemma callE_inv (e : Event) (st st1 : State) (res : outcome Reply) :
  callE W e st = (res, st1) →
  st1 = {| cfg := cfg st; flags := flags st; trace := trace st ++ [e] |}
  ∧ ((res = Done (W (trace st) e) ∧ rerr (W (trace st) e) = None)
     ∨ ∃ err, res = Raise err).
Proof.
  destruct st as [c f tr]. run. destruct (rerr (W tr e)) as [err|] eqn:He; run;
    intros [= <- <-]; eauto.
Qed.

Lemma emits_ret_bind {A B} (Q : Event → Prop) (a : A) (k : A → M B) :
  emits Q (k a) → emits Q (mret a ≫= k).
Proof. intros H st res st' E. by apply (H st res st'). Qed.

End DoneInversion.

(** As [emits_with], but a value that is returned and then bound is kept. *)
Ltac emits_exactly tac :=
  repeat lazymatch goal with
    | |- cmd.emits _ (mbind _ (mret _)) => apply emits_ret_bind
    | |- cmd.emits _ (mbind _ _) => apply emits_bind; [|intros ?]
    | |- cmd.emits _ (mret _) => apply emits_ret
    | |- cmd.emits _ (cmd.raise _) => apply emits_raise
    | |- cmd.emits _ cmd.panic => apply emits_panic
    | |- cmd.emits _ cmd.timeout => apply emits_timeout
    | |- cmd.emits _ cmd.getFlags => apply emits_getFlags
    | |- cmd.emits _ cmd.getConfig => apply emits_getConfig
    | |- cmd.emits _ (cmd.modifyFlags _) => apply emits_modifyFlags
    | |- cmd.emits _ (cmd.modifyConfig _) => apply emits_modifyConfig
    | |- cmd.emits _ (cmd.call _ _) => apply emits_call; tac
    | |- cmd.emits _ (cmd.callE _ _) => apply emits_callE; tac
    | |- cmd.emits _ (cmd.wrap _ _) => apply emits_wrap
    | |- cmd.emits _ (cmd.logged _) => apply emits_logged
    | |- cmd.emits _ (let _ := _ in _) => cbv zeta
    | |- cmd.emits _ (if ?b then _ else _) => destruct b
    | |- cmd.emits _ (match ?x with _ => _ end) => destruct x
    end.

(** *** The calls of the loops *)

Section LoopEmits.
Import cmd.
Context (W : World) (P : Platform) (Q : Event → Prop).

Lemma getMasternodeOutputs_emits :
  Q outputsQuery → emits Q (getMasternodeOutputs W P).
Proof. intros H. unfold getMasternodeOutputs. emits_with ltac:(exact H). Qed.

Lemma collateralLoop_emits (fuel : nat) (i : Z) :
  Q outputsQuery → Q (Sleep 10) → Q stillNoCollateral →
  emits Q (collateralLoop W P fuel i).
Proof.
  intros Ho Hs Hp. revert i. induction fuel as [|fuel IH]; intros i; cbn [collateralLoop].
  - apply emits_timeout.
  - emits_with ltac:(assumption); [by apply getMasternodeOutputs_emits | apply IH..].
Qed.

Lemma checkRunningLoop_emits (fuel : nat) (cliPath : string) (want : bool) (failCnt : Z) :
  Q (getinfo cliPath) → Q (Sleep 5) →
  emits Q (checkRunningLoop W fuel cliPath want failCnt).
Proof.
  intros Hg Hs. revert failCnt.
  induction fuel as [|fuel IH]; intros failCnt; cbn [checkRunningLoop].
  - apply emits_timeout.
  - emits_with ltac:(assumption). apply IH.
Qed.

Lemma syncLoop_emits (fuel : nat) (r : ColdHotRunnerOpts) (retryCount : Z)
    (mnstatus : RPCPastelMSStatus) :
  Q (mnsyncStatus r) → Q (mnsyncReset r) → Q (Sleep 5) → Q (Sleep 10) →
  emits Q (syncLoop W P fuel r retryCount mnstatus).
Proof.
  intros H1 H2 H3 H4. revert retryCount mnstatus.
  induction fuel as [|fuel IH]; intros retryCount mnstatus; cbn [syncLoop].
  - apply emits_timeout.
  - emits_with ltac:(assumption); apply IH.
Qed.

End LoopEmits.

(** *** Relations every step respects *)

Section Steady.
Import cmd.
Context (W : World) (R : State → State → Prop) `{!PreOrder R}.
Hypothesis R_call : ∀ st e,
  R st {| cfg := cfg st; flags := flags st; trace := trace st ++ [e] |}.
Hypothesis R_flags : ∀ st g,
  R st {| cfg := cfg st; flags := g (flags st); trace := trace st |}.

Lemma steady_nothing {A} (m : M A) :
  (∀ st, ∃ res, m st = (res, st)) → steady R m.
Proof.
  intros H st res st' E. destruct (H st) as [res' E']. rewrite E' in E.
  by injection E as _ <-.
Qed.

Lemma steady_ret {A} (a : A) : steady R (mret a).
Proof. apply steady_nothing. intros st. by eexists. Qed.

Lemma steady_raise {A} (e : string) : steady R (raise e : M A).
Proof. apply steady_nothing. intros st. by eexists. Qed.

Lemma steady_timeout {A} : steady R (timeout : M A).
Proof. apply steady_nothing. intros st. by eexists. Qed.

Lemma steady_getFlags : steady R getFlags.
Proof. apply steady_nothing. intros st. by eexists. Qed.

Lemma steady_getConfig : steady R getConfig.
Proof. apply steady_nothing. intros st. by eexists. Qed.

Lemma steady_modifyFlags (g : Flags → Flags) : steady R (modifyFlags g).
Proof. intros st res st' [= <- <-]. apply R_flags. Qed.

Lemma steady_call (e : Event) : steady R (call W e).
Proof. intros st res st' [= <- <-]. apply R_call. Qed.

Lemma steady_bind {A B} (m : M A) (k : A → M B) :
  steady R m → (∀ a, steady R (k a)) → steady R (m ≫= k).
Proof.
  intros Hm Hk st res st' E. unfold mbind, M_bind in E.
  destruct (m st) as [[a|e| |] st1] eqn:Em; pose proof (Hm _ _ _ Em) as H1.
  - etrans; [exact H1|]. by eapply Hk.
  - by injection E as _ <-.
  - by injection E as _ <-.
  - by injection E as _ <-.
Qed.

Lemma steady_callE (e : Event) : steady R (callE W e).
Proof.
  unfold callE. apply steady_bind; [apply steady_call|].
  intros r. destruct (rerr r); [apply steady_raise | apply steady_ret].
Qed.

Lemma steady_wrap {A} (prefix : string) (m : M A) : steady R m → steady R (wrap prefix m).
Proof.
  intros Hm st res st' E. unfold wrap in E.
  destruct (m st) as [[a|e| |] st1] eqn:Em; injection E as _ <-; eauto.
Qed.

Lemma steady_logged (m : M unit) : steady R m → steady R (logged m).
Proof.
  intros Hm st res st' E. unfold logged in E.
  destruct (m st) as [[a|e| |] st1] eqn:Em; injection E as _ <-; eauto.
Qed.

End Steady.

(** *** Strings *)

Lemma length_append (x y : string) :
  String.length (x +:+ y) = (String.length x + String.length y)%nat.
Proof.
  induction x as [|c x IH]; [done|].
  change (String c x +:+ y) with (String c (x +:+ y)). cbn [String.length Nat.add].
  by rewrite IH.
Qed.

Lemma append_inj_r (a b s : string) : a +:+ s = b +:+ s → a = b.
Proof.
  intros E.
  assert (String.length a = String.length b) as Hl.
  { apply (f_equal String.length) in E. rewrite !length_append in E. lia. }
  revert b E Hl. induction a as [|c a IH]; intros [|d b] E Hl; try discriminate.
  - done.
  - change (String c (a +:+ s) = String d (b +:+ s)) in E.
    injection E as -> E. f_equal. apply IH; [done|]. by injection Hl.
Qed.

(** Decomposes a goal [steady R m] along the structure of [m], for a
    preorder [R] that every call and every assignment to a flag respects:
    [tac] proves these two facts. *)
Ltac steady_with tac :=
  repeat lazymatch goal with
    | |- cmd.steady _ (mbind _ _) => apply steady_bind; [apply _ | | intros ?]
    | |- cmd.steady _ (mret _) => apply steady_ret; apply _
    | |- cmd.steady _ (cmd.raise _) => apply steady_raise; apply _
    | |- cmd.steady _ cmd.timeout => apply steady_timeout; apply _
    | |- cmd.steady _ cmd.getFlags => apply steady_getFlags; apply _
    | |- cmd.steady _ cmd.getConfig => apply steady_getConfig; apply _
    | |- cmd.steady _ (cmd.modifyFlags _) => apply steady_modifyFlags; tac
    | |- cmd.steady _ (cmd.call _ _) => apply steady_call; tac
    | |- cmd.steady _ (cmd.callE _ _) => apply steady_callE; [apply _ | tac]
    | |- cmd.steady _ (cmd.wrap _ _) => apply steady_wrap
    | |- cmd.steady _ (cmd.logged _) => apply steady_logged
    | |- cmd.steady _ (let _ := _ in _) => cbv zeta
    | |- cmd.steady _ (if ?b then _ else _) => destruct b
    | |- cmd.steady _ (match ?x with _ => _ end) => destruct x
    end.

(** *** The trace only grows, the configuration stays *)

#[global] Instance extends_preorder : PreOrder cmd.extends.
Proof.
  split.
  - intros st. split; [done|]. exists []. by rewrite app_nil_r.
  - intros s1 s2 s3 [C1 (n1 & T1)] [C2 (n2 & T2)]. split; [congruence|].
    exists (n1 ++ n2). by rewrite T2, T1, app_assoc.
Qed.

Lemma extends_call (st : cmd.State) (e : cmd.Event) :
  cmd.extends st {| cmd.cfg := cmd.cfg st; cmd.flags := cmd.flags st;
                    cmd.trace := cmd.trace st ++ [e] |}.
Proof. split; [done|]. by eexists. Qed.

Lemma extends_flags (st : cmd.State) (g : cmd.Flags → cmd.Flags) :
  cmd.extends st {| cmd.cfg := cmd.cfg st; cmd.flags := g (cmd.flags st);
                    cmd.trace := cmd.trace st |}.
Proof. split; [done|]. exists []. by rewrite app_nil_r. Qed.

Ltac extends_steps := steady_with ltac:(first [apply extends_call | apply extends_flags]).

Section LoopExtends.
Import cmd.
Context (W : World) (P : Platform).

Lemma collateralLoop_extends (fuel : nat) (i : Z) :
  steady extends (collateralLoop W P fuel i).
Proof.
  revert i. induction fuel as [|fuel IH]; intros i;
    unfold collateralLoop; fold (collateralLoop W P); unfold getMasternodeOutputs;
    extends_steps; apply IH.
Qed.

Lemma checkRunningLoop_extends (fuel : nat) (cliPath : string) (want : bool) (failCnt : Z) :
  steady extends (checkRunningLoop W fuel cliPath want failCnt).
Proof.
  revert failCnt. induction fuel as [|fuel IH]; intros failCnt;
    unfold checkRunningLoop; fold (checkRunningLoop W); extends_steps; apply IH.
Qed.

Lemma syncLoop_extends (fuel : nat) (r : ColdHotRunnerOpts) (retryCount : Z)
    (mnstatus : RPCPastelMSStatus) :
  steady extends (syncLoop W P fuel r retryCount mnstatus).
Proof.
  revert retryCount mnstatus. induction fuel as [|fuel IH]; intros retryCount mnstatus;
    unfold syncLoop; fold (syncLoop W P); extends_steps; apply IH.
Qed.

(** Two sequences that go on alike from every value and state. *)
Lemma bind_ext {A B} (m : M A) (k k' : A → M B) (st : State) :
  (∀ a s, k a s = k' a s) → (m ≫= k) st = (m ≫= k') st.
Proof. intros H. unfold mbind, M_bind. destruct (m st) as [[a|?| |] s1]; auto. Qed.

End LoopExtends.

(** ** The service manager *)

Section ServiceManagerMore.
Import servicemanager.
Context (W : World) (K : Constants) (sm : LinuxSystemdManager.t).

(** X1. Two tools have the same unit name only when they are the same
    tool: [ServiceName] is injective. *)
Theorem ServiceName_injective (app1 app2 : ToolType) :
  LinuxSystemdManager.ServiceName K sm app1 = LinuxSystemdManager.ServiceName K sm app2 →
  app1 = app2.
Proof.
  unfold LinuxSystemdManager.ServiceName. intros E.
  apply append_inj_l in E. by apply append_inj_r in E.
Qed.

(** X2. For a registered tool [StartService] asks [systemctl status]
    first and leaves the files alone.  When the output shows
    ["(running)"] it reports "started" without any [systemctl start];
    otherwise it runs [systemctl start] once and reports "started" if that
    succeeds and the wrapped error if it fails. *)
Theorem StartService_registered (app : ToolType) (st : State) :
  (LinuxSystemdManager.IsRegistered W K sm app st).1 = true →
  let name := LinuxSystemdManager.ServiceName K sm app in
  let asked := journal st ++ [Systemctl status name] in
  let running := strings_Contains (systemctl W (journal st) status name).1 "(running)" in
  let '((started, err), st') := LinuxSystemdManager.StartService W K sm app st in
  files st' = files st
  ∧ (if running
     then journal st' = asked ∧ started = true ∧ err = None
     else journal st' = asked ++ [Systemctl start name]
          ∧ match (systemctl W asked start name).2 with
            | None => started = true ∧ err = None
            | Some e =>
                started = false
                ∧ err = Some ("unable to start service (" +:+ app +:+ "): " +:+ e)
            end).
Proof.
  intros Hreg. cbv zeta. unfold LinuxSystemdManager.StartService.
  destruct (LinuxSystemdManager.IsRegistered W K sm app st) as [reg e].
  cbn in Hreg. subst reg. cbn [negb].
  unfold LinuxSystemdManager.IsRunning, runSystemdCmd. cbn.
  destruct (systemctl W (journal st) status _) as [out e1]. cbn.
  destruct (strings_Contains out "(running)"); [done|].
  destruct (systemctl W _ start _) as [out2 [e2|]]; cbn; done.
Qed.

(** X3. [StopService] disables the unit first.  When that fails it
    returns the error (whose text says "enabling") and does nothing more;
    otherwise it asks for the status and runs [systemctl stop] only when
    the unit is running.  The files are never touched. *)
Theorem StopService_sequence (app : ToolType) (st : State) :
  let name := LinuxSystemdManager.ServiceName K sm app in
  let j1 := journal st ++ [Systemctl disable name] in
  let j2 := j1 ++ [Systemctl status name] in
  let '(err, st') := LinuxSystemdManager.StopService W K sm app st in
  files st' = files st
  ∧ match (systemctl W (journal st) disable name).2 with
    | Some e =>
        journal st' = j1
        ∧ err = Some ("unable to disable service (" +:+ app +:+ "): err enabling "
                      +:+ name +:+ " - err: " +:+ e)
    | None =>
        if strings_Contains (systemctl W j1 status name).1 "(running)"
        then journal st' = j2 ++ [Systemctl stop name]
             ∧ err = match (systemctl W j2 stop name).2 with
                     | Some e => Some ("unable to stop service (" +:+ app +:+ "): " +:+ e)
                     | None => None
                     end
        else journal st' = j2 ∧ err = None
    end.
Proof.
  cbv zeta. unfold LinuxSystemdManager.StopService, LinuxSystemdManager.DisableService,
    LinuxSystemdManager.IsRunning, runSystemdCmd. cbn.
  destruct (systemctl W (journal st) disable _) as [out [e|]]; cbn; [done|].
  destruct (systemctl W _ status _) as [out1 e1]. cbn.
  destruct (strings_Contains out1 "(running)"); cbn; [|done].
  destruct (systemctl W _ stop _) as [out2 [e2|]]; cbn; done.
Qed.

(** X4. The only errors [RegisterService] returns are the error of the
    lookup of the external address, for the daemon, and the wrapped error
    of [GetServiceConfig]; a missing executable, a failed write of the
    unit file and a failed [systemctl enable] are not reported. *)
Theorem RegisterService_reported_errors (app : ToolType) (params : ResgistrationParams)
    (st : State) (e : string) :
  (LinuxSystemdManager.RegisterService W K sm app params st).1 = Some e →
  (app = PastelD K ∧ (GetExternalIPAddress W).2 = Some e)
  ∨ ∃ script err,
      (GetServiceConfig W app script).2 = Some err
      ∧ e = "unable ot create service file for (" +:+ app +:+ "): " +:+ err.
Proof.
  unfold LinuxSystemdManager.RegisterService.
  destruct (LinuxSystemdManager.IsRegistered W K sm app st).1; [discriminate|].
  destruct (LinuxSystemdManager.launchSpec W K sm app params st) as [execCmd workDir|err] eqn:El.
  - destruct (GetServiceConfig W app _) as [file [err|]] eqn:Ec.
    + intros [= <-]. right. eexists _, err. by rewrite Ec.
    + destruct (ioutil_WriteFile _ _ _ _) as [? st1].
      destruct (LinuxSystemdManager.EnableService _ _ _ _ _) as [? st2]. discriminate.
  - cbn. intros ->. left. unfold LinuxSystemdManager.launchSpec in El.
    destruct (String.eqb app (DDImgService K)); [discriminate|].
    destruct (String.eqb_spec app (PastelD K)) as [Hp|_].
    + destruct (negb _); [discriminate|].
      destruct (GetExternalIPAddress W) as [ip [err|]]; [|discriminate].
      by injection El as ->.
    + repeat match type of El with
             | (if ?b then _ else _) = _ => destruct b; try discriminate
             end.
Qed.

(** X5. Whatever it returns, [RegisterService] changes no file but the
    unit file of the tool, and adds to the [systemctl] invocations at most
    one [enable] of that unit. *)
Theorem RegisterService_frame (app : ToolType) (params : ResgistrationParams) (st : State) :
  let st' := (LinuxSystemdManager.RegisterService W K sm app params st).2 in
  (∀ fp, fp ≠ LinuxSystemdManager.appServiceFilePath K sm app →
         files st' !! fp = files st !! fp)
  ∧ (journal st' = journal st
     ∨ journal st'
       = journal st ++ [Systemctl enable (LinuxSystemdManager.ServiceName K sm app)]).
Proof.
  cbv zeta. unfold LinuxSystemdManager.RegisterService.
  destruct (LinuxSystemdManager.IsRegistered W K sm app st).1; [by auto|].
  destruct (LinuxSystemdManager.launchSpec W K sm app params st) as [execCmd workDir|err];
    [|by auto].
  destruct (GetServiceConfig W app _) as [file [err|]]; [by auto|].
  unfold ioutil_WriteFile, LinuxSystemdManager.EnableService, runSystemdCmd.
  destruct (write_error W _); cbn; destruct (systemctl W _ enable _) as [? [?|]]; cbn;
    (split; [|by auto]); intros fp Hfp; try done; by rewrite lookup_insert_ne.
Qed.

End ServiceManagerMore.

Lemma ServiceName_injective_witness :
  servicemanager.LinuxSystemdManager.ServiceName Scenarios.K0 Scenarios.sm0 "pasteld"
  = "pastel-pasteld.service"
  ∧ "pasteld" = "pasteld".
Proof.
  split; [reflexivity|].
  apply (ServiceName_injective Scenarios.K0 Scenarios.sm0 "pasteld" "pasteld").
  reflexivity.
Defined.

Lemma StartService_registered_witness :
  let st' := (servicemanager.LinuxSystemdManager.StartService Scenarios.W_nostart
                Scenarios.K0 Scenarios.sm0 "pasteld" Scenarios.host_registered).2 in
  servicemanager.LinuxSystemdManager.StartService Scenarios.W_nostart Scenarios.K0
    Scenarios.sm0 "pasteld" Scenarios.host_registered
  = ((false, Some "unable to start service (pasteld): exit status 1"), st')
  ∧ servicemanager.files st' = servicemanager.files Scenarios.host_registered
  ∧ servicemanager.journal st'
    = [servicemanager.Systemctl servicemanager.status "pastel-pasteld.service";
       servicemanager.Systemctl servicemanager.start "pastel-pasteld.service"].
Proof.
  pose proof (StartService_registered Scenarios.W_nostart Scenarios.K0 Scenarios.sm0
                "pasteld" Scenarios.host_registered) as H.
  cbv zeta in *.
  destruct (servicemanager.LinuxSystemdManager.StartService _ _ _ _ _)
    as [[started err] st'] eqn:E.
  destruct H as (Hf & Hj & Hs & He); [vm_compute; reflexivity|].
  cbn [snd]. subst started err. repeat split; [exact Hf | exact Hj].
Defined.

Lemma RegisterService_reported_errors_witness :
  (servicemanager.LinuxSystemdManager.RegisterService Scenarios.W_noip Scenarios.K0
     Scenarios.sm0 "pasteld" Scenarios.params0 Scenarios.host0).1 = Some "no route to host"
  ∧ (("pasteld" = servicemanager.PastelD Scenarios.K0
      ∧ (servicemanager.GetExternalIPAddress Scenarios.W_noip).2 = Some "no route to host")
     ∨ ∃ script err,
         (servicemanager.GetServiceConfig Scenarios.W_noip "pasteld" script).2 = Some err
         ∧ "no route to host"
           = "unable ot create service file for (" +:+ "pasteld" +:+ "): " +:+ err).
Proof.
  split; [vm_compute; reflexivity|].
  apply (RegisterService_reported_errors Scenarios.W_noip Scenarios.K0 Scenarios.sm0
           "pasteld" Scenarios.params0 Scenarios.host0).
  vm_compute. reflexivity.
Defined.

(** ** The remote polling loops *)

Section RemotePollingBudget.
Import cmd.
Context (W : World) (cliPath : string).

Lemma failedPolls_S (n : nat) :
  failedPolls cliPath (S n) = [getinfo cliPath; Sleep 5] ++ failedPolls cliPath n.
Proof. reflexivity. Qed.

Lemma failedPolls_S_end (n : nat) :
  failedPolls cliPath (S n) = failedPolls cliPath n ++ [getinfo cliPath; Sleep 5].
Proof.
  unfold failedPolls. rewrite replicate_S_end, concat_app. cbn [concat]. by rewrite app_nil_r.
Qed.

(** [n] failed queries in a row take the loop through [n] turns. *)
Lemma checkRunningLoop_failed (n : nat) :
  ∀ (fuel : nat) (failCnt : Z) (c : Config) (f : Flags) (tr : list Event),
    failCnt + Z.of_nat n < 12 →
    (∀ j, (j < n)%nat →
          is_Some (rerr (W (tr ++ failedPolls cliPath j) (getinfo cliPath)))) →
    checkRunningLoop W (n + fuel) cliPath true failCnt
      {| cfg := c; flags := f; trace := tr |}
    = checkRunningLoop W fuel cliPath true (failCnt + Z.of_nat n)
        {| cfg := c; flags := f; trace := tr ++ failedPolls cliPath n |}.
Proof.
  induction n as [|n IH]; intros fuel failCnt c f tr Hlt Hfail.
  - cbn [Nat.add Z.of_nat]. unfold failedPolls. cbn [replicate concat].
    by rewrite Z.add_0_r, app_nil_r.
  - destruct (Hfail 0%nat ltac:(lia)) as [e He]. cbn in He. rewrite app_nil_r in He.
    unfold getinfo in He.
    cbn [Nat.add checkRunningLoop]. run. rewrite He. run.
    destruct (Z.eqb_spec (failCnt + 1) 12) as [E|_]; [lia|].
    rewrite IH; [|lia|].
    + replace (failCnt + 1 + Z.of_nat n) with (failCnt + Z.of_nat (S n)) by lia.
      by rewrite failedPolls_S, <- !app_assoc.
    + intros j Hj. specialize (Hfail (S j) ltac:(lia)).
      rewrite failedPolls_S in Hfail. by rewrite <- !app_assoc.
Qed.

(** Twelve failed queries: the check answers false. *)
Lemma CheckPastelDRunningRemote_twelve_failures (c : Config) (f : Flags) (tr : list Event) :
  (∀ n, (n < 12)%nat →
        is_Some (rerr (W (tr ++ failedPolls cliPath n) (getinfo cliPath)))) →
  CheckPastelDRunningRemote W cliPath true {| cfg := c; flags := f; trace := tr |}
  = (Done false, {| cfg := c; flags := f; trace := tr ++ failedPolls cliPath 12 |}).
Proof.
  intros Hfail. unfold CheckPastelDRunningRemote.
  change 12%nat with (11 + 1)%nat at 1.
  rewrite (checkRunningLoop_failed 11 1 0 c f tr); [|lia|intros; apply Hfail; lia].
  destruct (Hfail 11%nat ltac:(lia)) as [e He]. unfold getinfo in He.
  cbn [checkRunningLoop]. run. rewrite He. run.
  by rewrite (failedPolls_S_end 11), <- !app_assoc.
Qed.

End RemotePollingBudget.

(** X23. When the [getinfo] query fails twelve times in a row,
    [CheckPastelDRunningRemote], asked whether the daemon has started,
    answers false after exactly twelve queries, each followed by a wait of
    five seconds; it never runs out of turns.  The other revision does the
    same. *)
Theorem CheckPastelDRunningRemote_gives_up
    (W : cmd.World) (cliPath : string) (st : cmd.State) :
  (∀ n, (n < 12)%nat →
        is_Some (cmd.rerr (W (cmd.trace st ++ cmd.failedPolls cliPath n)
                             (cmd.getinfo cliPath)))) →
  cmd.CheckPastelDRunningRemote W cliPath true st
  = (Done false,
     {| cmd.cfg := cmd.cfg st; cmd.flags := cmd.flags st;
        cmd.trace := cmd.trace st ++ cmd.failedPolls cliPath 12 |})
  ∧ cmd.part_002.CheckPastelDRunningRemote W cliPath true st
    = cmd.CheckPastelDRunningRemote W cliPath true st.
Proof.
  intros Hfail. split; [|symmetry; apply checkRunningLoop_want_agree].
  destruct st as [c f tr]. by apply CheckPastelDRunningRemote_twelve_failures.
Qed.

(** X24. When the first [k] queries fail, for a [k] below twelve, and the
    next one succeeds, [CheckPastelDRunningRemote] answers true right after
    that query: [k] waits of five seconds have passed. *)
Theorem CheckPastelDRunningRemote_first_answer
    (W : cmd.World) (cliPath : string) (st : cmd.State) (k : nat) :
  (k < 12)%nat →
  (∀ n, (n < k)%nat →
        is_Some (cmd.rerr (W (cmd.trace st ++ cmd.failedPolls cliPath n)
                             (cmd.getinfo cliPath)))) →
  cmd.rerr (W (cmd.trace st ++ cmd.failedPolls cliPath k) (cmd.getinfo cliPath)) = None →
  cmd.CheckPastelDRunningRemote W cliPath true st
  = (Done true,
     {| cmd.cfg := cmd.cfg st; cmd.flags := cmd.flags st;
        cmd.trace := cmd.trace st ++ cmd.failedPolls cliPath k ++ [cmd.getinfo cliPath] |}).
Proof.
  intros Hk Hfail Hok.
  destruct st as [c f tr]. unfold cmd.CheckPastelDRunningRemote.
  cbn [cmd.cfg cmd.flags cmd.trace] in *.
  replace 12%nat with (k + S (11 - k))%nat by lia.
  rewrite (checkRunningLoop_failed W cliPath k); [|lia|done].
  unfold cmd.getinfo in Hok. cbn [cmd.checkRunningLoop]. run. rewrite Hok. run.
  by rewrite <- !app_assoc.
Qed.

(** X25. Asked whether the daemon has stopped, [CheckPastelDRunningRemote]
    sends one query and neither waits nor retries.  The revision of
    [start_coldhot.go] answers true exactly when the query succeeded (the
    daemon still answers); the other revision answers true in either case. *)
Theorem CheckPastelDRunningRemote_stop_wait_asks_once
    (W : cmd.World) (cliPath : string) (st : cmd.State) :
  let asked := {| cmd.cfg := cmd.cfg st; cmd.flags := cmd.flags st;
                  cmd.trace := cmd.trace st ++ [cmd.getinfo cliPath] |} in
  cmd.CheckPastelDRunningRemote W cliPath false st
  = (Done (bool_decide (cmd.rerr (W (cmd.trace st) (cmd.getinfo cliPath)) = None)), asked)
  ∧ cmd.part_002.CheckPastelDRunningRemote W cliPath false st = (Done true, asked).
Proof.
  destruct st as [c f tr]. unfold cmd.getinfo. cbn. run.
  destruct (cmd.rerr (W tr _)); run; done.
Qed.

(** X26. [checkMasterNodeSyncRemote] retries a failed status query once,
    five seconds later: a second failure in a row is returned.  After the
    retry the count stays at one, so any later failure of the query is
    returned at once. *)
Theorem checkMasterNodeSyncRemote_retries_once
    (W : cmd.World) (P : cmd.Platform) (r : cmd.ColdHotRunnerOpts) (fuel : nat)
    (st : cmd.State) (e : string) :
  let status := cmd.mnsyncStatus r in
  let failedAt (new : list cmd.Event) :=
    (Raise e : outcome unit,
     {| cmd.cfg := cmd.cfg st; cmd.flags := cmd.flags st;
        cmd.trace := cmd.trace st ++ new |}) in
  (∀ e1,
      cmd.rerr (W (cmd.trace st) status) = Some e1 →
      cmd.rerr (W (cmd.trace st ++ [status; cmd.Sleep 5]) status) = Some e →
      cmd.checkMasterNodeSyncRemote W P (2 + fuel) r 0 st
      = failedAt [status; cmd.Sleep 5; status])
  ∧ (∀ retryCount,
      retryCount ≠ 0 →
      cmd.rerr (W (cmd.trace st) status) = Some e →
      cmd.checkMasterNodeSyncRemote W P (1 + fuel) r retryCount st = failedAt [status]).
Proof.
  destruct st as [c f tr]. cbv zeta. unfold cmd.mnsyncStatus, cmd.checkMasterNodeSyncRemote.
  cbn [cmd.cfg cmd.flags cmd.trace]. split.
  - intros e1 H1 H2. cbn [Nat.add cmd.syncLoop]. run. rewrite H1. run.
    rewrite <- !app_assoc. cbn [app]. rewrite H2. run. by rewrite <- ?app_assoc.
  - intros retryCount Hr He. cbn [Nat.add cmd.syncLoop]. run. rewrite He. run.
    destruct (Z.eqb_spec retryCount 0); [done|]. reflexivity.
Qed.

(** X27. When the daemon launched on the remote host never answers,
    [remoteHotNodeCtrl] and [runRemoteNodeAsMasterNode] fail with "unable
    to start pasteld on remote" after the launch and twelve queries; no
    [mnsync] command and no [stop] is sent. *)
Theorem remote_launch_unanswered
    (W : cmd.World) (P : cmd.Platform) (fuel : nat) (r : cmd.ColdHotRunnerOpts)
    (st : cmd.State) :
  let cli := cmd.remotePastelCli r in
  let failed launch :=
    (Raise "unable to start pasteld on remote" : outcome unit,
     {| cmd.cfg := cmd.cfg st; cmd.flags := cmd.flags st;
        cmd.trace := cmd.trace st ++ [launch] ++ cmd.failedPolls cli 12 |}) in
  let unanswered launch :=
    ∀ n, (n < 12)%nat →
         is_Some (cmd.rerr (W (cmd.trace st ++ [launch] ++ cmd.failedPolls cli n)
                              (cmd.getinfo cli))) in
  let plain := cmd.GoSshRun (cmd.remotePasteldCmd r (cmd.flags st) (cmd.cfg st)) in
  let masternode := cmd.GoSshRun (cmd.remoteMasternodeCmd r (cmd.flags st) (cmd.cfg st)) in
  (unanswered plain → cmd.remoteHotNodeCtrl W P fuel r st = failed plain)
  ∧ (unanswered masternode → cmd.runRemoteNodeAsMasterNode W P fuel r st = failed masternode).
Proof.
  destruct st as [c f tr]. cbv zeta. cbn [cmd.cfg cmd.flags cmd.trace].
  split; intros Hfail.
  - unfold cmd.remoteHotNodeCtrl. unfold mbind at 1 2 3 4, cmd.M_bind at 1 2 3 4.
    cbn [cmd.getFlags cmd.getConfig cmd.call cmd.cfg cmd.flags cmd.trace].
    rewrite CheckPastelDRunningRemote_twelve_failures.
    + cbn [negb]. by rewrite <- app_assoc.
    + intros n Hn. rewrite <- app_assoc. by apply Hfail.
  - unfold cmd.runRemoteNodeAsMasterNode. unfold mbind at 1 2 3 4, cmd.M_bind at 1 2 3 4.
    cbn [cmd.getFlags cmd.getConfig cmd.call cmd.cfg cmd.flags cmd.trace].
    change (cmd.GoSshRun _) with (cmd.GoSshRun (cmd.remoteMasternodeCmd r f c)).
    rewrite CheckPastelDRunningRemote_twelve_failures.
    + cbn [negb]. by rewrite <- app_assoc.
    + intros n Hn. rewrite <- app_assoc. by apply Hfail.
Qed.

Lemma CheckPastelDRunningRemote_gives_up_witness :
  cmd.CheckPastelDRunningRemote Scenarios.W_unreachable Scenarios.cli0 true Scenarios.st0
  = (Done false,
     {| cmd.cfg := Scenarios.config0; cmd.flags := Scenarios.flags0;
        cmd.trace := cmd.failedPolls Scenarios.cli0 12 |})
  ∧ cmd.part_002.CheckPastelDRunningRemote Scenarios.W_unreachable Scenarios.cli0 true
      Scenarios.st0
    = cmd.CheckPastelDRunningRemote Scenarios.W_unreachable Scenarios.cli0 true Scenarios.st0.
Proof.
  apply (CheckPastelDRunningRemote_gives_up Scenarios.W_unreachable Scenarios.cli0
           Scenarios.st0).
  intros n _. by eexists.
Defined.

Lemma CheckPastelDRunningRemote_first_answer_witness :
  cmd.CheckPastelDRunningRemote Scenarios.W_slow Scenarios.cli0 true Scenarios.st0
  = (Done true,
     {| cmd.cfg := Scenarios.config0; cmd.flags := Scenarios.flags0;
        cmd.trace :=
          [cmd.getinfo Scenarios.cli0; cmd.Sleep 5; cmd.getinfo Scenarios.cli0; cmd.Sleep 5;
           cmd.getinfo Scenarios.cli0] |}).
Proof.
  apply (CheckPastelDRunningRemote_first_answer Scenarios.W_slow Scenarios.cli0
           Scenarios.st0 2).
  - lia.
  - intros [|[|n]] Hn; [by eexists | by eexists | lia].
  - vm_compute. reflexivity.
Defined.

Lemma checkMasterNodeSyncRemote_retries_once_witness :
  let status := cmd.mnsyncStatus Scenarios.r0 in
  cmd.checkMasterNodeSyncRemote Scenarios.W_flaky Scenarios.P0 2 Scenarios.r0 0 Scenarios.st0
  = (Raise "connection lost",
     {| cmd.cfg := Scenarios.config0; cmd.flags := Scenarios.flags0;
        cmd.trace := [status; cmd.Sleep 5; status] |})
  ∧ cmd.checkMasterNodeSyncRemote Scenarios.W_flaky Scenarios.P0 1 Scenarios.r0 1
      Scenarios.st0
    = (Raise "connection lost",
       {| cmd.cfg := Scenarios.config0; cmd.flags := Scenarios.flags0;
          cmd.trace := [status] |}).
Proof.
  pose proof (checkMasterNodeSyncRemote_retries_once Scenarios.W_flaky Scenarios.P0
                Scenarios.r0 0 Scenarios.st0 "connection lost") as [H1 H2].
  split.
  - apply (H1 "connection lost"); vm_compute; reflexivity.
  - apply (H2 1); [lia | vm_compute; reflexivity].
Defined.

Lemma remote_launch_unanswered_witness :
  let plain :=
    cmd.GoSshRun (cmd.remotePasteldCmd Scenarios.r0 Scenarios.flags0 Scenarios.config0) in
  cmd.remoteHotNodeCtrl Scenarios.W_unreachable Scenarios.P0 1 Scenarios.r0 Scenarios.st0
  = (Raise "unable to start pasteld on remote",
     {| cmd.cfg := Scenarios.config0; cmd.flags := Scenarios.flags0;
        cmd.trace := [plain] ++ cmd.failedPolls Scenarios.cli0 12 |}).
Proof.
  apply (remote_launch_unanswered Scenarios.W_unreachable Scenarios.P0 1 Scenarios.r0
           Scenarios.st0).
  intros n _. by eexists.
Defined.

(** ** Starting the node *)

Section Launch.
Import cmd.
Context (W : World) (P : Platform).

Lemma runPastelNode_launchArgs (txIndexOne reindex : bool) (extIP mnPrivKey : string) :
  emits (launchArgs txIndexOne reindex extIP mnPrivKey)
    (runPastelNode W P txIndexOne reindex extIP mnPrivKey).
Proof.
  unfold runPastelNode.
  destruct extIP as [|ch' ip]; unfold isEmpty; cbn [String.eqb];
    emits_exactly ltac:(try exact I).
  all: unfold launchArgs.
  all: destruct txIndexOne, reindex, mnPrivKey as [|ch key];
    cbn [isEmpty String.eqb negb app last].
  all: repeat split; try reflexivity.
  all: rewrite ?elem_of_cons, ?elem_of_nil; cbv [String.append]; intuition congruence.
Qed.

(** X9. Whenever [runPastelNode] launches the daemon, the arguments end
    in [--daemon], carry the external address it was given, and carry
    [--txindex=1], [--reindex] and the pair [--masternode],
    [--masternodeprivkey=<key>] exactly when the index, the reindexing and
    a non-empty key were asked for. *)
Theorem runPastelNode_launch_arguments (txIndexOne reindex : bool)
    (extIP mnPrivKey : string) :
  emits (launchArgs txIndexOne reindex extIP mnPrivKey)
    (runPastelNode W P txIndexOne reindex extIP mnPrivKey).
Proof. apply runPastelNode_launchArgs. Qed.

(** X10. On Linux, when the service manager reports the daemon as
    started, [runPastelNode] returns at once: it looks for no file and
    launches no process. *)
Theorem runPastelNode_service_started (txIndexOne reindex : bool)
    (extIP mnPrivKey : string) (st : State) :
  GetOS P = servicemanager.Linux →
  rerr (W (trace st) (StartService (PastelD P))) = None →
  ryes (W (trace st) (StartService (PastelD P))) = true →
  runPastelNode W P txIndexOne reindex extIP mnPrivKey st
  = (Done tt, {| cfg := cfg st; flags := flags st;
                 trace := trace st ++ [StartService (PastelD P)] |}).
Proof.
  intros Hos He Hy. destruct st as [c f tr]. cbn [trace cfg flags] in *.
  unfold runPastelNode. rewrite (bool_decide_eq_true_2 _ Hos). run. rewrite He. run.
  rewrite Hy. reflexivity.
Qed.

(** X11. Whenever [runStartMasternode] launches the daemon, it does so
    with [--txindex=1], with the external address the registry records
    for the masternode, and with [--masternode] and the private key of
    the registry; the last two are left out exactly when the registry
    holds no key. *)
Theorem runStartMasternode_launches_registered (st st' : State) (res : outcome unit)
    (path : string) (args : list string) (new : list Event) :
  let reg := W (trace st ++ [ParsePastelConf])
               (GetMasternodeConfData (flagMasterNodeName (flags st))) in
  let privKey := rout reg in
  let regIP := nth 0 (rmore reg) "" in
  runStartMasternode W P st = (res, st') →
  trace st' = trace st ++ new →
  GoRunCMD path args ∈ new →
  (regIP ≠ "" → "--externalip=" +:+ regIP ∈ args)
  ∧ "--txindex=1" ∈ args
  ∧ ("--masternode" ∈ args ↔ privKey ≠ "")
  ∧ ("--masternodeprivkey=" +:+ privKey ∈ args ↔ privKey ≠ "").
Proof.
  intros reg privKey regIP E Ht Hin.
  assert (∃ reindex new', trace st' = trace st ++ new'
            ∧ Forall (launchArgs true reindex regIP privKey) new')
    as (reindex & new' & Ht' & HQ).
  { clear Ht Hin. unfold runStartMasternode in E.
    apply bind_inv in E as [(r1 & st1 & E1 & E)|(r1 & E1 & _)]; cycle 1.
    { apply callE_inv in E1 as [-> _]. exists true, [ParsePastelConf].
      split; [done|]. by repeat constructor. }
    apply callE_inv in E1 as [-> _].
    apply bind_inv in E as [([] & st2 & [= <-] & E)|(r2 & [= _ <-] & _)]; cycle 1.
    { exists true, [ParsePastelConf]. split; [done|]. by repeat constructor. }
    apply bind_inv in E as [(f & st3 & [= <- <-] & E)|(r3 & [= _ <-] & _)]; cycle 1.
    { exists true, [ParsePastelConf]. split; [done|]. by repeat constructor. }
    cbn [flags] in E.
    apply bind_inv in E as [(r4 & st4 & E4 & E)|(r4 & E4 & _)]; cycle 1.
    { apply callE_inv in E4 as [-> _]. cbn [trace]. rewrite <- app_assoc.
      exists true, [ParsePastelConf; GetMasternodeConfData (flagMasterNodeName (flags st))].
      split; [done|]. by repeat constructor. }
    apply callE_inv in E4 as [-> [[[= ->] _]|[? [=]]]]. cbn [trace cfg flags] in E.
    set (tr2 := (trace st ++ [ParsePastelConf]) ++ _) in E.
    assert (tr2 = trace st
                  ++ [ParsePastelConf; GetMasternodeConfData (flagMasterNodeName (flags st))])
      as Htr2 by (unfold tr2; by rewrite <- app_assoc).
    set (c2 := with_Network _ _) in E.
    assert (∀ s5, trace s5 = tr2 ∨ trace s5 = tr2 ++ [GetExternalIPAddress] →
              cfg s5 = c2 →
              (f ← getFlags;
               if negb (regIP =? flagNodeExtIP f)%string
               then raise (mismatchError regIP (flagNodeExtIP f))
               else config ← getConfig;
                    runPastelNode W P true (ReIndex config) (flagNodeExtIP f) privKey) s5
              = (res, st') →
              ∃ new', trace st' = trace st ++ new'
                      ∧ Forall (launchArgs true (ReIndex (cfg st)) regIP privKey) new')
      as Hrest.
    { intros s5 Ht5 Hc5 E5.
      assert (∃ n5, trace s5 = trace st ++ n5
                    ∧ Forall (launchArgs true (ReIndex (cfg st)) regIP privKey) n5)
        as (n5 & Hn5 & HQ5).
      { destruct Ht5 as [->| ->]; rewrite Htr2, <- ?app_assoc; eexists; split;
          try reflexivity; by repeat constructor. }
      apply bind_inv in E5 as [(f & s6 & [= <- <-] & E5)|(r6 & [= _ <-] & _)];
        [|by eauto].
      destruct (String.eqb_spec regIP (flagNodeExtIP (flags s5))) as [Heq|Hne];
        cbn [negb] in E5; [|injection E5 as _ <-; by eauto].
      apply bind_inv in E5 as [(c & s7 & [= <- <-] & E5)|(r7 & [= _ <-] & _)];
        [|by eauto].
      rewrite <- Heq, Hc5 in E5.
      destruct (runPastelNode_launchArgs _ _ _ _ _ _ _ E5) as (n6 & Hn6 & HQ6).
      exists (n5 ++ n6). rewrite Hn6, Hn5, app_assoc. split; [done|].
      apply Forall_app. split; [done|]. exact HQ6. }
    exists (ReIndex (cfg st)).
    destruct (isEmpty (flagNodeExtIP (flags st))).
    - apply bind_inv in E as [([] & s5 & E5 & E)|(r5 & E5 & _)].
      + revert E5. run. destruct (rerr (W tr2 GetExternalIPAddress)); run; [discriminate|].
        intros [= <-]. apply Hrest in E; auto.
      + revert E5. run. destruct (rerr (W tr2 GetExternalIPAddress)); run;
          intros [= _ <-]; cbn [trace]; rewrite Htr2, <- ?app_assoc;
          (eexists; split; [reflexivity|by repeat constructor]).
    - apply bind_inv in E as [([] & s5 & [= <-] & E)|(r5 & [= _ <-] & _)].
      + apply Hrest in E; auto.
      + cbn [trace]. rewrite Htr2. eexists; split; [reflexivity|by repeat constructor]. }
  rewrite Ht in Ht'. apply app_inv_head in Ht'. subst new'.
  rewrite Forall_forall in HQ. specialize (HQ _ Hin). cbn in HQ.
  destruct HQ as (_ & He & [_ Ht1] & _ & Hm & Hk). auto.
Qed.

End Launch.

Lemma runPastelNode_service_started_witness :
  cmd.runPastelNode Scenarios.W_ready Scenarios.P0 true false "10.0.0.6" "" Scenarios.st0
  = (Done tt, {| cmd.cfg := Scenarios.config0; cmd.flags := Scenarios.flags0;
                 cmd.trace := [cmd.StartService "pasteld"] |}).
Proof.
  apply (runPastelNode_service_started Scenarios.W_ready Scenarios.P0 true false
           "10.0.0.6" "" Scenarios.st0); reflexivity.
Defined.

Lemma runStartMasternode_launches_registered_witness :
  let args := ["--datadir=/home/cold/.pastel"; "--externalip=10.0.0.6"; "--txindex=1";
               "--masternode";
               "--masternodeprivkey=91sY9h4AQ62bAhNk1aJ7uJeSnQzSFtz7QmW5imrKmiACm7QJLXe";
               "--daemon"] in
  cmd.GoRunCMD "/home/cold/pastel/pasteld" args
  ∈ cmd.trace (cmd.runStartMasternode Scenarios.W_match Scenarios.P0 Scenarios.st0).2
  ∧ "--externalip=10.0.0.6" ∈ args
  ∧ "--masternode" ∈ args.
Proof.
  cbv zeta.
  assert (cmd.GoRunCMD "/home/cold/pastel/pasteld"
            ["--datadir=/home/cold/.pastel"; "--externalip=10.0.0.6"; "--txindex=1";
             "--masternode";
             "--masternodeprivkey=91sY9h4AQ62bAhNk1aJ7uJeSnQzSFtz7QmW5imrKmiACm7QJLXe";
             "--daemon"]
          ∈ cmd.trace (cmd.runStartMasternode Scenarios.W_match Scenarios.P0 Scenarios.st0).2)
    as Hin by (apply list_elem_of_In; vm_compute; auto 10).
  split; [exact Hin|].
  destruct (runStartMasternode_launches_registered Scenarios.W_match Scenarios.P0
              Scenarios.st0
              (cmd.runStartMasternode Scenarios.W_match Scenarios.P0 Scenarios.st0).2
              (cmd.runStartMasternode Scenarios.W_match Scenarios.P0 Scenarios.st0).1
              _ _ _ (surjective_pairing _) eq_refl Hin) as (Hip & _ & Hm & _).
  split.
  - apply Hip. vm_compute. discriminate.
  - apply Hm. vm_compute. discriminate.
Defined.

(** ** The masternode parameters *)

Section Parameters.
Import cmd.
Context (W : World) (P : Platform).

(** X17. [checkPassphrase] returns success only with a passphrase set,
    and one it has asked for is neither ["n"] nor ["N"]; when it fails,
    the error is the one that names [--passphrase] and the flag is empty.
    No other flag changes. *)
Theorem checkPassphrase_result (st st' : State) (res : outcome unit) :
  checkPassphrase W st = (res, st') →
  let given := flagMasterNodePassPhrase (flags st') in
  (res = Done tt → given ≠ ""
     ∧ (flagMasterNodePassPhrase (flags st) = "" → given ≠ "n" ∧ given ≠ "N"))
  ∧ (res ≠ Done tt → res = Raise passphraseError ∧ given = "")
  ∧ with_PassPhrase "" (flags st') = with_PassPhrase "" (flags st).
Proof.
  destruct st as [c f tr]. unfold checkPassphrase. run.
  destruct (isEmpty (flagMasterNodePassPhrase f)) eqn:Ef; run.
  - set (r := W tr _). unfold strings_EqualFold_n, isEmpty.
    destruct (String.eqb_spec (rout r) "n") as [En|En]; run;
      [intros [= <- <-]; cbn; repeat split; congruence|].
    destruct (String.eqb_spec (rout r) "N") as [EN|EN]; run;
      [intros [= <- <-]; cbn; repeat split; congruence|].
    destruct (String.eqb_spec (rout r) "") as [E0|E0]; run;
      intros [= <- <-]; cbn; repeat split; congruence.
  - intros [= <- <-]. cbn. apply String.eqb_neq in Ef. repeat split; congruence.
Qed.

Lemma checkPassphrase_done (st st' : State) :
  checkPassphrase W st = (Done tt, st') →
  flagMasterNodePassPhrase (flags st') ≠ ""
  ∧ flagMasterNodeTxID (flags st') = flagMasterNodeTxID (flags st)
  ∧ flagMasterNodeInd (flags st') = flagMasterNodeInd (flags st).
Proof.
  destruct st as [c f tr]. unfold checkPassphrase. run.
  destruct (isEmpty (flagMasterNodePassPhrase f)) eqn:Ef; run.
  - set (r := W tr _). unfold strings_EqualFold_n, isEmpty.
    destruct (String.eqb_spec (rout r) "n"); run; [discriminate|].
    destruct (String.eqb_spec (rout r) "N"); run; [discriminate|].
    destruct (String.eqb_spec (rout r) ""); run; [discriminate|].
    by intros [= <-].
  - intros [= <-]. cbn. by apply String.eqb_neq in Ef.
Qed.

Lemma checkCollateral_done (fuel : nat) (st st' : State) :
  checkCollateral W P fuel st = (Done tt, st') →
  flagMasterNodeTxID (flags st') ≠ "" ∧ flagMasterNodeInd (flags st') ≠ "".
Proof.
  unfold checkCollateral. intros E.
  do 4 (apply bind_done in E as (? & ? & _ & E)).
  apply bind_done in E as (? & st1 & _ & E).
  apply bind_done in E as (f & ? & [= <- <-] & E).
  unfold collateralMissing, isEmpty in E.
  destruct (String.eqb_spec (flagMasterNodeTxID (flags st1)) ""); [discriminate|].
  destruct (String.eqb_spec (flagMasterNodeInd (flags st1)) ""); [discriminate|].
  by injection E as <-.
Qed.

Lemma getMasternodeOutputs_inv (st st' : State) (res : outcome (gmap string string)) :
  getMasternodeOutputs W P st = (res, st') →
  st' = {| cfg := cfg st; flags := flags st; trace := trace st ++ [outputsQuery] |}
  ∧ ∀ m, res = Done m →
         m = ∅ ∨ unmarshal_outputs P (rout (W (trace st) outputsQuery)) = inl m.
Proof.
  destruct st as [c f tr]. unfold getMasternodeOutputs, outputsQuery. run.
  destruct (rerr (W tr _)); run; [intros [= <- <-]; split; [done|]; discriminate|].
  destruct (isEmpty _); run; [intros [= <- <-]; split; [done|]; intros ? [= <-]; auto|].
  destruct (unmarshal_outputs P _) eqn:Hu; run; intros [= <- <-]; split; try done.
  intros ? [= <-]. auto.
Qed.

(** X18. When the search of the wallet sets the collateral, it sets the
    transaction id to one of the outputs the wallet has listed and the
    index to the index listed with it; otherwise it leaves the flags as
    they are. *)
Theorem collateralSearch_picks_listed_output (st st' : State) :
  collateralSearch W P st = (Done tt, st') →
  flags st' = flags st
  ∨ ∃ (m : gmap string string) (txid ind : string),
      unmarshal_outputs P (rout (W (trace st ++ [searchCollateral]) outputsQuery)) = inl m
      ∧ m !! txid = Some ind
      ∧ flags st' = with_Ind ind (with_TxID txid (flags st)).
Proof.
  unfold collateralSearch. intros E.
  apply bind_done in E as (r & st1 & [= <- <-] & E).
  destruct (ryes _); [|injection E as <-; by left].
  apply bind_done in E as (m & st2 & Em & E).
  apply getMasternodeOutputs_inv in Em as [-> Hm]. cbn [flags trace cfg] in *.
  destruct (bool_decide_reflect (0 < size m)%nat) as [Hsz|_];
    [|injection E as <-; by left].
  destruct (Hm m eq_refl) as [->|Hu]; [rewrite map_size_empty in Hsz; lia|].
  apply bind_done in E as (a & st3 & [= <- <-] & E).
  destruct (strconv_Atoi _) as [dNum|]; [|discriminate].
  destruct (Z.ltb_spec dNum 0) as [|Hlo]; [discriminate|].
  destruct (Z.leb_spec (Z.of_nat (length (map_to_list m).*1)) dNum) as [|Hhi];
    [discriminate|]. cbn [orb] in E.
  set (txid := nth (Z.to_nat dNum) (map_to_list m).*1 "") in E.
  assert (is_Some (m !! txid)) as [ind Hind].
  { assert (txid ∈ (map_to_list m).*1) as Hin
      by (apply list_elem_of_In, nth_In; lia).
    apply list_elem_of_fmap in Hin as ([k v] & -> & Hin).
    apply elem_of_map_to_list in Hin. by exists v. }
  right. exists m, txid, ind. split; [exact Hu|]. split; [exact Hind|].
  revert E. run. intros [= <-]. cbn. by rewrite Hind.
Qed.

(** The polling loop returns normally only on a query that lists the
    transaction. *)
Lemma collateralLoop_done (fuel : nat) (i : Z) (st st' : State) :
  i <= 10 →
  collateralLoop W P fuel i st = (Done tt, st') →
  ∃ pre m txind,
    trace st' = trace st ++ pre ++ [outputsQuery]
    ∧ unmarshal_outputs P (rout (W (trace st ++ pre) outputsQuery)) = inl m
    ∧ m !! flagMasterNodeTxID (flags st) = Some txind
    ∧ flags st' = with_Ind txind (flags st).
Proof.
  revert i st. induction fuel as [|fuel IH]; intros i st Hi E; [discriminate|].
  cbn [collateralLoop] in E. destruct (Z.leb_spec i 10) as [_|]; [|lia].
  apply bind_done in E as (m & s1 & E1 & E).
  apply getMasternodeOutputs_inv in E1 as [-> Hm].
  apply bind_done in E as (f & ? & [= <- <-] & E). cbn [flags] in E.
  destruct (m !! flagMasterNodeTxID (flags st)) as [txind|] eqn:Hl.
  - injection E as <-. exists [], m, txind. cbn [trace flags]. rewrite app_nil_r.
    repeat split; try done. destruct (Hm m eq_refl) as [->|Hu]; [|done].
    by rewrite lookup_empty in Hl.
  - apply bind_done in E as (? & s2 & [= <- <-] & E).
    assert (∃ mid i', i' <= 10
              ∧ collateralLoop W P fuel i'
                  {| cfg := cfg st; flags := flags st;
                     trace := trace st ++ [outputsQuery; Sleep 10] ++ mid |}
                = (Done tt, st')) as (mid & i' & Hi' & E').
    { destruct (Z.eqb_spec i 10).
      - apply bind_done in E as (r & s3 & [= <- <-] & E).
        destruct (ryes _); [|discriminate]. cbn [negb] in E.
        exists [stillNoCollateral], (1 + 1). split; [lia|].
        cbn [trace cfg flags] in E. by rewrite <- !app_assoc in E.
      - exists [], (i + 1). split; [lia|]. cbn [trace cfg flags] in E.
        by rewrite <- !app_assoc in E. }
    apply IH in E' as (pre & m' & txind & Ht & Hu & Hl' & Hf); [|done].
    cbn [trace flags] in *.
    exists ([outputsQuery; Sleep 10] ++ mid ++ pre), m', txind.
    rewrite Ht, <- !app_assoc. repeat split; try done.
    by rewrite <- !app_assoc in Hu.
Qed.

(** X19. [checkCollateral] returns success only when the last thing it
    did was a query of the outputs whose answer lists the transaction id
    of the flags with the index of the flags; both are then non-empty. *)
Theorem checkCollateral_success_means_listed (fuel : nat) (st st' : State) :
  checkCollateral W P fuel st = (Done tt, st') →
  flagMasterNodeTxID (flags st') ≠ "" ∧ flagMasterNodeInd (flags st') ≠ ""
  ∧ ∃ pre m,
      trace st' = trace st ++ pre ++ [outputsQuery]
      ∧ unmarshal_outputs P (rout (W (trace st ++ pre) outputsQuery)) = inl m
      ∧ m !! flagMasterNodeTxID (flags st') = Some (flagMasterNodeInd (flags st')).
Proof.
  intros E. pose proof (checkCollateral_done _ _ _ E) as [Ht Hi].
  split; [done|]. split; [done|]. unfold checkCollateral in E.
  apply bind_done in E as (f & ? & [= <- <-] & E).
  apply bind_done in E as ([] & s1 & E1 & E).
  apply bind_done in E as (f1 & ? & [= <- <-] & E).
  apply bind_done in E as ([] & s2 & E2 & E).
  apply bind_done in E as ([] & s3 & E3 & E).
  apply bind_done in E as (f3 & ? & [= <- <-] & E).
  assert (st' = s3) as ->
    by (revert E; destruct (collateralMissing (flags s3)); [discriminate|by intros [= ->]]).
  assert (extends st s1) as [_ (n1 & T1)].
  { match type of E1 with ?m _ = _ => assert (steady extends m) as H1 end.
    { unfold collateralSearch, getMasternodeOutputs. extends_steps. }
    by apply H1 in E1. }
  assert (extends s1 s2) as [_ (n2 & T2)].
  { match type of E2 with ?m _ = _ => assert (steady extends m) as H2 end.
    { unfold collateralFund. extends_steps. }
    by apply H2 in E2. }
  apply collateralLoop_done in E3 as (pre & m & txind & T3 & Hu & Hl & Hf); [|lia].
  exists (n1 ++ n2 ++ pre), m. rewrite T3, T2, T1, Hf, <- !app_assoc.
  rewrite T2, T1, <- !app_assoc in Hu. by repeat split.
Qed.

#[local] Instance sameCollateral_preorder : PreOrder sameCollateral.
Proof.
  split; [by intros f|]. intros f1 f2 f3 (?&?&?) (?&?&?). unfold sameCollateral.
  repeat split; congruence.
Qed.

Lemma checkMasternodePrivKey_sameCollateral (client : option Client) :
  preserves sameCollateral (checkMasternodePrivKey W P client).
Proof. unfold checkMasternodePrivKey. preserves_with ltac:(by intros). Qed.

Lemma checkPastelID_sameCollateral (client : option Client) :
  preserves sameCollateral (checkPastelID W P client).
Proof. unfold checkPastelID. preserves_with ltac:(by intros). Qed.

(** X20. When the masternode is to be created or added and
    [prepareMasterNodeParameters] returns success, the collateral
    transaction id, its index and the passphrase are all set: the later
    steps, which make the key and the identity and stop the daemon, leave
    them as the checks left them. *)
Theorem prepareMasterNodeParameters_success (fuel : nat) (startPasteld : bool)
    (st st' : State) :
  flagMasterNodeConfNew (flags st) || flagMasterNodeConfAdd (flags st) = true →
  prepareMasterNodeParameters W P fuel startPasteld st = (Done tt, st') →
  flagMasterNodeTxID (flags st') ≠ "" ∧ flagMasterNodeInd (flags st') ≠ ""
  ∧ flagMasterNodePassPhrase (flags st') ≠ "".
Proof.
  intros Hnew E. unfold prepareMasterNodeParameters in E.
  apply bind_done in E as (f & ? & [= <- <-] & E).
  destruct (flagMasterNodeConfNew (flags st)), (flagMasterNodeConfAdd (flags st));
    try discriminate Hnew; cbn [negb andb] in E.
  all: apply bind_done in E as (c & ? & [= <- <-] & E).
  all: apply bind_done in E as (? & s1 & _ & E).
  all: apply bind_done in E as (? & s2 & _ & E).
  all: apply bind_done in E as ([] & s3 & E3 & E).
  all: apply bind_done in E as ([] & s4 & E4 & E).
  all: apply bind_done in E as ([] & s5 & E5 & E).
  all: apply bind_done in E as ([] & s6 & E6 & E).
  all: apply checkCollateral_done in E3 as (Ht & Hi).
  all: apply checkPassphrase_done in E4 as (Hp & Ht4 & Hi4).
  all: apply checkMasternodePrivKey_sameCollateral in E5 as (Ht5 & Hi5 & Hp5).
  all: apply checkPastelID_sameCollateral in E6 as (Ht6 & Hi6 & Hp6).
  all: assert (flags st' = flags s6) as ->
    by (destruct startPasteld; [apply bind_done in E as (? & ? & E7 & [= <-]);
          symmetry; exact (preserves_callE W eq _ _ _ _ E7) | by injection E as <-]).
  all: repeat split; congruence.
Qed.

(** X21. Whatever its outcome, [prepareMasterNodeParameters] stays on the
    local host: nothing it does goes over a remote session. *)
Theorem prepareMasterNodeParameters_local (fuel : nat) (startPasteld : bool) :
  emits local (prepareMasterNodeParameters W P fuel startPasteld).
Proof.
  unfold prepareMasterNodeParameters, runPastelNode, checkMasternodePrivKey, checkPastelID.
  emits_with ltac:(exact eq_refl);
    apply (emits_weaken quiet); try (by intros ? []);
    first [apply checkCollateral_quiet | apply checkPassphrase_quiet].
Qed.

(** X28. In cold/hot mode the key and the identity are made on the hot
    node: whatever its outcome, [handleCreateUpdateStartColdHot] never
    makes the local node generate a masternode key or a PastelID. *)
Theorem handleCreateUpdateStartColdHot_generates_remotely (fuel : nat)
    (r : ColdHotRunnerOpts) :
  emits (λ e, generatesLocally e = false) (handleCreateUpdateStartColdHot W P fuel r).
Proof.
  unfold handleCreateUpdateStartColdHot, CheckPastelDRunningRemote,
    checkMasternodePrivKey, checkPastelID, checkCollateral, collateralSearch,
    collateralFund, checkPassphrase.
  emits_with ltac:(exact eq_refl);
    first [ by apply getMasternodeOutputs_emits
          | by apply collateralLoop_emits
          | by apply checkRunningLoop_emits ].
Qed.

End Parameters.

Lemma checkPassphrase_result_witness :
  cmd.checkPassphrase Scenarios.W_decline Scenarios.st_new
  = (Raise cmd.passphraseError,
     {| cmd.cfg := Scenarios.config0; cmd.flags := Scenarios.flags_new;
        cmd.trace :=
          [cmd.AskUserToContinue
             "No --passphrase provided. Please type new passphrase and press Enter. Or N to exit"]
     |})
  ∧ ((Raise cmd.passphraseError : outcome unit) = Raise cmd.passphraseError
     ∧ cmd.flagMasterNodePassPhrase Scenarios.flags_new = "").
Proof.
  assert (cmd.checkPassphrase Scenarios.W_decline Scenarios.st_new
          = (Raise cmd.passphraseError,
             {| cmd.cfg := Scenarios.config0; cmd.flags := Scenarios.flags_new;
                cmd.trace :=
                  [cmd.AskUserToContinue
                     "No --passphrase provided. Please type new passphrase and press Enter. Or N to exit"]
             |})) as E by (vm_compute; reflexivity).
  split; [exact E|].
  apply (checkPassphrase_result Scenarios.W_decline _ _ _ E). discriminate.
Defined.

Lemma collateralSearch_picks_listed_output_witness :
  cmd.collateralSearch Scenarios.W_pick Scenarios.P0 Scenarios.st_new
  = (Done tt,
     {| cmd.cfg := Scenarios.config0;
        cmd.flags := cmd.with_Ind "0" (cmd.with_TxID "abcd1234" Scenarios.flags_new);
        cmd.trace := [cmd.searchCollateral; cmd.outputsQuery;
                      cmd.AskUserToContinue "Enter number to use, or N to exit"] |})
  ∧ (cmd.with_Ind "0" (cmd.with_TxID "abcd1234" Scenarios.flags_new) = Scenarios.flags_new
     ∨ ∃ (m : gmap string string) (txid ind : string),
         cmd.unmarshal_outputs Scenarios.P0
           (cmd.rout (Scenarios.W_pick [cmd.searchCollateral] cmd.outputsQuery)) = inl m
         ∧ m !! txid = Some ind
         ∧ cmd.with_Ind "0" (cmd.with_TxID "abcd1234" Scenarios.flags_new)
           = cmd.with_Ind ind (cmd.with_TxID txid Scenarios.flags_new)).
Proof.
  assert (cmd.collateralSearch Scenarios.W_pick Scenarios.P0 Scenarios.st_new
          = (Done tt,
             {| cmd.cfg := Scenarios.config0;
                cmd.flags := cmd.with_Ind "0" (cmd.with_TxID "abcd1234" Scenarios.flags_new);
                cmd.trace := [cmd.searchCollateral; cmd.outputsQuery;
                              cmd.AskUserToContinue "Enter number to use, or N to exit"] |}))
    as E by (vm_compute; reflexivity).
  split; [exact E|].
  exact (collateralSearch_picks_listed_output Scenarios.W_pick Scenarios.P0 _ _ E).
Defined.

Lemma checkCollateral_success_means_listed_witness :
  cmd.checkCollateral Scenarios.W_ready Scenarios.P0 1 Scenarios.st0
  = (Done tt, {| cmd.cfg := Scenarios.config0; cmd.flags := Scenarios.flags0;
                 cmd.trace := [cmd.outputsQuery] |})
  ∧ ∃ pre m,
      [cmd.outputsQuery] = [] ++ pre ++ [cmd.outputsQuery]
      ∧ cmd.unmarshal_outputs Scenarios.P0
          (cmd.rout (Scenarios.W_ready ([] ++ pre) cmd.outputsQuery)) = inl m
      ∧ m !! "abcd1234" = Some "0".
Proof.
  assert (cmd.checkCollateral Scenarios.W_ready Scenarios.P0 1 Scenarios.st0
          = (Done tt, {| cmd.cfg := Scenarios.config0; cmd.flags := Scenarios.flags0;
                         cmd.trace := [cmd.outputsQuery] |}))
    as E by (vm_compute; reflexivity).
  split; [exact E|].
  exact (proj2 (proj2 (checkCollateral_success_means_listed Scenarios.W_ready Scenarios.P0
                         1 _ _ E))).
Defined.

Lemma prepareMasterNodeParameters_success_witness :
  let st' := (cmd.prepareMasterNodeParameters Scenarios.W_ready Scenarios.P0 1 false
                Scenarios.st0).2 in
  cmd.flagMasterNodeTxID (cmd.flags st') ≠ "" ∧ cmd.flagMasterNodeInd (cmd.flags st') ≠ ""
  ∧ cmd.flagMasterNodePassPhrase (cmd.flags st') ≠ "".
Proof.
  apply (prepareMasterNodeParameters_success Scenarios.W_ready Scenarios.P0 1 false
           Scenarios.st0).
  - reflexivity.
  - vm_compute. reflexivity.
Defined.

(** ** The cold/hot run *)

Section RunOrder.
Import cmd.
Context (W : World) (P : Platform).

Lemma handleCreateUpdateStartColdHot_extends (fuel : nat) (r : ColdHotRunnerOpts) :
  steady extends (handleCreateUpdateStartColdHot W P fuel r).
Proof.
  unfold handleCreateUpdateStartColdHot, checkCollateral, collateralSearch, collateralFund,
    getMasternodeOutputs, checkPassphrase, CheckPastelDRunningRemote,
    checkMasternodePrivKey, checkPastelID.
  extends_steps; first [apply collateralLoop_extends | apply checkRunningLoop_extends].
Qed.

Lemma remoteHotNodeCtrl_extends (fuel : nat) (r : ColdHotRunnerOpts) :
  steady extends (remoteHotNodeCtrl W P fuel r).
Proof.
  unfold remoteHotNodeCtrl, CheckPastelDRunningRemote, checkMasterNodeSyncRemote.
  extends_steps; first [apply syncLoop_extends | apply checkRunningLoop_extends].
Qed.

(** What [remoteHotNodeCtrl] does, it does on the remote host. *)
Lemma remoteHotNodeCtrl_emits (fuel : nat) (r : ColdHotRunnerOpts) :
  emits (λ e, startsLocalDaemon e = false) (remoteHotNodeCtrl W P fuel r).
Proof.
  unfold remoteHotNodeCtrl, CheckPastelDRunningRemote, checkMasterNodeSyncRemote.
  emits_with ltac:(exact eq_refl);
    first [by apply syncLoop_emits | by apply checkRunningLoop_emits].
Qed.

(** The first thing [runRemoteNodeAsMasterNode] does is to launch the
    daemon in masternode mode. *)
Lemma runRemoteNodeAsMasterNode_first (fuel : nat) (r : ColdHotRunnerOpts)
    (st st' : State) (res : outcome unit) :
  runRemoteNodeAsMasterNode W P fuel r st = (res, st') →
  cfg st' = cfg st
  ∧ ∃ new, trace st'
           = trace st ++ GoSshRun (remoteMasternodeCmd r (flags st) (cfg st)) :: new.
Proof.
  intros E.
  assert (steady extends
            (running ← CheckPastelDRunningRemote W (remotePastelCli r) true;
             if negb running then raise "unable to start pasteld on remote"
             else checkMasterNodeSyncRemote W P fuel r 0)) as H.
  { unfold CheckPastelDRunningRemote, checkMasterNodeSyncRemote.
    extends_steps; first [apply syncLoop_extends | apply checkRunningLoop_extends]. }
  destruct st as [c f tr].
  change (runRemoteNodeAsMasterNode W P fuel r {| cfg := c; flags := f; trace := tr |})
    with ((running ← CheckPastelDRunningRemote W (remotePastelCli r) true;
           if negb running then raise "unable to start pasteld on remote"
           else checkMasterNodeSyncRemote W P fuel r 0)
            {| cfg := c; flags := f;
               trace := tr ++ [GoSshRun (remoteMasternodeCmd r f c)] |}) in E.
  apply H in E as [Hc (new & Ht)]. cbn [cfg trace] in *.
  split; [done|]. exists new. by rewrite Ht, <- app_assoc.
Qed.

Lemma activation_extends (r : ColdHotRunnerOpts) (f : Flags) :
  steady extends
    (if flagMasterNodeIsActivate f then
       _ ← callE W CheckMasterNodeSync;
       _ ← wrap "masternode activation failed: "
             (runStartAliasMasternode W P (flagMasterNodeName f));
       if flagMasterNodeIsCreate f then logged (registerTicketPastelID W r)
       else mret tt
     else mret tt).
Proof. unfold runStartAliasMasternode, registerTicketPastelID. extends_steps. Qed.

Lemma startRemoteServices_done (r : ColdHotRunnerOpts) (st st' : State) :
  startRemoteServices W P r st = (Done tt, st') →
  cfg st' = cfg st ∧ trace st' = trace st ++ remoteServiceCalls P r (cfg st).
Proof.
  destruct st as [c f tr]. unfold startRemoteServices, runServiceRemote, remoteServiceCalls,
    serviceCmd. run.
  repeat match goal with
    | |- context [rerr (W ?h ?e)] => destruct (rerr (W h e)); run
    end;
    intros [= <-]; cbn [trace cfg]. by rewrite <- !app_assoc.
Qed.

(** X29. When [Run] returns success, the configuration is as it was and
    the trace has this shape: the local daemon was stopped; then, with
    nothing in between that starts it again, the daemon of the hot node
    was launched in masternode mode; and the run ended with a second stop
    of the local daemon followed by the five calls that start the services
    of the hot node. *)
Theorem Run_success_order (fuel : nat) (r : ColdHotRunnerOpts) (st st' : State) :
  Run W P fuel r st = (Done tt, st') →
  cfg st' = cfg st
  ∧ ∃ (pre mid post : list Event) (f : Flags),
      trace st'
      = trace st ++ pre ++ [StopPastelDAndWait] ++ mid
        ++ [GoSshRun (remoteMasternodeCmd r f (cfg st))] ++ post
        ++ [StopPastelDAndWait] ++ remoteServiceCalls P r (cfg st)
      ∧ Forall (λ e, startsLocalDaemon e = false) mid.
Proof.
  intros E. unfold Run in E.
  apply bind_done in E as (? & s1 & E1 & E). apply callE_inv in E1 as [-> _].
  apply bind_done in E as (f1 & ? & [= <- <-] & E).
  apply bind_done in E as ([] & s3 & E3 & E).
  match type of E3 with
  | ?m _ = _ => assert (steady extends m) as H3
  end.
  { extends_steps. apply handleCreateUpdateStartColdHot_extends. }
  apply H3 in E3 as [C3 (n3 & T3)]. clear H3. cbn [cfg trace flags] in *.
  apply bind_done in E as (? & s4 & E4 & E). apply callE_inv in E4 as [-> _].
  apply bind_done in E as ([] & s5 & E5 & E).
  pose proof (remoteHotNodeCtrl_extends _ _ _ _ _ E5) as [C5 _].
  apply remoteHotNodeCtrl_emits in E5 as (n5 & T5 & Q5). cbn [cfg trace flags] in *.
  apply bind_done in E as (f5 & ? & [= <- <-] & E).
  apply bind_done in E as (c6 & s6 & E6 & E). apply callE_inv in E6 as [-> _].
  apply bind_done in E as ([] & s7 & [= <-] & E).
  apply bind_done in E as ([] & s8 & E8 & E).
  apply wrap_done, runRemoteNodeAsMasterNode_first in E8 as [C8 (n8 & T8)].
  cbn [cfg trace flags] in *.
  apply bind_done in E as (? & s9 & E9 & E). apply callE_inv in E9 as [-> _].
  apply bind_done in E as (f9 & ? & [= <- <-] & E).
  apply bind_done in E as ([] & s10 & E10 & E).
  apply activation_extends in E10 as [C10 (n10 & T10)]. cbn [cfg trace flags] in *.
  apply bind_done in E as (? & s11 & E11 & E). apply callE_inv in E11 as [-> _].
  apply startRemoteServices_done in E as [C12 T12]. cbn [cfg trace flags] in *.
  assert (cfg s10 = cfg st) as C by congruence. split; [congruence|].
  exists ([RunPastelNode true "" ""] ++ n3),
         (n5 ++ [GetMasternodeConfData (flagMasterNodeName (flags s5))]),
         (n8 ++ [RunPastelNode true "" ""] ++ n10),
         (with_PrivateKey (rout c6) (flags s5)).
  split.
  - assert (cfg s5 = cfg st) as C5' by congruence. rewrite C5' in T8.
    rewrite T12, T10, T8, T5, T3, C, <- !app_assoc. reflexivity.
  - apply Forall_app. split; [done|]. by repeat constructor.
Qed.

(** X30. In the other revision of the file the check that the remote
    daemon has stopped can never fail: [remoteHotNodeCtrl] behaves as if,
    after the [stop] command, it sent one [getinfo] query and paid no
    attention to the answer. *)
Theorem part_002_remoteHotNodeCtrl_stop_check_never_fails (fuel : nat)
    (r : ColdHotRunnerOpts) (st : State) :
  part_002.remoteHotNodeCtrl W P fuel r st
  = (f ← getFlags;
     config ← getConfig;
     _ ← call W (GoSshRun (remotePasteldCmd r f config));
     running ← part_002.CheckPastelDRunningRemote W (remotePastelCli r) true;
     if negb running then raise "unable to start pasteld on remote"
     else
       _ ← part_002.checkMasterNodeSyncRemote W P fuel r 0;
       _ ← callE W (SshOutput (remotePastelCli r +:+ " stop"));
       _ ← call W (getinfo (remotePastelCli r));
       mret tt) st.
Proof.
  unfold part_002.remoteHotNodeCtrl, remotePasteldCmd.
  apply bind_ext. intros f s1. apply bind_ext. intros config s2.
  apply bind_ext. intros ? s3. apply bind_ext. intros running s4.
  destruct (negb running); [reflexivity|].
  apply bind_ext. intros ? s5. apply bind_ext. intros ? [c6 f6 tr6].
  unfold getinfo. cbn. run. destruct (rerr (W tr6 _)); reflexivity.
Qed.

End RunOrder.

Lemma Run_success_order_witness :
  let st' := (cmd.Run Scenarios.W_hot Scenarios.P0 1 Scenarios.r0 Scenarios.st0).2 in
  cmd.Run Scenarios.W_hot Scenarios.P0 1 Scenarios.r0 Scenarios.st0 = (Done tt, st')
  ∧ cmd.cfg st' = Scenarios.config0
  ∧ ∃ (pre mid post : list cmd.Event) (f : cmd.Flags),
      cmd.trace st'
      = [] ++ pre ++ [cmd.StopPastelDAndWait] ++ mid
        ++ [cmd.GoSshRun (cmd.remoteMasternodeCmd Scenarios.r0 f Scenarios.config0)] ++ post
        ++ [cmd.StopPastelDAndWait]
        ++ cmd.remoteServiceCalls Scenarios.P0 Scenarios.r0 Scenarios.config0
      ∧ Forall (λ e, cmd.startsLocalDaemon e = false) mid.
Proof.
  cbv zeta.
  assert (cmd.Run Scenarios.W_hot Scenarios.P0 1 Scenarios.r0 Scenarios.st0
          = (Done tt,
             (cmd.Run Scenarios.W_hot Scenarios.P0 1 Scenarios.r0 Scenarios.st0).2))
    as E by (vm_compute; reflexivity).
  split; [exact E|].
  exact (Run_success_order Scenarios.W_hot Scenarios.P0 1 Scenarios.r0 Scenarios.st0 _ E).
Defined.

(** ** The arguments of the cold/hot run and the regenerated credentials *)

Section HandleArgs.
Import cmd.

Lemma strings_ReplaceAll_bytes (s : string) (old new : ascii) :
  old ≠ new → old ∉ bytes (strings_ReplaceAll s old new).
Proof.
  intros Hne. unfold bytes. induction s as [|c s IH]; cbn.
  - apply not_elem_of_nil.
  - apply not_elem_of_cons. split; [|done].
    destruct (Ascii.eqb_spec c old) as [->|Hc]; congruence.
Qed.

(** X22. [handleArgs] succeeds only when the directory of the utility
    on the hot node is given.  It then fills in the default directory of
    the executables when none is given, leaves the SSH options and the
    testnet option alone, and the three remote paths it sets hold no
    backslash. *)
Theorem handleArgs_paths (P : Platform) (DefaultPastelExecutableDir : string)
    (config config' : RemoteDirs) (opts opts' : ColdHotRunnerOpts) :
  handleArgs P DefaultPastelExecutableDir config opts = Done (config', opts') →
  RemotePastelUtilityDir config ≠ ""
  ∧ RemotePastelUtilityDir config' = RemotePastelUtilityDir config
  ∧ RemotePastelExecDir config'
    = (if isEmpty (RemotePastelExecDir config) then DefaultPastelExecutableDir
       else RemotePastelExecDir config)
  ∧ ("\"%char ∉ bytes (remotePastelUtility opts'))
  ∧ ("\"%char ∉ bytes (remotePasteld opts'))
  ∧ ("\"%char ∉ bytes (remotePastelCli opts'))
  ∧ (sshUser opts', sshIP opts', sshPort opts', sshKey opts', testnetOption opts')
    = (sshUser opts, sshIP opts, sshPort opts, sshKey opts, testnetOption opts).
Proof.
  unfold handleArgs, isEmpty.
  destruct (String.eqb_spec (RemotePastelUtilityDir config) ""); [discriminate|].
  intros [= <- <-]. cbn.
  repeat split; try done; try (by apply strings_ReplaceAll_bytes).
  - by destruct (String.eqb _ _).
  - by destruct (String.eqb _ _).
Qed.

End HandleArgs.

Lemma handleArgs_paths_witness :
  ∃ config' opts',
    cmd.handleArgs Scenarios.P0 "/root/pastel" Scenarios.dirs0 Scenarios.r0 = Done (config', opts')
    ∧ cmd.remotePastelUtility opts' = "C:/pastel/pastel-utility"
    ∧ cmd.remotePastelCli opts' = "/root/pastel/pastel-cli"
    ∧ ("\"%char ∉ cmd.bytes (cmd.remotePastelUtility opts')).
Proof.
  eexists _, _. split; [vm_compute; reflexivity|].
  split; [reflexivity|]. split; [reflexivity|].
  exact (proj1 (proj2 (proj2 (proj2
           (handleArgs_paths Scenarios.P0 "/root/pastel" Scenarios.dirs0 _ Scenarios.r0 _
              eq_refl))))).
Defined.

Section Regenerate.
Import cmd.
Context (W : World) (P : Platform).

(** X8. With [RegenRPC] set, an installation whose working directory
    could be made replaces all three credentials, whatever they were: the
    port by the entry of the port table, the user and the password by the
    two random strings it draws, of eight and of fifteen characters, in
    this order.  When the port table has no entry at [NodeRPCPort], the
    setup panics before anything is drawn. *)
Theorem setup_regenerates_credentials (st : State) :
  let c := cfg st in
  let tr1 := trace st ++ [CreateFolder (WorkingDir c) (Force c)] in
  let user := rout (W tr1 (GenerateRandomString 8)) in
  let pwd := rout (W (tr1 ++ [GenerateRandomString 8]) (GenerateRandomString 15)) in
  let r := setupBasePasteWorkingEnvironment W P st in
  OpMode c = "install" → RegenRPC c = true →
  rerr (W (trace st) (CreateFolder (WorkingDir c) (Force c))) = None →
  match GetSNPortList P c !! NodeRPCPort P with
  | None => r = (Panic, {| cfg := c; flags := flags st; trace := tr1 |})
  | Some port =>
      cfg r.2 = with_RPCPwd pwd (with_RPCUser user (with_RPCPort port c))
      ∧ ∃ rest,
          trace r.2 = tr1 ++ [GenerateRandomString 8; GenerateRandomString 15] ++ rest
  end.
Proof.
  destruct st as [c f tr]. cbv zeta. cbn [cfg flags trace]. intros Hop Hregen Hdir.
  unfold setupBasePasteWorkingEnvironment, updatePastelConfigFile. run.
  rewrite Hop. run. rewrite Hdir. run. rewrite Hregen, !orb_true_r. run.
  destruct (GetSNPortList P c !! NodeRPCPort P) as [port|]; run; [|reflexivity].
  rewrite <- !app_assoc. cbn [app].
  repeat match goal with
    | |- context [rerr (W ?h ?e)] => destruct (rerr (W h e)); run
    | |- context [ryes ?x && negb ?y] => destruct (ryes x && negb y); run
    end.
  all: split; [reflexivity|]; eexists; rewrite <- !app_assoc; reflexivity.
Qed.

End Regenerate.

Lemma setup_regenerates_credentials_witness :
  let r := cmd.setupBasePasteWorkingEnvironment Scenarios.W_random Scenarios.P0
             Scenarios.st_regen in
  cmd.RPCPort (cmd.cfg r.2) = 19932
  ∧ cmd.RPCUser (cmd.cfg r.2) = "kD3xQ9pL"
  ∧ cmd.RPCPwd (cmd.cfg r.2) = "Zr8mN2vB7cX4wQ1".
Proof.
  cbv zeta.
  destruct (setup_regenerates_credentials Scenarios.W_random Scenarios.P0 Scenarios.st_regen
              eq_refl eq_refl eq_refl) as [-> _].
  repeat split.
Defined.

(** ** The service starters, the firewall and the parameter files *)

Ltac srun :=
  repeat (progress (unfold mbind, cmd.services.T_bind, mret, cmd.services.T_ret,
                    cmd.services.call, cmd.services.callE, cmd.services.fail; cbn)).

Section Starters.
Import cmd cmd.services.
Context (W : World) (K : Constants) (configurer : Configurer) (flagDevMode : bool).

Lemma runRQService_opening (config : Config) (st : State) :
  runRQService W K configurer config st
  = (srvStarted ← startByManager W K configurer (servicemanager.RQService (base K)) false;
     if (srvStarted : bool) then mret tt
     else runPastelService W config (servicemanager.RQService (base K))
            (servicemanager.PastelRQServiceExecName (base K) (GetOS W))
            ["--config-file=" +:+ GetRQServiceConfFile configurer (WorkingDir config)]) st.
Proof.
  unfold runRQService, startByManager. destruct (newManager W K configurer) as [sm err].
  reflexivity.
Qed.

Lemma runWalletNodeService_opening (config : Config) (st : State) :
  runWalletNodeService W K configurer flagDevMode config st
  = (srvStarted ← startByManager W K configurer (servicemanager.WalletNode (base K)) false;
     if (srvStarted : bool) then mret tt
     else runPastelService W config (servicemanager.WalletNode (base K))
            (servicemanager.WalletNodeExecName (base K) (GetOS W))
            (["--config-file=" +:+ GetWalletNodeConfFile configurer (WorkingDir config)
              +:+ " --pastel-config-file=" +:+ WorkingDir config +:+ "/pastel.conf"]
             ++ (if flagDevMode then ["--swagger"] else []))) st.
Proof.
  unfold runWalletNodeService, startByManager.
  destruct (newManager W K configurer) as [sm err]. reflexivity.
Qed.

Lemma runSuperNodeService_opening (config : Config) (st : State) :
  runSuperNodeService W K configurer config st
  = (srvStarted ← startByManager W K configurer (servicemanager.SuperNode (base K)) true;
     if (srvStarted : bool) then mret tt
     else runPastelService W config (servicemanager.SuperNode (base K))
            (servicemanager.SuperNodeExecName (base K) (GetOS W))
            ["--config-file=" +:+ GetSuperNodeConfFile configurer (WorkingDir config)]) st.
Proof.
  unfold runSuperNodeService, startByManager.
  destruct (newManager W K configurer) as [sm err].
  destruct (bool_decide (err = None)); [|reflexivity].
  unfold mbind, T_bind, StartService.
  destruct (servicemanager.StartService sm _ (host st)) as [[started [e|]] h]; reflexivity.
Qed.

(** Where nothing is registered, and where there is no service manager,
    the opening reports "not started" and leaves the host as it is. *)
Lemma startByManager_unregistered (app : servicemanager.ToolType) (keepGoing : bool)
    (st : State) :
  (servicemanager.IsRegistered (newManager W K configurer).1 app (host st)).1 = false →
  startByManager W K configurer app keepGoing st = (Done false, st).
Proof.
  unfold startByManager, newManager. intros Hreg.
  destruct (New_cases (sys W) (base K) (GetOS W) (DefaultHomeDir configurer))
    as [[Hos E]|[Hos E]].
  - rewrite Hos in *. cbn in *. unfold mbind, T_bind, StartService. cbn.
    rewrite LinuxSystemdManager_StartService_unregistered by done.
    by destruct st.
  - destruct (GetOS W); try done; cbn; by destruct st.
Qed.

(** With a service manager, the opening gives what [StartService] gives. *)
Lemma startByManager_result (app : servicemanager.ToolType) (keepGoing : bool) (st : State)
    (started : bool) (err : error) (h : servicemanager.State) :
  servicemanager.StartService (newManager W K configurer).1 app (host st)
  = ((started, err), h) →
  (newManager W K configurer).2 = None →
  startByManager W K configurer app keepGoing st
  = (match err with
     | Some e => if keepGoing then Done started else Raise e
     | None => Done started
     end, {| host := h; calls := calls st |}).
Proof.
  unfold startByManager. destruct (newManager W K configurer) as [sm e0]. cbn.
  intros Hs ->. cbn. unfold mbind, T_bind, StartService. rewrite Hs.
  destruct err as [e|]; [destruct keepGoing|]; reflexivity.
Qed.

(** X12. Once the executable is found, [runPastelService] launches it in
    the background and waits ten seconds.  When the tool is then seen
    running it returns success; when not, it runs the same command a
    second time in the foreground and returns the error of that run, if
    any.  The host of the service manager is not touched. *)
Theorem runPastelService_second_run (config : Config) (toolType : servicemanager.ToolType)
    (toolFileName : string) (args : list string) (st : State) :
  let check := CheckPastelFilePath (PastelExecDir config) toolFileName in
  let execPath := rout (answers W (calls st) check) in
  let launch := [check; GoRunCMD execPath args; Sleep 10] in
  let launched := calls st ++ launch ++ [CheckProcessRunning toolType] in
  rerr (answers W (calls st) check) = None →
  runPastelService W config toolType toolFileName args st
  = if ryes (answers W (calls st ++ launch) (CheckProcessRunning toolType))
    then (Done tt, {| host := host st; calls := launched |})
    else (match rerr (answers W launched (RunCMD execPath args)) with
          | Some e => Raise e
          | None => Done tt
          end, {| host := host st; calls := launched ++ [RunCMD execPath args] |}).
Proof.
  cbv zeta. intros Hc. destruct st as [h cs]. cbn [calls host] in *.
  unfold runPastelService. srun. rewrite Hc. srun. rewrite <- !app_assoc. cbn [app].
  destruct (ryes _); srun; [reflexivity|].
  destruct (rerr (answers W _ (RunCMD _ _))); by rewrite <- ?app_assoc.
Qed.

(** X13. Where the service manager does not find the unit of the tool
    registered, the starters of [rq-service], of the wallet node and of
    the supernode do exactly what [runPastelService] does for the
    executable of the tool and its configuration file. *)
Theorem starters_fall_back (config : Config) (st : State) :
  let unregistered app :=
    (servicemanager.IsRegistered (newManager W K configurer).1 app (host st)).1 = false in
  (unregistered (servicemanager.RQService (base K)) →
   runRQService W K configurer config st
   = runPastelService W config (servicemanager.RQService (base K))
       (servicemanager.PastelRQServiceExecName (base K) (GetOS W))
       ["--config-file=" +:+ GetRQServiceConfFile configurer (WorkingDir config)] st)
  ∧ (unregistered (servicemanager.WalletNode (base K)) →
     runWalletNodeService W K configurer flagDevMode config st
     = runPastelService W config (servicemanager.WalletNode (base K))
         (servicemanager.WalletNodeExecName (base K) (GetOS W))
         (["--config-file=" +:+ GetWalletNodeConfFile configurer (WorkingDir config)
           +:+ " --pastel-config-file=" +:+ WorkingDir config +:+ "/pastel.conf"]
          ++ (if flagDevMode then ["--swagger"] else [])) st)
  ∧ (unregistered (servicemanager.SuperNode (base K)) →
     runSuperNodeService W K configurer config st
     = runPastelService W config (servicemanager.SuperNode (base K))
         (servicemanager.SuperNodeExecName (base K) (GetOS W))
         ["--config-file=" +:+ GetSuperNodeConfFile configurer (WorkingDir config)] st).
Proof.
  cbv zeta. split; [|split]; intros Hreg.
  - rewrite runRQService_opening. unfold mbind at 1, T_bind at 1.
    by rewrite startByManager_unregistered.
  - rewrite runWalletNodeService_opening. unfold mbind at 1, T_bind at 1.
    by rewrite startByManager_unregistered.
  - rewrite runSuperNodeService_opening. unfold mbind at 1, T_bind at 1.
    by rewrite startByManager_unregistered.
Qed.

(** X14. When the service manager reports the tool as started, each of
    the four starters returns success at once: it looks for no executable
    and launches no process. *)
Theorem starters_started_by_manager (config : Config) (st : State)
    (h : servicemanager.State) :
  let started app :=
    servicemanager.StartService (newManager W K configurer).1 app (host st)
    = ((true, None), h) in
  let done := (Done tt, {| host := h; calls := calls st |}) in
  (started (servicemanager.RQService (base K)) →
   runRQService W K configurer config st = done)
  ∧ (started (servicemanager.DDService (base K)) →
     runDDService W K configurer config st = done)
  ∧ (started (servicemanager.WalletNode (base K)) →
     runWalletNodeService W K configurer flagDevMode config st = done)
  ∧ (started (servicemanager.SuperNode (base K)) →
     runSuperNodeService W K configurer config st = done).
Proof.
  cbv zeta.
  assert (∀ app, servicemanager.StartService (newManager W K configurer).1 app (host st)
                 = ((true, None), h) → (newManager W K configurer).2 = None) as Hnew.
  { intros app. unfold newManager.
    destruct (New_cases (sys W) (base K) (GetOS W) (DefaultHomeDir configurer))
      as [[Hos E]|[Hos E]].
    - by rewrite Hos.
    - rewrite E. discriminate. }
  repeat split; intros Hs; pose proof (Hnew _ Hs) as Hn.
  - rewrite runRQService_opening. unfold mbind at 1, T_bind at 1.
    by rewrite (startByManager_result _ _ _ _ _ _ Hs Hn).
  - unfold runDDService. destruct (newManager W K configurer) as [sm e0].
    cbn in Hs, Hn. subst e0. cbn. unfold mbind, T_bind, StartService. by rewrite Hs.
  - rewrite runWalletNodeService_opening. unfold mbind at 1, T_bind at 1.
    by rewrite (startByManager_result _ _ _ _ _ _ Hs Hn).
  - rewrite runSuperNodeService_opening. unfold mbind at 1, T_bind at 1.
    by rewrite (startByManager_result _ _ _ _ _ _ Hs Hn).
Qed.

(** X15. An error of [StartService] ends the starter of [rq-service],
    which returns it, but not the starter of the supernode, which goes on
    to launch the executable itself. *)
Theorem runSuperNodeService_goes_on_after_start_error (config : Config) (st : State)
    (h : servicemanager.State) (e : string) :
  let after := {| host := h; calls := calls st |} in
  let fails app :=
    servicemanager.StartService (newManager W K configurer).1 app (host st)
    = ((false, Some e), h) in
  (newManager W K configurer).2 = None →
  (fails (servicemanager.RQService (base K)) →
   runRQService W K configurer config st = (Raise e, after))
  ∧ (fails (servicemanager.SuperNode (base K)) →
     runSuperNodeService W K configurer config st
     = runPastelService W config (servicemanager.SuperNode (base K))
         (servicemanager.SuperNodeExecName (base K) (GetOS W))
         ["--config-file=" +:+ GetSuperNodeConfFile configurer (WorkingDir config)] after).
Proof.
  cbv zeta. intros Hn. split; intros Hs.
  - rewrite runRQService_opening. unfold mbind at 1, T_bind at 1.
    by rewrite (startByManager_result _ _ _ _ _ _ Hs Hn).
  - rewrite runSuperNodeService_opening. unfold mbind at 1, T_bind at 1.
    by rewrite (startByManager_result _ _ _ _ _ _ Hs Hn).
Qed.


End Starters.

Section Install.
Import cmd cmd.services.
Context (W : World) (K : Constants).

Lemma openPortsLoop_shape (portList : list Z) (st st' : State) (res : outcome unit) :
  GetOS W = servicemanager.Linux →
  openPortsLoop W portList st = (res, st') →
  host st' = host st
  ∧ ∃ k : nat,
      calls st' = calls st ++ map ufwAllow (take k portList)
      ∧ (res = Done tt → take k portList = portList)
      ∧ (∀ e, res = Raise e →
           ∃ port, portList !! (k - 1)%nat = Some port ∧ (0 < k)%nat
                   ∧ rerr (answers W (calls st ++ map ufwAllow (take (k - 1) portList))
                             (ufwAllow port)) = Some e)
      ∧ (res = Done tt ∨ ∃ e, res = Raise e).
Proof.
  intros Hos. revert st. induction portList as [|port rest IH]; intros [h cs] E.
  - injection E as <- <-. split; [done|]. exists 0%nat. cbn. rewrite app_nil_r.
    repeat split; auto. discriminate.
  - cbn [openPortsLoop] in E. rewrite Hos in E. revert E. srun.
    destruct (rerr (answers W cs _)) as [e|] eqn:He; srun.
    + intros [= <- <-]. split; [done|]. exists 1%nat. cbn.
      repeat split; eauto; try discriminate.
      intros e' [= <-]. exists port. rewrite app_nil_r. auto.
    + intros E. apply IH in E as (Hh & k & Hc & Hd & He' & Hr). cbn [host calls] in *.
      split; [done|]. exists (S k). cbn [take map].
      rewrite Hc, <- app_assoc. split; [done|]. split; [|split; [|done]].
      * intros Hres. by rewrite Hd.
      * intros e Hres. destruct (He' e Hres) as (p & Hp & Hk & Hq).
        exists p. destruct k as [|k]; [lia|]. cbn [Nat.sub] in *.
        rewrite Nat.sub_0_r in *. cbn [lookup list_lookup take map].
        rewrite <- app_assoc in Hq. repeat split; auto; lia.
Qed.

Lemma openPortsLoop_elsewhere (portList : list Z) (st : State) :
  GetOS W ≠ servicemanager.Linux → openPortsLoop W portList st = (Done tt, st).
Proof.
  intros Hos. induction portList as [|port rest IH]; [done|].
  cbn [openPortsLoop]. destruct (GetOS W); try done; srun; exact IH.
Qed.

(** X6. In an installation on Linux [openPorts] runs [ufw allow] for
    the ports in their order and nothing else.  When it fails, the error
    is that of the last command it ran, and the ports after that one are
    not opened; it succeeds only after a command for every port.  Outside
    an installation, and on every other system, it runs nothing and
    succeeds. *)
Theorem openPorts_stops_at_first_failure (config : Config) (portList : list Z)
    (st st' : State) (res : outcome unit) :
  openPorts W config portList st = (res, st') →
  host st' = host st
  ∧ if String.eqb (OpMode config) "install"
       && bool_decide (GetOS W = servicemanager.Linux)
    then ∃ k : nat,
           calls st' = calls st ++ map ufwAllow (take k portList)
           ∧ (res = Done tt → take k portList = portList)
           ∧ (∀ e, res = Raise e →
                ∃ port, portList !! (k - 1)%nat = Some port ∧ (0 < k)%nat
                        ∧ rerr (answers W (calls st ++ map ufwAllow (take (k - 1) portList))
                                  (ufwAllow port)) = Some e)
           ∧ (res = Done tt ∨ ∃ e, res = Raise e)
    else res = Done tt ∧ calls st' = calls st.
Proof.
  unfold openPorts. destruct (String.eqb (OpMode config) "install"); cbn [negb andb].
  - destruct (bool_decide_reflect (GetOS W = servicemanager.Linux)) as [Hos|Hos].
    + by apply openPortsLoop_shape.
    + rewrite openPortsLoop_elsewhere by done. by intros [= <- <-].
  - by intros [= <- <-].
Qed.

Lemma downloadLoop_no_force (path : string) (names : list string) (st st' : State)
    (res : outcome unit) :
  downloadLoop W K path false names st = (res, st') →
  host st' = host st
  ∧ ∃ new, calls st' = calls st ++ new
           ∧ Forall (λ c, isGetChecksum c = false) new
           ∧ (res = Done tt → new = flat_map (fetchAbsent K path) names).
Proof.
  revert st. induction names as [|name rest IH]; intros [h cs] E.
  - injection E as <- <-. split; [done|]. exists []. by rewrite app_nil_r.
  - cbn [downloadLoop] in E. revert E. srun.
    destruct (rerr (answers W cs _)) as [e|]; srun; cycle 1.
    { intros [= <- <-]. split; [done|]. eexists. split; [done|]. split; [|discriminate].
      by repeat constructor. }
    cbn [flat_map]. unfold fetchAbsent at 1. cbv zeta.
    destruct (default "" (PastelParamsCheckSums K !! name)) as [|c sum]; srun.
    + intros E. apply IH in E as (Hh & new & Hc & HQ & Hd). cbn [host calls] in *.
      split; [done|]. eexists. rewrite Hc, <- !app_assoc. split; [done|].
      split; [by repeat constructor|]. intros Hres. by rewrite (Hd Hres).
    + destruct (rerr (answers W _ (DownloadFile _ _))) as [e'|]; srun.
      * intros [= <- <-]. split; [done|]. eexists. rewrite <- app_assoc.
        split; [done|]. split; [|discriminate]. by repeat constructor.
      * intros E. apply IH in E as (Hh & new & Hc & HQ & Hd). cbn [host calls] in *.
        split; [done|]. eexists. rewrite Hc, <- !app_assoc. split; [done|].
        split; [by repeat constructor|]. intros Hres. by rewrite (Hd Hres).
Qed.

(** X7. Without [force], [downloadZksnarkParams] computes no checksum.
    When it succeeds, each file was looked for once, in the order of the
    names, and fetched right away, except that a file for whose name no
    checksum is recorded was not fetched at all. *)
Theorem downloadZksnarkParams_without_force (path version : string) (st st' : State)
    (res : outcome unit) :
  downloadZksnarkParams W K path false version st = (res, st') →
  host st' = host st
  ∧ ∃ new, calls st' = calls st ++ new
           ∧ Forall (λ c, isGetChecksum c = false) new
           ∧ (res = Done tt
              → new = flat_map (fetchAbsent K path) (zkParams K version)).
Proof. apply downloadLoop_no_force. Qed.

End Install.

Lemma runPastelService_second_run_witness :
  let check := cmd.services.CheckPastelFilePath "/home/cold/pastel" "rq-service-linux-amd64" in
  let path := "/home/cold/pastel/rq-service-linux-amd64" in
  let args := ["--config-file=/home/cold/.pastel/rqservice.toml"] in
  cmd.services.runPastelService Scenarios.Ws Scenarios.config0 "rq-service"
    "rq-service-linux-amd64" args Scenarios.sst0
  = (Done tt,
     {| cmd.services.host := Scenarios.host0;
        cmd.services.calls :=
          [check; cmd.services.GoRunCMD path args; cmd.services.Sleep 10;
           cmd.services.CheckProcessRunning "rq-service"; cmd.services.RunCMD path args] |}).
Proof.
  apply (runPastelService_second_run Scenarios.Ws Scenarios.config0 "rq-service"
           "rq-service-linux-amd64"
           ["--config-file=/home/cold/.pastel/rqservice.toml"] Scenarios.sst0).
  reflexivity.
Defined.

Lemma starters_fall_back_witness :
  cmd.services.runRQService Scenarios.Ws Scenarios.Ks Scenarios.configurer0 Scenarios.config0
    Scenarios.sst0
  = cmd.services.runPastelService Scenarios.Ws Scenarios.config0 "rq-service"
      "rq-service-linux-amd64" ["--config-file=/home/cold/.pastel/rqservice.toml"]
      Scenarios.sst0.
Proof.
  apply (proj1 (starters_fall_back Scenarios.Ws Scenarios.Ks Scenarios.configurer0 false
                  Scenarios.config0 Scenarios.sst0)).
  vm_compute. reflexivity.
Defined.

Lemma starters_started_by_manager_witness :
  let name := "pastel-rq-service.service" in
  cmd.services.runRQService Scenarios.Ws Scenarios.Ks Scenarios.configurer0 Scenarios.config0
    Scenarios.sst_units
  = (Done tt,
     {| cmd.services.host :=
          {| servicemanager.files := servicemanager.files Scenarios.host_units;
             servicemanager.journal :=
               [servicemanager.Systemctl servicemanager.status name;
                servicemanager.Systemctl servicemanager.start name] |};
        cmd.services.calls := [] |}).
Proof.
  apply (proj1 (starters_started_by_manager Scenarios.Ws Scenarios.Ks Scenarios.configurer0
                  false Scenarios.config0 Scenarios.sst_units _)).
  vm_compute. reflexivity.
Defined.

Lemma runSuperNodeService_goes_on_after_start_error_witness :
  let name := "pastel-supernode.service" in
  let after :=
    {| cmd.services.host :=
         {| servicemanager.files := servicemanager.files Scenarios.host_units;
            servicemanager.journal :=
              [servicemanager.Systemctl servicemanager.status name;
               servicemanager.Systemctl servicemanager.start name] |};
       cmd.services.calls := [] |} in
  cmd.services.runSuperNodeService Scenarios.Ws_nostart Scenarios.Ks Scenarios.configurer0
    Scenarios.config0 Scenarios.sst_units
  = cmd.services.runPastelService Scenarios.Ws_nostart Scenarios.config0 "supernode"
      "supernode-linux-amd64" ["--config-file=/home/cold/.pastel/supernode.yml"] after.
Proof.
  apply (proj2 (runSuperNodeService_goes_on_after_start_error Scenarios.Ws_nostart
                  Scenarios.Ks Scenarios.configurer0 Scenarios.config0 Scenarios.sst_units
                  _ "unable to start service (supernode): exit status 1" eq_refl)).
  vm_compute. reflexivity.
Defined.


Lemma openPorts_stops_at_first_failure_witness :
  let r := cmd.services.openPorts Scenarios.Ws Scenarios.config_install [4444; 4445; 4446]
             Scenarios.sst0 in
  r = (Raise "exit status 1",
       {| cmd.services.host := Scenarios.host0;
          cmd.services.calls := [cmd.services.ufwAllow 4444; cmd.services.ufwAllow 4445] |})
  ∧ ∃ k : nat,
      cmd.services.calls r.2 = [] ++ map cmd.services.ufwAllow (take k [4444; 4445; 4446])
      ∧ (r.1 = Done tt → take k [4444; 4445; 4446] = [4444; 4445; 4446])
      ∧ (∀ e, r.1 = Raise e →
           ∃ port, [4444; 4445; 4446] !! (k - 1)%nat = Some port ∧ (0 < k)%nat
                   ∧ cmd.rerr (cmd.services.answers Scenarios.Ws
                                 ([] ++ map cmd.services.ufwAllow
                                          (take (k - 1) [4444; 4445; 4446]))
                                 (cmd.services.ufwAllow port)) = Some e)
      ∧ (r.1 = Done tt ∨ ∃ e, r.1 = Raise e).
Proof.
  cbv zeta. split; [vm_compute; reflexivity|].
  exact (proj2 (openPorts_stops_at_first_failure Scenarios.Ws Scenarios.config_install
                  [4444; 4445; 4446] Scenarios.sst0 _ _ (surjective_pairing _))).
Defined.

Lemma downloadZksnarkParams_without_force_witness :
  let dir := "/home/cold/.pastel-params" in
  let url := "https://download.pastel.network/pastel-params/sprout-groth16.params" in
  let r := cmd.services.downloadZksnarkParams Scenarios.Ws Scenarios.Ks dir false "1.0"
             Scenarios.sst0 in
  r = (Done tt,
       {| cmd.services.host := Scenarios.host0;
          cmd.services.calls :=
            [cmd.services.Stat "/home/cold/.pastel-params/sprout-groth16.params";
             cmd.services.DownloadFile "/home/cold/.pastel-params/sprout-groth16.params" url;
             cmd.services.Stat "/home/cold/.pastel-params/sapling-spend.params";
             cmd.services.Stat "/home/cold/.pastel-params/sapling-output.params"] |})
  ∧ ∃ new, cmd.services.calls r.2 = [] ++ new
           ∧ Forall (λ c, cmd.services.isGetChecksum c = false) new
           ∧ (r.1 = Done tt
              → new = flat_map (cmd.services.fetchAbsent Scenarios.Ks dir)
                        (cmd.services.zkParams Scenarios.Ks "1.0")).
Proof.
  cbv zeta. split; [vm_compute; reflexivity|].
  exact (proj2 (downloadZksnarkParams_without_force Scenarios.Ws Scenarios.Ks
                  "/home/cold/.pastel-params" "1.0" Scenarios.sst0 _ _
                  (surjective_pairing _))).
Defined.
